(** * Neo4j REST facade: service layer (server.py) and client helper (client.py)

    A shallow embedding of the query router, the six HTTP handlers, the
    database adapter they call, and the client's [extract_node_id].

    Modelling conventions.
    - Python values are the inductive [pyval]: what [request.get_json()],
      [response.json()] and [record.data()] hand to the code.  Numbers are
      Python ints ([Z]); floating point values are outside the model.  A
      value the driver returns that has no JSON form (a temporal object, for
      instance) is [PObj], carrying its [repr].
    - A dict is its list of items in insertion order; keys are unique in
      Python, lookups here take the first match.
    - Text is [string], holding the UTF-8 bytes of a Python [str]; where
      the code looks at characters the bytes are decoded to code points and
      Python's Unicode tables apply (module [Text]).
    - Exceptions are instances of [Exception]: a class name and [str(e)].
    - The graph database is external.  Its driver is the interface [Driver];
      every call to it is also appended to a ghost log, so that theorems can
      say which transaction mode was used and whether the database was
      reached at all.  Logging through [logger] is not modelled. *)

From Stdlib Require Import String Ascii List ZArith NArith Bool Lia.
From Stdlib Require Import DecimalString.
Import ListNotations.
Open Scope string_scope.
Open Scope Z_scope.

Set Implicit Arguments.

(** ** Python values *)

Unset Elimination Schemes.
Inductive pyval : Type :=
| PNone
| PBool (b : bool)
| PInt (n : Z)
| PStr (s : string)
| PList (xs : list pyval)
| PDict (items : list (string * pyval))
| PObj (repr : string).
Set Elimination Schemes.

Definition dict := list (string * pyval).

(** ** Exceptions and results *)

Record exn : Type := mkExn { exn_class : string; exn_str : string }.

Inductive Res (A : Type) : Type :=
| Ok (a : A)
| Raise (e : exn).
Arguments Ok {A} a.
Arguments Raise {A} e.

Definition AttributeError (m : string) := mkExn "AttributeError" m.
Definition TypeError (m : string) := mkExn "TypeError" m.
Definition KeyError (k : string) := mkExn "KeyError" ("'" ++ k ++ "'").

(** ** Text: the part of [str] the code uses *)

Module Str.

Definition code (c : ascii) : N := N_of_ascii c.

(** [s.startswith(p)]. *)
Fixpoint startswith (s p : string) : bool :=
  match p with
  | EmptyString => true
  | String a p' =>
      match s with
      | EmptyString => false
      | String b s' => Ascii.eqb a b && startswith s' p'
      end
  end.

(** [needle in hay] on two strings. *)
Fixpoint contains (hay needle : string) : bool :=
  startswith hay needle ||
  match hay with
  | EmptyString => false
  | String _ hay' => contains hay' needle
  end.

(** [sep.join(parts)]. *)
Definition join (sep : string) (parts : list string) : string :=
  String.concat sep parts.

Definition of_int (n : Z) : string := NilZero.string_of_int (Z.to_int n).

Definition nl : string := String (ascii_of_N 10) EmptyString.

End Str.

(** ** Text as Python has it: code points and Unicode tables *)

(** A [string] of this development holds the UTF-8 bytes of a Python [str];
    byte-wise equality, concatenation, prefix and substring tests agree with
    Python's on code points.  Where the code looks at characters
    ([strip], [upper], [repr]) the bytes are decoded first.  The tables are
    those of CPython 3.11 (Unicode 14.0.0). *)
Module Text.

(** A byte that belongs to no well-formed sequence, kept apart from every
    code point. *)
Definition invalid (b : N) : N := (1114112 + b)%N.

Inductive opened : Type :=
| Single (cp : N)
| Lead (acc : N) (need : nat).

(** What one byte starts: an ASCII character, or a sequence of two, three or
    four bytes. *)
Definition open_byte (b : N) : opened :=
  if (b <? 128)%N then Single b
  else if ((194 <=? b) && (b <? 224))%N then Lead (b - 192) 1
  else if ((224 <=? b) && (b <? 240))%N then Lead (b - 224) 2
  else if ((240 <=? b) && (b <? 245))%N then Lead (b - 240) 3
  else Single (invalid b).

Definition is_continuation (b : N) : bool := ((128 <=? b) && (b <? 192))%N.

(** UTF-8 decoding; [pending] are the bytes of the sequence under way,
    [need] the number of bytes it still lacks, [acc] its value so far.
    Surrogates encoded on three bytes are let through, as a [str] may hold
    them. *)
Fixpoint decode_with (pending : list N) (need : nat) (acc : N) (s : string)
  : list N :=
  match s with
  | EmptyString => List.map invalid pending
  | String c s' =>
      let b := N_of_ascii c in
      let afresh (before : list N) :=
        match open_byte b with
        | Single cp => before ++ cp :: decode_with [] 0 0 s'
        | Lead a n => before ++ decode_with [b] n a s'
        end%list in
      match need with
      | O => afresh []
      | S k =>
          if is_continuation b then
            let acc' := (acc * 64 + (b - 128))%N in
            match k with
            | O => acc' :: decode_with [] 0 0 s'
            | S _ => decode_with (pending ++ [b]) k acc' s'
            end
          else afresh (List.map invalid pending)
      end
  end.

Definition decode (s : string) : list N := decode_with [] 0 0 s.

Definition byte (n : N) : string := String (ascii_of_N n) EmptyString.

(** UTF-8 encoding of one code point. *)
Definition encode_cp (cp : N) : string :=
  if (cp <? 128)%N then byte cp
  else if (cp <? 2048)%N then byte (192 + cp / 64) ++ byte (128 + cp mod 64)
  else if (cp <? 65536)%N then
    byte (224 + cp / 4096) ++ byte (128 + (cp / 64) mod 64)
      ++ byte (128 + cp mod 64)
  else if (cp <? 1114112)%N then
    byte (240 + cp / 262144) ++ byte (128 + (cp / 4096) mod 64)
      ++ byte (128 + (cp / 64) mod 64) ++ byte (128 + cp mod 64)
  else byte (cp - 1114112).

Definition encode (t : list N) : string :=
  String.concat EmptyString (List.map encode_cp t).

Fixpoint eqb (t u : list N) : bool :=
  match t, u with
  | [], [] => true
  | a :: t', b :: u' => (a =? b)%N && eqb t' u'
  | _, _ => false
  end.

(** [str.isspace] on one character. *)
Definition whitespace : list N :=
  [9; 10; 11; 12; 13; 28; 29; 30; 31; 32;
   133; 160; 5760; 8192; 8193; 8194; 8195; 8196; 8197; 8198;
   8199; 8200; 8201; 8202; 8232; 8233; 8239; 8287; 12288]%N.

Definition isspace (c : N) : bool := existsb (N.eqb c) whitespace.

(** The upper-case mapping of single characters, in runs
    [(first, last, step, image of first)]: every [step]-th character from
    [first] to [last] maps to the character at the same distance from the
    image. *)
Definition upper_runs : list (N * N * N * N) :=
  [(97, 122, 1, 65); (181, 181, 1, 924); (224, 246, 1, 192);
   (248, 254, 1, 216); (255, 255, 1, 376); (257, 303, 2, 256);
   (305, 305, 1, 73); (307, 311, 2, 306); (314, 328, 2, 313);
   (331, 375, 2, 330); (378, 382, 2, 377); (383, 383, 1, 83);
   (384, 384, 1, 579); (387, 389, 2, 386); (392, 392, 1, 391);
   (396, 396, 1, 395); (402, 402, 1, 401); (405, 405, 1, 502);
   (409, 409, 1, 408); (410, 410, 1, 573); (414, 414, 1, 544);
   (417, 421, 2, 416); (424, 424, 1, 423); (429, 429, 1, 428);
   (432, 432, 1, 431); (436, 438, 2, 435); (441, 441, 1, 440);
   (445, 445, 1, 444); (447, 447, 1, 503); (453, 453, 1, 452);
   (454, 454, 1, 452); (456, 456, 1, 455); (457, 457, 1, 455);
   (459, 459, 1, 458); (460, 460, 1, 458); (462, 476, 2, 461);
   (477, 477, 1, 398); (479, 495, 2, 478); (498, 498, 1, 497);
   (499, 499, 1, 497); (501, 501, 1, 500); (505, 543, 2, 504);
   (547, 563, 2, 546); (572, 572, 1, 571); (575, 576, 1, 11390);
   (578, 578, 1, 577); (583, 591, 2, 582); (592, 592, 1, 11375);
   (593, 593, 1, 11373); (594, 594, 1, 11376); (595, 595, 1, 385);
   (596, 596, 1, 390); (598, 599, 1, 393); (601, 601, 1, 399);
   (603, 603, 1, 400); (604, 604, 1, 42923); (608, 608, 1, 403);
   (609, 609, 1, 42924); (611, 611, 1, 404); (613, 613, 1, 42893);
   (614, 614, 1, 42922); (616, 616, 1, 407); (617, 617, 1, 406);
   (618, 618, 1, 42926); (619, 619, 1, 11362); (620, 620, 1, 42925);
   (623, 623, 1, 412); (625, 625, 1, 11374); (626, 626, 1, 413);
   (629, 629, 1, 415); (637, 637, 1, 11364); (640, 640, 1, 422);
   (642, 642, 1, 42949); (643, 643, 1, 425); (647, 647, 1, 42929);
   (648, 648, 1, 430); (649, 649, 1, 580); (650, 651, 1, 433);
   (652, 652, 1, 581); (658, 658, 1, 439); (669, 669, 1, 42930);
   (670, 670, 1, 42928); (837, 837, 1, 921); (881, 883, 2, 880);
   (887, 887, 1, 886); (891, 893, 1, 1021); (940, 940, 1, 902);
   (941, 943, 1, 904); (945, 961, 1, 913); (962, 962, 1, 931);
   (963, 971, 1, 931); (972, 972, 1, 908); (973, 974, 1, 910);
   (976, 976, 1, 914); (977, 977, 1, 920); (981, 981, 1, 934);
   (982, 982, 1, 928); (983, 983, 1, 975); (985, 1007, 2, 984);
   (1008, 1008, 1, 922); (1009, 1009, 1, 929); (1010, 1010, 1, 1017);
   (1011, 1011, 1, 895); (1013, 1013, 1, 917); (1016, 1016, 1, 1015);
   (1019, 1019, 1, 1018); (1072, 1103, 1, 1040); (1104, 1119, 1, 1024);
   (1121, 1153, 2, 1120); (1163, 1215, 2, 1162); (1218, 1230, 2, 1217);
   (1231, 1231, 1, 1216); (1233, 1327, 2, 1232); (1377, 1414, 1, 1329);
   (4304, 4346, 1, 7312); (4349, 4351, 1, 7357); (5112, 5117, 1, 5104);
   (7296, 7296, 1, 1042); (7297, 7297, 1, 1044); (7298, 7298, 1, 1054);
   (7299, 7300, 1, 1057); (7301, 7301, 1, 1058); (7302, 7302, 1, 1066);
   (7303, 7303, 1, 1122); (7304, 7304, 1, 42570); (7545, 7545, 1, 42877);
   (7549, 7549, 1, 11363); (7566, 7566, 1, 42950); (7681, 7829, 2, 7680);
   (7835, 7835, 1, 7776); (7841, 7935, 2, 7840); (7936, 7943, 1, 7944);
   (7952, 7957, 1, 7960); (7968, 7975, 1, 7976); (7984, 7991, 1, 7992);
   (8000, 8005, 1, 8008); (8017, 8023, 2, 8025); (8032, 8039, 1, 8040);
   (8048, 8049, 1, 8122); (8050, 8053, 1, 8136); (8054, 8055, 1, 8154);
   (8056, 8057, 1, 8184); (8058, 8059, 1, 8170); (8060, 8061, 1, 8186);
   (8112, 8113, 1, 8120); (8126, 8126, 1, 921); (8144, 8145, 1, 8152);
   (8160, 8161, 1, 8168); (8165, 8165, 1, 8172); (8526, 8526, 1, 8498);
   (8560, 8575, 1, 8544); (8580, 8580, 1, 8579); (9424, 9449, 1, 9398);
   (11312, 11359, 1, 11264); (11361, 11361, 1, 11360); (11365, 11365, 1, 570);
   (11366, 11366, 1, 574); (11368, 11372, 2, 11367); (11379, 11379, 1, 11378);
   (11382, 11382, 1, 11381); (11393, 11491, 2, 11392); (11500, 11502, 2, 11499);
   (11507, 11507, 1, 11506); (11520, 11557, 1, 4256); (11559, 11559, 1, 4295);
   (11565, 11565, 1, 4301); (42561, 42605, 2, 42560); (42625, 42651, 2, 42624);
   (42787, 42799, 2, 42786); (42803, 42863, 2, 42802); (42874, 42876, 2, 42873);
   (42879, 42887, 2, 42878); (42892, 42892, 1, 42891); (42897, 42899, 2, 42896);
   (42900, 42900, 1, 42948); (42903, 42921, 2, 42902); (42933, 42947, 2, 42932);
   (42952, 42954, 2, 42951); (42961, 42961, 1, 42960); (42967, 42969, 2, 42966);
   (42998, 42998, 1, 42997); (43859, 43859, 1, 42931); (43888, 43967, 1, 5024);
   (65345, 65370, 1, 65313); (66600, 66639, 1, 66560); (66776, 66811, 1, 66736);
   (66967, 66977, 1, 66928); (66979, 66993, 1, 66940); (66995, 67001, 1, 66956);
   (67003, 67004, 1, 66964); (68800, 68850, 1, 68736); (71872, 71903, 1, 71840);
   (93792, 93823, 1, 93760); (125218, 125251, 1, 125184)]%N.

(** The characters whose upper case is more than one character. *)
Definition upper_special : list (N * list N) :=
  [(223, [83; 83]); (329, [700; 78]); (496, [74; 780]);
   (912, [921; 776; 769]); (944, [933; 776; 769]); (1415, [1333; 1362]);
   (7830, [72; 817]); (7831, [84; 776]); (7832, [87; 778]);
   (7833, [89; 778]); (7834, [65; 702]); (8016, [933; 787]);
   (8018, [933; 787; 768]); (8020, [933; 787; 769]); (8022, [933; 787; 834]);
   (8064, [7944; 921]); (8065, [7945; 921]); (8066, [7946; 921]);
   (8067, [7947; 921]); (8068, [7948; 921]); (8069, [7949; 921]);
   (8070, [7950; 921]); (8071, [7951; 921]); (8072, [7944; 921]);
   (8073, [7945; 921]); (8074, [7946; 921]); (8075, [7947; 921]);
   (8076, [7948; 921]); (8077, [7949; 921]); (8078, [7950; 921]);
   (8079, [7951; 921]); (8080, [7976; 921]); (8081, [7977; 921]);
   (8082, [7978; 921]); (8083, [7979; 921]); (8084, [7980; 921]);
   (8085, [7981; 921]); (8086, [7982; 921]); (8087, [7983; 921]);
   (8088, [7976; 921]); (8089, [7977; 921]); (8090, [7978; 921]);
   (8091, [7979; 921]); (8092, [7980; 921]); (8093, [7981; 921]);
   (8094, [7982; 921]); (8095, [7983; 921]); (8096, [8040; 921]);
   (8097, [8041; 921]); (8098, [8042; 921]); (8099, [8043; 921]);
   (8100, [8044; 921]); (8101, [8045; 921]); (8102, [8046; 921]);
   (8103, [8047; 921]); (8104, [8040; 921]); (8105, [8041; 921]);
   (8106, [8042; 921]); (8107, [8043; 921]); (8108, [8044; 921]);
   (8109, [8045; 921]); (8110, [8046; 921]); (8111, [8047; 921]);
   (8114, [8122; 921]); (8115, [913; 921]); (8116, [902; 921]);
   (8118, [913; 834]); (8119, [913; 834; 921]); (8124, [913; 921]);
   (8130, [8138; 921]); (8131, [919; 921]); (8132, [905; 921]);
   (8134, [919; 834]); (8135, [919; 834; 921]); (8140, [919; 921]);
   (8146, [921; 776; 768]); (8147, [921; 776; 769]); (8150, [921; 834]);
   (8151, [921; 776; 834]); (8162, [933; 776; 768]); (8163, [933; 776; 769]);
   (8164, [929; 787]); (8166, [933; 834]); (8167, [933; 776; 834]);
   (8178, [8186; 921]); (8179, [937; 921]); (8180, [911; 921]);
   (8182, [937; 834]); (8183, [937; 834; 921]); (8188, [937; 921]);
   (64256, [70; 70]); (64257, [70; 73]); (64258, [70; 76]);
   (64259, [70; 70; 73]); (64260, [70; 70; 76]); (64261, [83; 84]);
   (64262, [83; 84]); (64275, [1348; 1350]); (64276, [1348; 1333]);
   (64277, [1348; 1339]); (64278, [1358; 1350]); (64279, [1348; 1341])]%N.

Definition in_run (c : N) (r : N * N * N * N) : bool :=
  let '(first, last, step, _) := r in
  ((first <=? c) && (c <=? last) && ((c - first) mod step =? 0))%N.

(** [str.upper] on one character. *)
Definition upper_cp (c : N) : list N :=
  match List.find (fun e => (fst e =? c)%N) upper_special with
  | Some (_, image) => image
  | None =>
      match List.find (in_run c) upper_runs with
      | Some (first, _, _, image) => [(image + c - first)%N]
      | None => [c]
      end
  end.

Definition upper (t : list N) : list N := List.flat_map upper_cp t.

Fixpoint lstrip (t : list N) : list N :=
  match t with
  | [] => []
  | c :: t' => if isspace c then lstrip t' else t
  end.

Fixpoint rstrip (t : list N) : list N :=
  match t with
  | [] => []
  | c :: t' =>
      match rstrip t' with
      | [] => if isspace c then [] else [c]
      | r => c :: r
      end
  end.

Definition strip (t : list N) : list N := rstrip (lstrip t).

(** [t.startswith(p)] and [t.startswith((p1, ..., pn))]. *)
Fixpoint startswith (t p : list N) : bool :=
  match p with
  | [] => true
  | a :: p' =>
      match t with
      | [] => false
      | b :: t' => (a =? b)%N && startswith t' p'
      end
  end.

Definition startswith_any (t : list N) (ps : list (list N)) : bool :=
  existsb (startswith t) ps.

(** The characters beyond ASCII that [str.isprintable] refuses, in ranges. *)
Definition not_printable : list (N * N) :=
  [(128, 160); (173, 173); (888, 889); (896, 899);
   (907, 907); (909, 909); (930, 930); (1328, 1328);
   (1367, 1368); (1419, 1420); (1424, 1424); (1480, 1487);
   (1515, 1518); (1525, 1541); (1564, 1564); (1757, 1757);
   (1806, 1807); (1867, 1868); (1970, 1983); (2043, 2044);
   (2094, 2095); (2111, 2111); (2140, 2141); (2143, 2143);
   (2155, 2159); (2191, 2199); (2274, 2274); (2436, 2436);
   (2445, 2446); (2449, 2450); (2473, 2473); (2481, 2481);
   (2483, 2485); (2490, 2491); (2501, 2502); (2505, 2506);
   (2511, 2518); (2520, 2523); (2526, 2526); (2532, 2533);
   (2559, 2560); (2564, 2564); (2571, 2574); (2577, 2578);
   (2601, 2601); (2609, 2609); (2612, 2612); (2615, 2615);
   (2618, 2619); (2621, 2621); (2627, 2630); (2633, 2634);
   (2638, 2640); (2642, 2648); (2653, 2653); (2655, 2661);
   (2679, 2688); (2692, 2692); (2702, 2702); (2706, 2706);
   (2729, 2729); (2737, 2737); (2740, 2740); (2746, 2747);
   (2758, 2758); (2762, 2762); (2766, 2767); (2769, 2783);
   (2788, 2789); (2802, 2808); (2816, 2816); (2820, 2820);
   (2829, 2830); (2833, 2834); (2857, 2857); (2865, 2865);
   (2868, 2868); (2874, 2875); (2885, 2886); (2889, 2890);
   (2894, 2900); (2904, 2907); (2910, 2910); (2916, 2917);
   (2936, 2945); (2948, 2948); (2955, 2957); (2961, 2961);
   (2966, 2968); (2971, 2971); (2973, 2973); (2976, 2978);
   (2981, 2983); (2987, 2989); (3002, 3005); (3011, 3013);
   (3017, 3017); (3022, 3023); (3025, 3030); (3032, 3045);
   (3067, 3071); (3085, 3085); (3089, 3089); (3113, 3113);
   (3130, 3131); (3141, 3141); (3145, 3145); (3150, 3156);
   (3159, 3159); (3163, 3164); (3166, 3167); (3172, 3173);
   (3184, 3190); (3213, 3213); (3217, 3217); (3241, 3241);
   (3252, 3252); (3258, 3259); (3269, 3269); (3273, 3273);
   (3278, 3284); (3287, 3292); (3295, 3295); (3300, 3301);
   (3312, 3312); (3315, 3327); (3341, 3341); (3345, 3345);
   (3397, 3397); (3401, 3401); (3408, 3411); (3428, 3429);
   (3456, 3456); (3460, 3460); (3479, 3481); (3506, 3506);
   (3516, 3516); (3518, 3519); (3527, 3529); (3531, 3534);
   (3541, 3541); (3543, 3543); (3552, 3557); (3568, 3569);
   (3573, 3584); (3643, 3646); (3676, 3712); (3715, 3715);
   (3717, 3717); (3723, 3723); (3748, 3748); (3750, 3750);
   (3774, 3775); (3781, 3781); (3783, 3783); (3790, 3791);
   (3802, 3803); (3808, 3839); (3912, 3912); (3949, 3952);
   (3992, 3992); (4029, 4029); (4045, 4045); (4059, 4095);
   (4294, 4294); (4296, 4300); (4302, 4303); (4681, 4681);
   (4686, 4687); (4695, 4695); (4697, 4697); (4702, 4703);
   (4745, 4745); (4750, 4751); (4785, 4785); (4790, 4791);
   (4799, 4799); (4801, 4801); (4806, 4807); (4823, 4823);
   (4881, 4881); (4886, 4887); (4955, 4956); (4989, 4991);
   (5018, 5023); (5110, 5111); (5118, 5119); (5760, 5760);
   (5789, 5791); (5881, 5887); (5910, 5918); (5943, 5951);
   (5972, 5983); (5997, 5997); (6001, 6001); (6004, 6015);
   (6110, 6111); (6122, 6127); (6138, 6143); (6158, 6158);
   (6170, 6175); (6265, 6271); (6315, 6319); (6390, 6399);
   (6431, 6431); (6444, 6447); (6460, 6463); (6465, 6467);
   (6510, 6511); (6517, 6527); (6572, 6575); (6602, 6607);
   (6619, 6621); (6684, 6685); (6751, 6751); (6781, 6782);
   (6794, 6799); (6810, 6815); (6830, 6831); (6863, 6911);
   (6989, 6991); (7039, 7039); (7156, 7163); (7224, 7226);
   (7242, 7244); (7305, 7311); (7355, 7356); (7368, 7375);
   (7419, 7423); (7958, 7959); (7966, 7967); (8006, 8007);
   (8014, 8015); (8024, 8024); (8026, 8026); (8028, 8028);
   (8030, 8030); (8062, 8063); (8117, 8117); (8133, 8133);
   (8148, 8149); (8156, 8156); (8176, 8177); (8181, 8181);
   (8191, 8207); (8232, 8239); (8287, 8303); (8306, 8307);
   (8335, 8335); (8349, 8351); (8385, 8399); (8433, 8447);
   (8588, 8591); (9255, 9279); (9291, 9311); (11124, 11125);
   (11158, 11158); (11508, 11512); (11558, 11558); (11560, 11564);
   (11566, 11567); (11624, 11630); (11633, 11646); (11671, 11679);
   (11687, 11687); (11695, 11695); (11703, 11703); (11711, 11711);
   (11719, 11719); (11727, 11727); (11735, 11735); (11743, 11743);
   (11870, 11903); (11930, 11930); (12020, 12031); (12246, 12271);
   (12284, 12288); (12352, 12352); (12439, 12440); (12544, 12548);
   (12592, 12592); (12687, 12687); (12772, 12783); (12831, 12831);
   (42125, 42127); (42183, 42191); (42540, 42559); (42744, 42751);
   (42955, 42959); (42962, 42962); (42964, 42964); (42970, 42993);
   (43053, 43055); (43066, 43071); (43128, 43135); (43206, 43213);
   (43226, 43231); (43348, 43358); (43389, 43391); (43470, 43470);
   (43482, 43485); (43519, 43519); (43575, 43583); (43598, 43599);
   (43610, 43611); (43715, 43738); (43767, 43776); (43783, 43784);
   (43791, 43792); (43799, 43807); (43815, 43815); (43823, 43823);
   (43884, 43887); (44014, 44015); (44026, 44031); (55204, 55215);
   (55239, 55242); (55292, 63743); (64110, 64111); (64218, 64255);
   (64263, 64274); (64280, 64284); (64311, 64311); (64317, 64317);
   (64319, 64319); (64322, 64322); (64325, 64325); (64451, 64466);
   (64912, 64913); (64968, 64974); (64976, 65007); (65050, 65055);
   (65107, 65107); (65127, 65127); (65132, 65135); (65141, 65141);
   (65277, 65280); (65471, 65473); (65480, 65481); (65488, 65489);
   (65496, 65497); (65501, 65503); (65511, 65511); (65519, 65531);
   (65534, 65535); (65548, 65548); (65575, 65575); (65595, 65595);
   (65598, 65598); (65614, 65615); (65630, 65663); (65787, 65791);
   (65795, 65798); (65844, 65846); (65935, 65935); (65949, 65951);
   (65953, 65999); (66046, 66175); (66205, 66207); (66257, 66271);
   (66300, 66303); (66340, 66348); (66379, 66383); (66427, 66431);
   (66462, 66462); (66500, 66503); (66518, 66559); (66718, 66719);
   (66730, 66735); (66772, 66775); (66812, 66815); (66856, 66863);
   (66916, 66926); (66939, 66939); (66955, 66955); (66963, 66963);
   (66966, 66966); (66978, 66978); (66994, 66994); (67002, 67002);
   (67005, 67071); (67383, 67391); (67414, 67423); (67432, 67455);
   (67462, 67462); (67505, 67505); (67515, 67583); (67590, 67591);
   (67593, 67593); (67638, 67638); (67641, 67643); (67645, 67646);
   (67670, 67670); (67743, 67750); (67760, 67807); (67827, 67827);
   (67830, 67834); (67868, 67870); (67898, 67902); (67904, 67967);
   (68024, 68027); (68048, 68049); (68100, 68100); (68103, 68107);
   (68116, 68116); (68120, 68120); (68150, 68151); (68155, 68158);
   (68169, 68175); (68185, 68191); (68256, 68287); (68327, 68330);
   (68343, 68351); (68406, 68408); (68438, 68439); (68467, 68471);
   (68498, 68504); (68509, 68520); (68528, 68607); (68681, 68735);
   (68787, 68799); (68851, 68857); (68904, 68911); (68922, 69215);
   (69247, 69247); (69290, 69290); (69294, 69295); (69298, 69375);
   (69416, 69423); (69466, 69487); (69514, 69551); (69580, 69599);
   (69623, 69631); (69710, 69713); (69750, 69758); (69821, 69821);
   (69827, 69839); (69865, 69871); (69882, 69887); (69941, 69941);
   (69960, 69967); (70007, 70015); (70112, 70112); (70133, 70143);
   (70162, 70162); (70207, 70271); (70279, 70279); (70281, 70281);
   (70286, 70286); (70302, 70302); (70314, 70319); (70379, 70383);
   (70394, 70399); (70404, 70404); (70413, 70414); (70417, 70418);
   (70441, 70441); (70449, 70449); (70452, 70452); (70458, 70458);
   (70469, 70470); (70473, 70474); (70478, 70479); (70481, 70486);
   (70488, 70492); (70500, 70501); (70509, 70511); (70517, 70655);
   (70748, 70748); (70754, 70783); (70856, 70863); (70874, 71039);
   (71094, 71095); (71134, 71167); (71237, 71247); (71258, 71263);
   (71277, 71295); (71354, 71359); (71370, 71423); (71451, 71452);
   (71468, 71471); (71495, 71679); (71740, 71839); (71923, 71934);
   (71943, 71944); (71946, 71947); (71956, 71956); (71959, 71959);
   (71990, 71990); (71993, 71994); (72007, 72015); (72026, 72095);
   (72104, 72105); (72152, 72153); (72165, 72191); (72264, 72271);
   (72355, 72367); (72441, 72703); (72713, 72713); (72759, 72759);
   (72774, 72783); (72813, 72815); (72848, 72849); (72872, 72872);
   (72887, 72959); (72967, 72967); (72970, 72970); (73015, 73017);
   (73019, 73019); (73022, 73022); (73032, 73039); (73050, 73055);
   (73062, 73062); (73065, 73065); (73103, 73103); (73106, 73106);
   (73113, 73119); (73130, 73439); (73465, 73647); (73649, 73663);
   (73714, 73726); (74650, 74751); (74863, 74863); (74869, 74879);
   (75076, 77711); (77811, 77823); (78895, 82943); (83527, 92159);
   (92729, 92735); (92767, 92767); (92778, 92781); (92863, 92863);
   (92874, 92879); (92910, 92911); (92918, 92927); (92998, 93007);
   (93018, 93018); (93026, 93026); (93048, 93052); (93072, 93759);
   (93851, 93951); (94027, 94030); (94088, 94094); (94112, 94175);
   (94181, 94191); (94194, 94207); (100344, 100351); (101590, 101631);
   (101641, 110575); (110580, 110580); (110588, 110588); (110591, 110591);
   (110883, 110927); (110931, 110947); (110952, 110959); (111356, 113663);
   (113771, 113775); (113789, 113791); (113801, 113807); (113818, 113819);
   (113824, 118527); (118574, 118575); (118599, 118607); (118724, 118783);
   (119030, 119039); (119079, 119080); (119155, 119162); (119275, 119295);
   (119366, 119519); (119540, 119551); (119639, 119647); (119673, 119807);
   (119893, 119893); (119965, 119965); (119968, 119969); (119971, 119972);
   (119975, 119976); (119981, 119981); (119994, 119994); (119996, 119996);
   (120004, 120004); (120070, 120070); (120075, 120076); (120085, 120085);
   (120093, 120093); (120122, 120122); (120127, 120127); (120133, 120133);
   (120135, 120137); (120145, 120145); (120486, 120487); (120780, 120781);
   (121484, 121498); (121504, 121504); (121520, 122623); (122655, 122879);
   (122887, 122887); (122905, 122906); (122914, 122914); (122917, 122917);
   (122923, 123135); (123181, 123183); (123198, 123199); (123210, 123213);
   (123216, 123535); (123567, 123583); (123642, 123646); (123648, 124895);
   (124903, 124903); (124908, 124908); (124911, 124911); (124927, 124927);
   (125125, 125126); (125143, 125183); (125260, 125263); (125274, 125277);
   (125280, 126064); (126133, 126208); (126270, 126463); (126468, 126468);
   (126496, 126496); (126499, 126499); (126501, 126502); (126504, 126504);
   (126515, 126515); (126520, 126520); (126522, 126522); (126524, 126529);
   (126531, 126534); (126536, 126536); (126538, 126538); (126540, 126540);
   (126544, 126544); (126547, 126547); (126549, 126550); (126552, 126552);
   (126554, 126554); (126556, 126556); (126558, 126558); (126560, 126560);
   (126563, 126563); (126565, 126566); (126571, 126571); (126579, 126579);
   (126584, 126584); (126589, 126589); (126591, 126591); (126602, 126602);
   (126620, 126624); (126628, 126628); (126634, 126634); (126652, 126703);
   (126706, 126975); (127020, 127023); (127124, 127135); (127151, 127152);
   (127168, 127168); (127184, 127184); (127222, 127231); (127406, 127461);
   (127491, 127503); (127548, 127551); (127561, 127567); (127570, 127583);
   (127590, 127743); (128728, 128732); (128749, 128751); (128765, 128767);
   (128884, 128895); (128985, 128991); (129004, 129007); (129009, 129023);
   (129036, 129039); (129096, 129103); (129114, 129119); (129160, 129167);
   (129198, 129199); (129202, 129279); (129620, 129631); (129646, 129647);
   (129653, 129655); (129661, 129663); (129671, 129679); (129709, 129711);
   (129723, 129727); (129734, 129743); (129754, 129759); (129768, 129775);
   (129783, 129791); (129939, 129939); (129995, 130031); (130042, 131071);
   (173792, 173823); (177977, 177983); (178206, 178207); (183970, 183983);
   (191457, 194559); (195102, 196607); (201547, 917759); (918000, 1114111)]%N.

Definition isprintable (c : N) : bool :=
  if (c <? 128)%N then ((32 <=? c) && (c <? 127))%N
  else negb (existsb (fun r => ((fst r <=? c) && (c <=? snd r))%N)
               not_printable).

End Text.

(** ** Dict and value operations *)

Fixpoint lookup (k : string) (d : dict) : option pyval :=
  match d with
  | [] => None
  | (k', v) :: d' => if String.eqb k k' then Some v else lookup k d'
  end.

Definition has_key (k : string) (d : dict) : bool :=
  match lookup k d with Some _ => true | None => false end.

(** [d.get(k, default)] on a dict. *)
Definition dict_get (d : dict) (k : string) (default : pyval) : pyval :=
  match lookup k d with Some v => v | None => default end.

(** Truth value of an object, as [if x], [not x] and [x or y] test it. *)
Definition truthy (v : pyval) : bool :=
  match v with
  | PNone => false
  | PBool b => b
  | PInt n => negb (n =? 0)
  | PStr s => negb (String.eqb s EmptyString)
  | PList xs => match xs with [] => false | _ => true end
  | PDict d => match d with [] => false | _ => true end
  | PObj _ => true
  end.

(** [x or y]. *)
Definition py_or (x y : pyval) : pyval := if truthy x then x else y.

Definition is_none (v : pyval) : bool :=
  match v with PNone => true | _ => false end.

(** [isinstance(v, dict)]. *)
Definition isinstance_dict (v : pyval) : bool :=
  match v with PDict _ => true | _ => false end.

(** [isinstance(v, int)]: [bool] is a subclass of [int]. *)
Definition isinstance_int (v : pyval) : bool :=
  match v with PInt _ | PBool _ => true | _ => false end.

Definition type_name (v : pyval) : string :=
  match v with
  | PNone => "NoneType"
  | PBool _ => "bool"
  | PInt _ => "int"
  | PStr _ => "str"
  | PList _ => "list"
  | PDict _ => "dict"
  | PObj _ => "object"
  end.

(** [x == s] for a string [s]. *)
Definition eq_str (x : pyval) (s : string) : bool :=
  match x with PStr t => String.eqb t s | _ => false end.

(** [x == n] for an int [n]: [True == 1] and [False == 0]. *)
Definition eq_int (x : pyval) (n : Z) : bool :=
  match x with
  | PInt m => m =? n
  | PBool b => (if b then 1 else 0) =? n
  | _ => false
  end.

(** [x > n] for an int [n]; ordering an int against anything but a number
    raises. *)
Definition gt_int (x : pyval) (n : Z) : Res bool :=
  match x with
  | PInt m => Ok (n <? m)
  | PBool b => Ok (n <? (if b then 1 else 0))
  | _ => Raise (TypeError ("'>' not supported between instances of '"
                           ++ type_name x ++ "' and 'int'"))
  end.

(** [k in obj] for a string [k]: key of a dict, element of a list,
    substring of a string; anything else is not a container. *)
Definition py_in (k : string) (obj : pyval) : Res bool :=
  match obj with
  | PDict d => Ok (has_key k d)
  | PList xs => Ok (existsb (fun x => eq_str x k) xs)
  | PStr s => Ok (Str.contains s k)
  | _ => Raise (TypeError ("argument of type '" ++ type_name obj
                           ++ "' is not iterable"))
  end.

(** [obj[k]] for a string [k]. *)
Definition py_getitem (obj : pyval) (k : string) : Res pyval :=
  match obj with
  | PDict d =>
      match lookup k d with
      | Some v => Ok v
      | None => Raise (KeyError k)
      end
  | PList _ => Raise (TypeError "list indices must be integers or slices, not str")
  | PStr _ => Raise (TypeError "string indices must be integers")
  | _ => Raise (TypeError ("'" ++ type_name obj ++ "' object is not subscriptable"))
  end.

(** [obj.get(k, default)]: only a dict has the method. *)
Definition py_get (obj : pyval) (k : string) (default : pyval) : Res pyval :=
  match obj with
  | PDict d => Ok (dict_get d k default)
  | _ => Raise (AttributeError ("'" ++ type_name obj
                                ++ "' object has no attribute 'get'"))
  end.

(** ** [repr] and [str], as an f-string field formats a value *)

Module Repr.

Definition dquote : N := 34%N.
Definition squote : N := 39%N.

Definition hex_digit (n : N) : ascii :=
  if (n <? 10)%N then ascii_of_N (48 + n) else ascii_of_N (87 + n).

(** The lowest [width] hexadecimal digits of [n]. *)
Fixpoint hex (width : nat) (n : N) : string :=
  match width with
  | O => EmptyString
  | S w => hex w (n / 16) ++ String (hex_digit (n mod 16)) EmptyString
  end.

(** One character inside the quotes: the quote and the backslash escaped,
    TAB, LF and CR by letter, every other character that is not printable
    by number, the rest as it is. *)
Definition escape_char (quote c : N) : string :=
  if ((c =? quote) || (c =? 92))%N then "\" ++ Text.encode_cp c
  else if (c =? 9)%N then "\t"
  else if (c =? 10)%N then "\n"
  else if (c =? 13)%N then "\r"
  else if Text.isprintable c then Text.encode_cp c
  else if (c <? 256)%N then "\x" ++ hex 2 c
  else if (c <? 65536)%N then "\u" ++ hex 4 c
  else "\U" ++ hex 8 c.

Definition escape (quote : N) (s : string) : string :=
  String.concat EmptyString (List.map (escape_char quote) (Text.decode s)).

(** Single quotes, unless the text has a single quote and no double one. *)
Definition repr_str (s : string) : string :=
  let q := if Str.contains s "'" && negb (Str.contains s (Text.byte dquote))
           then dquote else squote in
  Text.byte q ++ escape q s ++ Text.byte q.

Fixpoint repr (v : pyval) : string :=
  match v with
  | PNone => "None"
  | PBool b => if b then "True" else "False"
  | PInt n => Str.of_int n
  | PStr s => repr_str s
  | PList xs =>
      "[" ++ Str.join ", " (List.map repr xs) ++ "]"
  | PDict d =>
      "{" ++ Str.join ", "
               ((fix items (l : dict) : list string :=
                   match l with
                   | [] => []
                   | (k, x) :: l' => (repr_str k ++ ": " ++ repr x) :: items l'
                   end) d) ++ "}"
  | PObj r => r
  end.

(** [str(v)], which is what [f"{v}"] inserts. *)
Definition str (v : pyval) : string :=
  match v with
  | PStr s => s
  | _ => repr v
  end.

End Repr.


(** ** The database driver and the effects of a request *)

(** One call into the driver, as the ghost log records it. *)
Inductive call : Type :=
| SessionRun (query : string) (params : pyval)
| WriteTransaction (query : string) (params : pyval).

(** The driver as the service sees it.  [session_run q p] stands for
    [session.run(q, p)] in a fresh session, [write_transaction q p] for
    [session.write_transaction(lambda tx: tx.run(q, p))]; both hand back the
    rows as [record.data()] gives them, or raise.  [DB] is the state of the
    database. *)
Class Driver (DB : Type) : Type := {
  session_run : string -> pyval -> DB -> DB * Res (list dict);
  write_transaction : string -> pyval -> DB -> DB * Res (list dict)
}.

Record World (DB : Type) : Type := mkWorld { db : DB; calls : list call }.

Definition M (DB A : Type) : Type := World DB -> World DB * Res A.

Section Effects.
Context {DB : Type}.

Definition ret {A} (a : A) : M DB A := fun w => (w, Ok a).

Definition raise {A} (e : exn) : M DB A := fun w => (w, Raise e).

Definition bind {A B} (m : M DB A) (k : A -> M DB B) : M DB B :=
  fun w =>
    match m w with
    | (w', Ok a) => k a w'
    | (w', Raise e) => (w', Raise e)
    end.

Definition lift {A} (r : Res A) : M DB A := fun w => (w, r).

(** [try: body  except Exception as e: handler(e)]. *)
Definition try_except {A} (body : M DB A) (handler : exn -> M DB A) : M DB A :=
  fun w =>
    match body w with
    | (w', Ok a) => (w', Ok a)
    | (w', Raise e) => handler e w'
    end.

Context {drv : Driver DB}.

Definition do_session_run (q : string) (p : pyval) : M DB (list dict) :=
  fun w =>
    let (d, r) := session_run q p (db w) in
    (mkWorld d (calls w ++ [SessionRun q p]), r).

Definition do_write_transaction (q : string) (p : pyval) : M DB (list dict) :=
  fun w =>
    let (d, r) := write_transaction q p (db w) in
    (mkWorld d (calls w ++ [WriteTransaction q p]), r).
End Effects.

Notation "x <- m ;; k" := (bind m (fun x => k))
  (at level 61, m at next level, right associativity).

(** ** Database adapter: class [Neo4jService] of server.py *)

Module Neo4jService.
Section Adapter.
Context {DB : Type} {drv : Driver DB}.

(** [result.single()]: the first record, [None] when there is none. *)
Definition single (result : list dict) : pyval :=
  match result with
  | [] => PNone
  | r :: _ => PDict r
  end.

Definition verify_connectivity : M DB bool :=
  try_except
    (result <- do_session_run "RETURN 1 AS result" PNone ;;
     v <- lift (py_getitem (single result) "result") ;;
     ret (eq_int v 1))
    (fun e => ret false).

Definition execute_read_query (query : string) (params : pyval)
  : M DB (list dict) :=
  do_session_run query (py_or params (PDict [])).

Definition execute_write_query (query : string) (params : pyval)
  : M DB (list dict) :=
  do_write_transaction query (py_or params (PDict [])).

(** [result[0] if result else default]. *)
Definition first_or (result : list dict) (default : pyval) : pyval :=
  match result with
  | r :: _ => PDict r
  | [] => default
  end.

Definition create_node_query (label : string) : string :=
  "
        CREATE (n:" ++ label ++ " $props)
        SET n.created_at = datetime()
        RETURN n
        ".

Definition create_node (label : string) (properties : pyval) : M DB pyval :=
  result <- execute_write_query (create_node_query label)
              (PDict [("props", properties)]) ;;
  ret (first_or result (PDict [])).

Definition get_node_query : string :=
  "
        MATCH (n) 
        WHERE id(n) = $node_id 
        RETURN n
        ".

Definition get_node_by_id (node_id : Z) : M DB pyval :=
  result <- execute_read_query get_node_query
              (PDict [("node_id", PInt node_id)]) ;;
  ret (first_or result PNone).

Definition update_node_query : string :=
  "
        MATCH (n) 
        WHERE id(n) = $node_id 
        SET n += $props,
            n.updated_at = datetime()
        RETURN n
        ".

Definition update_node (node_id : Z) (properties : pyval) : M DB pyval :=
  result <- execute_write_query update_node_query
              (PDict [("node_id", PInt node_id); ("props", properties)]) ;;
  ret (first_or result (PDict [])).

Definition delete_node_query : string :=
  "
        MATCH (n) 
        WHERE id(n) = $node_id 
        DETACH DELETE n
        RETURN count(n) as deleted
        ".

Definition delete_node (node_id : Z) : M DB bool :=
  result <- execute_write_query delete_node_query
              (PDict [("node_id", PInt node_id)]) ;;
  match result with
  | r :: _ =>
      deleted <- lift (py_getitem (PDict r) "deleted") ;;
      lift (gt_int deleted 0)
  | [] => ret false
  end.

Definition create_relationship_query (rel_type : pyval) : string :=
  "
        MATCH (a), (b) 
        WHERE id(a) = $from_id AND id(b) = $to_id
        CREATE (a)-[r:" ++ Repr.str rel_type ++ " $props]->(b)
        SET r.created_at = datetime()
        RETURN r
        ".

Definition create_relationship (from_id to_id rel_type properties : pyval)
  : M DB pyval :=
  result <- execute_write_query (create_relationship_query rel_type)
              (PDict [("from_id", from_id); ("to_id", to_id);
                      ("props", py_or properties (PDict []))]) ;;
  ret (first_or result (PDict [])).

Definition write_keywords : list string :=
  ["CREATE"; "DELETE"; "MERGE"; "SET"].

(** The test of [run_custom_query] on the query text. *)
Definition is_write_query (query : string) : bool :=
  Text.startswith_any (Text.upper (Text.strip (Text.decode query)))
    (List.map Text.decode write_keywords).

(** [query] is whatever the caller passed; only a [str] has [strip]. *)
Definition run_custom_query (query params : pyval) : M DB (list dict) :=
  match query with
  | PStr q =>
      if is_write_query q
      then execute_write_query q params
      else execute_read_query q params
  | _ => raise (AttributeError ("'" ++ type_name query
                                ++ "' object has no attribute 'strip'"))
  end.
End Adapter.
End Neo4jService.

(** ** Service layer: the Flask handlers of server.py *)

Inductive Body : Type :=
| Json (v : pyval)
| Text (s : string).

(** What a handler returns: [body, status]. *)
Record Response : Type := mkResponse { body : Body; status : Z }.

(** A value [jsonify] can serialise: no driver object anywhere in it. *)
Fixpoint serialisable (v : pyval) : bool :=
  match v with
  | PObj _ => false
  | PList xs => forallb serialisable xs
  | PDict d =>
      (fix items (l : dict) : bool :=
         match l with
         | [] => true
         | (_, x) :: l' => serialisable x && items l'
         end) d
  | _ => true
  end.

Definition jsonify (v : pyval) : Res Body :=
  if serialisable v then Ok (Json v)
  else Raise (TypeError "Object is not JSON serializable").

Definition error_body (message : string) : pyval :=
  PDict [("error", PStr message)].

Module App.
Section Handlers.
Context {DB : Type} {drv : Driver DB}.

(** [return jsonify(v), code]. *)
Definition respond_json (v : pyval) (code : Z) : M DB Response :=
  b <- lift (jsonify v) ;;
  ret (mkResponse b code).

(** The [except Exception as e] clause every handler ends with. *)
Definition on_exception (e : exn) : M DB Response :=
  respond_json (error_body (exn_str e)) 500.

Definition health_check : M DB Response :=
  connectivity <- Neo4jService.verify_connectivity ;;
  let status := if connectivity then "healthy" else "unhealthy" in
  respond_json
    (PDict [("status", PStr status);
            ("database_connection", PBool connectivity)])
    (if connectivity then 200 else 503).

(** In every handler below [data] is what [request.get_json()] returned. *)

Definition create_node (label : string) (data : pyval) : M DB Response :=
  if negb (truthy data) then respond_json (error_body "No data provided") 400
  else
    try_except
      (result <- Neo4jService.create_node label data ;;
       respond_json result 201)
      on_exception.

Definition get_node (node_id : Z) : M DB Response :=
  try_except
    (result <- Neo4jService.get_node_by_id node_id ;;
     if truthy result then respond_json result 200
     else respond_json (error_body "Node not found") 404)
    on_exception.

Definition update_node (node_id : Z) (data : pyval) : M DB Response :=
  if negb (truthy data) then respond_json (error_body "No data provided") 400
  else
    try_except
      (result <- Neo4jService.update_node node_id data ;;
       if truthy result then respond_json result 200
       else respond_json (error_body "Node not found") 404)
      on_exception.

Definition delete_node (node_id : Z) : M DB Response :=
  try_except
    (success <- Neo4jService.delete_node node_id ;;
     if (success : bool) then ret (mkResponse (Text EmptyString) 204)
     else respond_json (error_body "Node not found") 404)
    on_exception.

Definition required_fields : list string := ["from_id"; "to_id"; "type"].

(** [all(field in data for field in fields)], stopping at the first miss. *)
Fixpoint all_in (fields : list string) (data : pyval) : Res bool :=
  match fields with
  | [] => Ok true
  | field :: rest =>
      match py_in field data with
      | Ok true => all_in rest data
      | Ok false => Ok false
      | Raise e => Raise e
      end
  end.

Definition create_relationship (data : pyval) : M DB Response :=
  invalid <- (if negb (truthy data) then ret true
              else ok <- lift (all_in required_fields data) ;; ret (negb ok)) ;;
  if (invalid : bool) then
    respond_json
      (error_body ("Required fields: " ++ Str.join ", " required_fields)) 400
  else
    try_except
      (from_id <- lift (py_getitem data "from_id") ;;
       to_id <- lift (py_getitem data "to_id") ;;
       rel_type <- lift (py_getitem data "type") ;;
       properties <- lift (py_get data "properties" (PDict [])) ;;
       result <- Neo4jService.create_relationship
                   from_id to_id rel_type properties ;;
       respond_json result 201)
      on_exception.

Definition run_cypher (data : pyval) : M DB Response :=
  invalid <- (if negb (truthy data) then ret true
              else present <- lift (py_in "query" data) ;; ret (negb present)) ;;
  if (invalid : bool) then respond_json (error_body "Query required") 400
  else
    try_except
      (query <- lift (py_getitem data "query") ;;
       params <- lift (py_get data "params" (PDict [])) ;;
       result <- Neo4jService.run_custom_query query params ;;
       respond_json (PList (List.map PDict result)) 200)
      on_exception.
End Handlers.
End App.

(** ** Client helper: [extract_node_id] of client.py *)

Module Client.

Definition is_id_key (k : string) : bool :=
  String.eqb k "id" || String.eqb k "identity".

(** The nested [find_id]: depth first, items and elements in order. *)
Fixpoint find_id (obj : pyval) : pyval :=
  match obj with
  | PDict d =>
      (fix items (l : dict) : pyval :=
         match l with
         | [] => PNone
         | (k, v) :: l' =>
             if is_id_key k && isinstance_int v then v
             else
               let result := find_id v in
               if negb (is_none result) then result else items l'
         end) d
  | PList xs =>
      (fix elements (l : list pyval) : pyval :=
         match l with
         | [] => PNone
         | item :: l' =>
             let result := find_id item in
             if negb (is_none result) then result else elements l'
         end) xs
  | _ => PNone
  end.

(** [keys = list(response.keys()); response[keys[0]]]. *)
Definition first_value (response : dict) : option pyval :=
  match response with
  | [] => None
  | (k, _) :: _ => lookup k response
  end.

Definition extract_node_id (response : dict) : Res pyval :=
  match lookup "n" response with
  | Some n =>
      match py_get n "id" PNone with
      | Ok by_id => py_get n "identity" by_id
      | Raise e => Raise e
      end
  | None =>
      match first_value response with
      | Some (PDict potential_node) =>
          match lookup "identity" potential_node with
          | Some v => Ok v
          | None =>
              match lookup "id" potential_node with
              | Some v => Ok v
              | None => Ok (find_id (PDict response))
              end
          end
      | _ => Ok (find_id (PDict response))
      end
  end.

End Client.

(** ** A scripted driver, for running the model on concrete requests *)

(** The database is a list of canned outcomes; each call consumes one. *)
Definition Script := list (Res (list dict)).

Definition scripted_call (s : Script) : Script * Res (list dict) :=
  match s with
  | [] => ([], Raise (mkExn "ServiceUnavailable" "Connection refused"))
  | r :: s' => (s', r)
  end.

#[export] Instance scripted : Driver Script := {
  session_run _ _ := scripted_call;
  write_transaction _ _ := scripted_call
}.

Definition start (s : Script) : World Script := mkWorld s [].

(** ** Notions the properties are stated with *)

(** *** Responses *)

Definition healthy_response : Response :=
  mkResponse
    (Json (PDict [("status", PStr "healthy");
                  ("database_connection", PBool true)])) 200.

Definition unhealthy_response : Response :=
  mkResponse
    (Json (PDict [("status", PStr "unhealthy");
                  ("database_connection", PBool false)])) 503.

Definition not_found_response : Response :=
  mkResponse (Json (error_body "Node not found")) 404.

Definition no_content_response : Response :=
  mkResponse (Text EmptyString) 204.

Definition server_error_response (e : exn) : Response :=
  mkResponse (Json (error_body (exn_str e))) 500.

Definition required_fields_message : string :=
  "Required fields: from_id, to_id, type".

Definition required_fields_response : Response :=
  mkResponse (Json (error_body required_fields_message)) 400.

(** *** Requests and parameters *)

Definition delete_params (node_id : Z) : pyval :=
  PDict [("node_id", PInt node_id)].

(** The parameters [create_relationship] binds. *)
Definition relationship_params (from_id to_id properties : pyval) : pyval :=
  PDict [("from_id", from_id); ("to_id", to_id);
         ("props", py_or properties (PDict []))].

(** The value is one that [in] can be asked of: an object, an array or a
    text. *)
Definition supports_in (data : pyval) : Prop :=
  match data with
  | PDict _ | PList _ | PStr _ => True
  | _ => False
  end.

(** What [field in data] finds: a key of an object, an element of an array,
    a part of a text. *)
Definition field_found (field : string) (data : pyval) : Prop :=
  match data with
  | PDict d => lookup field d <> None
  | PList xs => In (PStr field) xs
  | PStr s => Str.contains s field = true
  | _ => False
  end.

(** The body carries no usable request: it is absent or otherwise falsy, or
    it is an object, an array or a text in which one of the required fields
    is not found. *)
Definition missing_required (data : pyval) : Prop :=
  truthy data = false
  \/ (supports_in data
      /\ exists f, In f App.required_fields /\ ~ field_found f data).

(** *** Observations on the driver *)

Section Observations.
Context {DB : Type} {drv : Driver DB}.

(** The connectivity probe succeeds: [RETURN 1 AS result], run in a session,
    comes back with a record whose field [result] equals 1. *)
Definition probe_succeeds (w : World DB) : Prop :=
  exists d r rest v,
    session_run "RETURN 1 AS result" PNone (db w) = (d, Ok (r :: rest))
    /\ lookup "result" r = Some v
    /\ eq_int v 1 = true.

(** The query went through [execute_write_query]: same computation, and one
    more [WriteTransaction] in the log. *)
Definition routed_as_write (q : string) (p : pyval) (w : World DB) : Prop :=
  Neo4jService.run_custom_query (PStr q) p w
  = Neo4jService.execute_write_query q p w
  /\ calls (fst (Neo4jService.run_custom_query (PStr q) p w))
     = (calls w ++ [WriteTransaction q (py_or p (PDict []))])%list.

(** The query went through [execute_read_query]. *)
Definition routed_as_read (q : string) (p : pyval) (w : World DB) : Prop :=
  Neo4jService.run_custom_query (PStr q) p w
  = Neo4jService.execute_read_query q p w
  /\ calls (fst (Neo4jService.run_custom_query (PStr q) p w))
     = (calls w ++ [SessionRun q (py_or p (PDict []))])%list.
End Observations.

(** *** Leading keyword *)

(** The leading keyword of a query, in the words of the specification: the
    query trimmed and read without regard to case, up to the first character
    that is not a letter of the keywords' alphabet, A to Z. *)
Definition is_keyword_letter (c : N) : bool :=
  ((65 <=? c) && (c <=? 90) || (97 <=? c) && (c <=? 122))%N.

Fixpoint leading_letters (t : list N) : list N :=
  match t with
  | [] => []
  | c :: t' => if is_keyword_letter c then c :: leading_letters t' else []
  end.

Definition leading_keyword (query : string) : list N :=
  leading_letters (Text.upper (Text.strip (Text.decode query))).

(** The four words of the routing test, as text. *)
Definition keywords : list (list N) :=
  List.map Text.decode ["CREATE"; "DELETE"; "MERGE"; "SET"].

(** *** The client's three steps *)

Module ClientSpec.
Import Client.

(** Every value stored under a key [id] or [identity] that is an [int], in
    the order of a depth-first walk of the structure. *)
Fixpoint id_candidates (obj : pyval) : list pyval :=
  match obj with
  | PDict d =>
      (fix items (l : dict) : list pyval :=
         match l with
         | [] => []
         | (k, v) :: l' =>
             (if is_id_key k && isinstance_int v then [v] else [])
               ++ id_candidates v ++ items l'
         end) d
  | PList xs =>
      (fix elements (l : list pyval) : list pyval :=
         match l with
         | [] => []
         | item :: l' => id_candidates item ++ elements l'
         end) xs
  | _ => []
  end%list.

(** The value under [identity], else the one under [id], in a mapping. *)
Definition identity_or_id (v : pyval) : option pyval :=
  match v with
  | PDict m =>
      match lookup "identity" m with
      | Some x => Some x
      | None => lookup "id" m
      end
  | _ => None
  end.

(** The three steps, each in the words of the specification. *)
Definition step_n (r : dict) : option pyval :=
  match lookup "n" r with
  | Some v => identity_or_id v
  | None => None
  end.

Definition step_first_key (r : dict) : option pyval :=
  match first_value r with
  | Some v => identity_or_id v
  | None => None
  end.

Definition step_search (r : dict) : pyval :=
  hd PNone (id_candidates (PDict r)).

(** The procedure as the specification states it: each step falls through to
    the next whenever it finds nothing. *)
Definition three_step_fallback (r : dict) : pyval :=
  match step_n r with
  | Some v => v
  | None =>
      match step_first_key r with
      | Some v => v
      | None => step_search r
      end
  end.

End ClientSpec.

(** *** Induction on values *)

(** Induction on a value, with the hypothesis available for every element of
    a list and every value of a dict. *)
Section PyvalInduction.
Variable P : pyval -> Prop.
Hypothesis HNone : P PNone.
Hypothesis HBool : forall b, P (PBool b).
Hypothesis HInt : forall n, P (PInt n).
Hypothesis HStr : forall s, P (PStr s).
Hypothesis HObj : forall r, P (PObj r).
Hypothesis HList : forall xs, Forall P xs -> P (PList xs).
Hypothesis HDict : forall d, Forall (fun kv => P (snd kv)) d -> P (PDict d).

Fixpoint pyval_nested_ind (v : pyval) : P v :=
  match v with
  | PNone => HNone
  | PBool b => HBool b
  | PInt n => HInt n
  | PStr s => HStr s
  | PObj r => HObj r
  | PList xs =>
      HList
        ((fix elements (l : list pyval) : Forall P l :=
            match l with
            | [] => Forall_nil P
            | x :: l' => Forall_cons x (pyval_nested_ind x) (elements l')
            end) xs)
  | PDict d =>
      HDict
        ((fix items (l : dict) : Forall (fun kv => P (snd kv)) l :=
            match l with
            | [] => Forall_nil _
            | kv :: l' => Forall_cons kv (pyval_nested_ind (snd kv)) (items l')
            end) d)
  end.
End PyvalInduction.

(** ** The client: class [Neo4jMCPClient] and the scenario of client.py *)

(** What [requests] hands back: the status, the body text, the value of
    [headers.get("Content-Type")] and what [response.json()] gives. *)
Record HttpResponse : Type := mkHttpResponse {
  status_code : Z;
  text : string;
  content_type : option string;
  json : Res pyval
}.

(** One request on the wire, as the ghost log records it. *)
Inductive http_call : Type :=
| HttpGet (url : string)
| HttpPost (url : string) (json_body : pyval)
| HttpPut (url : string) (json_body : pyval)
| HttpDelete (url : string).

(** The four entry points of [requests] the client uses; each answers or
    raises a [RequestException].  [Net] is the state of whatever is at the
    other end. *)
Class Requests (Net : Type) : Type := {
  requests_get : string -> Net -> Net * Res HttpResponse;
  requests_post : string -> pyval -> Net -> Net * Res HttpResponse;
  requests_put : string -> pyval -> Net -> Net * Res HttpResponse;
  requests_delete : string -> Net -> Net * Res HttpResponse
}.

Record Wire (Net : Type) : Type := mkWire { net : Net; sent : list http_call }.

Definition Req (Net A : Type) : Type := Wire Net -> Wire Net * Res A.

Section ClientEffects.
Context {Net : Type}.

Definition req_ret {A} (a : A) : Req Net A := fun w => (w, Ok a).

Definition req_raise {A} (e : exn) : Req Net A := fun w => (w, Raise e).

Definition req_bind {A B} (m : Req Net A) (k : A -> Req Net B) : Req Net B :=
  fun w =>
    match m w with
    | (w', Ok a) => k a w'
    | (w', Raise e) => (w', Raise e)
    end.

Definition req_lift {A} (r : Res A) : Req Net A := fun w => (w, r).

Definition req_try {A} (body : Req Net A) (handler : exn -> Req Net A)
  : Req Net A :=
  fun w =>
    match body w with
    | (w', Ok a) => (w', Ok a)
    | (w', Raise e) => handler e w'
    end.

Context {rq : Requests Net}.

Definition do_get (url : string) : Req Net HttpResponse :=
  fun w =>
    let (n, r) := requests_get url (net w) in
    (mkWire n (sent w ++ [HttpGet url]), r).

Definition do_post (url : string) (data : pyval) : Req Net HttpResponse :=
  fun w =>
    let (n, r) := requests_post url data (net w) in
    (mkWire n (sent w ++ [HttpPost url data]), r).

Definition do_put (url : string) (data : pyval) : Req Net HttpResponse :=
  fun w =>
    let (n, r) := requests_put url data (net w) in
    (mkWire n (sent w ++ [HttpPut url data]), r).

Definition do_delete (url : string) : Req Net HttpResponse :=
  fun w =>
    let (n, r) := requests_delete url (net w) in
    (mkWire n (sent w ++ [HttpDelete url]), r).
End ClientEffects.

Notation "x <~ m ;; k" := (req_bind m (fun x => k))
  (at level 61, m at next level, right associativity).

(** [s.lstrip(c)] for a single character [c]. *)
Fixpoint lstrip_char (c : ascii) (s : string) : string :=
  match s with
  | EmptyString => EmptyString
  | String a s' => if Ascii.eqb a c then lstrip_char c s' else s
  end.

(** The [expected_status] argument: absent, one code, or a list of codes. *)
Inductive expected : Type :=
| NoExpectation
| Status (code : Z)
| Statuses (codes : list Z).

(** [if expected_status:]. *)
Definition expected_given (e : expected) : bool :=
  match e with
  | NoExpectation => false
  | Status code => negb (code =? 0)
  | Statuses codes => match codes with [] => false | _ => true end
  end.

(** [[expected_status] if isinstance(expected_status, int) else expected_status]. *)
Definition expected_status_list (e : expected) : list Z :=
  match e with
  | NoExpectation => []
  | Status code => [code]
  | Statuses codes => codes
  end.

Definition ValueError (m : string) := mkExn "ValueError" m.
Definition Exception (m : string) := mkExn "Exception" m.

(** [method.upper() == name]. *)
Definition method_is (method name : string) : bool :=
  Text.eqb (Text.upper (Text.decode method)) (Text.decode name).

Module Neo4jMCPClient.
Section Methods.
Context {Net : Type} {rq : Requests Net}.
Variable base_url : string.

Definition request_url (endpoint : string) : string :=
  base_url ++ "/" ++ lstrip_char "/" endpoint.

(** The [except requests.RequestException] clause logs and raises again, so
    every exception of the body leaves the method. *)
Definition _make_request (method endpoint : string) (data : pyval)
           (expected_status : expected) : Req Net pyval :=
  let url := request_url endpoint in
  req_try
    (response <~
       (if method_is method "GET" then do_get url
        else if method_is method "POST" then do_post url data
        else if method_is method "PUT" then do_put url data
        else if method_is method "DELETE" then do_delete url
        else req_raise (ValueError ("Unsupported HTTP method: " ++ method))) ;;
     _ <~ (if expected_given expected_status
                  && negb (existsb (Z.eqb (status_code response))
                             (expected_status_list expected_status))
           then req_raise (Exception ("Request failed with status "
                                      ++ Str.of_int (status_code response)))
           else req_ret tt) ;;
     if negb (String.eqb (text response) EmptyString)
        && match content_type response with
           | Some t => String.eqb t "application/json"
           | None => false
           end
     then req_lift (json response)
     else if existsb (Z.eqb (status_code response)) [204]
     then req_ret (PDict [("status", PStr "success");
                          ("status_code", PInt (status_code response))])
     else req_ret (PDict [("status", PStr "success");
                          ("status_code", PInt (status_code response));
                          ("text", PStr (text response))]))
    (fun e => req_raise e).

Definition health_check : Req Net pyval :=
  _make_request "GET" "/health" PNone (Status 200).

Definition create_node (label : string) (properties : pyval) : Req Net pyval :=
  _make_request "POST" ("/nodes/" ++ label) properties (Status 201).

Definition get_node (node_id : pyval) : Req Net pyval :=
  _make_request "GET" ("/nodes/" ++ Repr.str node_id) PNone (Status 200).

Definition update_node (node_id properties : pyval) : Req Net pyval :=
  _make_request "PUT" ("/nodes/" ++ Repr.str node_id) properties (Status 200).

Definition delete_node (node_id : pyval) : Req Net pyval :=
  _make_request "DELETE" ("/nodes/" ++ Repr.str node_id) PNone (Status 204).

Definition relationship_body (from_id to_id rel_type properties : pyval)
  : pyval :=
  PDict [("from_id", from_id); ("to_id", to_id); ("type", rel_type);
         ("properties", py_or properties (PDict []))].

Definition create_relationship (from_id to_id rel_type properties : pyval)
  : Req Net pyval :=
  _make_request "POST" "/relationships"
    (relationship_body from_id to_id rel_type properties) (Status 201).

Definition cypher_body (query params : pyval) : pyval :=
  PDict [("query", query); ("params", py_or params (PDict []))].

Definition run_cypher (query params : pyval) : Req Net pyval :=
  _make_request "POST" "/cypher" (cypher_body query params) (Status 200).
End Methods.
End Neo4jMCPClient.

(** [extract_node_id] on whatever the request returned.  On a mapping it is
    [Client.extract_node_id]; any other value fails at ['n' in response], at
    [response['n']] or at [response.keys()]. *)
Definition extract_node_id_of (response : pyval) : Res pyval :=
  match response with
  | PDict d => Client.extract_node_id d
  | _ =>
      match py_in "n" response with
      | Raise e => Raise e
      | Ok true =>
          match py_getitem response "n" with
          | Raise e => Raise e
          | Ok n =>
              match py_get n "id" PNone with
              | Ok by_id => py_get n "identity" by_id
              | Raise e => Raise e
              end
          end
      | Ok false =>
          Raise (AttributeError ("'" ++ type_name response
                                 ++ "' object has no attribute 'keys'"))
      end
  end.

Module Scenario.

Definition person_data : pyval :=
  PDict [("name", PStr "Alice Smith"); ("age", PInt 32);
         ("occupation", PStr "Software Engineer")].

Definition company_data : pyval :=
  PDict [("name", PStr "Tech Innovations Inc"); ("industry", PStr "Software");
         ("founded", PInt 2010)].

Definition rel_props : pyval :=
  PDict [("role", PStr "Senior Developer"); ("since", PInt 2018);
         ("salary", PInt 120000)].

Definition update_data : pyval :=
  PDict [("age", PInt 33);
         ("skills", PList [PStr "Python"; PStr "Neo4j"; PStr "Docker"])].

Definition cypher_query : string :=
  "
        MATCH (p:Person)-[r:WORKS_AT]->(c:Company)
        WHERE id(p) = $person_id
        RETURN p, r, c
        ".

Section Run.
Context {Net : Type} {rq : Requests Net}.
Variable base_url : string.

Definition run_comprehensive_test : Req Net bool :=
  req_try
    (health_result <~ Neo4jMCPClient.health_check base_url ;;
     status <~ req_lift (py_get health_result "status" PNone) ;;
     if negb (eq_str status "healthy") then req_ret false
     else
       person_result <~ Neo4jMCPClient.create_node base_url "Person" person_data ;;
       person_id <~ req_lift (extract_node_id_of person_result) ;;
       if negb (truthy person_id) then req_ret false
       else
         company_result <~
           Neo4jMCPClient.create_node base_url "Company" company_data ;;
         company_id <~ req_lift (extract_node_id_of company_result) ;;
         if negb (truthy company_id) then req_ret false
         else
           rel_result <~ Neo4jMCPClient.create_relationship base_url
                           person_id company_id (PStr "WORKS_AT") rel_props ;;
           get_person <~ Neo4jMCPClient.get_node base_url person_id ;;
           update_result <~
             Neo4jMCPClient.update_node base_url person_id update_data ;;
           query_result <~
             Neo4jMCPClient.run_cypher base_url (PStr cypher_query)
               (PDict [("person_id", person_id)]) ;;
           delete_person <~ Neo4jMCPClient.delete_node base_url person_id ;;
           delete_company <~ Neo4jMCPClient.delete_node base_url company_id ;;
           req_ret true)
    (fun e => req_ret false).
End Run.

(** The script's entry point, for a given [sys.argv].  [print] writes to the
    standard output and can fail there (an output encoding without the
    check mark, a closed pipe), so it is a function of the environment:
    [print text] is [Ok tt] or the exception raised.  [Ok code] is
    [sys.exit(code)]; [Raise e] is an exception that nothing catches. *)
Definition main {Net : Type} {rq : Requests Net}
  (print : string -> Res unit) (argv : list string) : Req Net Z :=
  let server_url :=
    match argv with
    | _ :: url :: _ => url
    | _ => "http://localhost:5000"
    end in
  _ <~ req_lift
         (print ("Running comprehensive test against Neo4j MCP server at "
                 ++ server_url)) ;;
  success <~ run_comprehensive_test server_url ;;
  if (success : bool)
  then _ <~ req_lift (print (Text.encode_cp 9989 ++ " All tests passed!")) ;;
       req_ret 0
  else _ <~ req_lift (print (Text.encode_cp 10060 ++ " Test failed!")) ;;
       req_ret 1.

(** The exit status of the interpreter: the argument of [sys.exit], and 1
    after an exception that nothing caught. *)
Definition exit_status (r : Res Z) : Z :=
  match r with
  | Ok code => code
  | Raise _ => 1
  end.

(** A standard output that takes every text, and one whose encoding is
    ASCII. *)
Definition print_any (text : string) : Res unit := Ok tt.

Definition print_ascii (text : string) : Res unit :=
  if forallb (fun c => (c <? 128)%N) (Text.decode text) then Ok tt
  else Raise (mkExn "UnicodeEncodeError"
                "'ascii' codec can't encode character").

End Scenario.

(** ** A scripted peer, for running the client on concrete replies *)

Definition Replies := list (Res HttpResponse).

Definition next_reply (s : Replies) : Replies * Res HttpResponse :=
  match s with
  | [] => ([], Raise (mkExn "ConnectionError" "Connection refused"))
  | r :: s' => (s', r)
  end.

#[export] Instance replying : Requests Replies := {
  requests_get _ := next_reply;
  requests_post _ _ := next_reply;
  requests_put _ _ := next_reply;
  requests_delete _ := next_reply
}.

Definition dial (s : Replies) : Wire Replies := mkWire s [].

(** A reply as [jsonify(v), code] reaches the client. *)
Definition json_reply (code : Z) (v : pyval) : Res HttpResponse :=
  Ok (mkHttpResponse code "{...}" (Some "application/json") (Ok v)).

(** A reply as [return text, code] reaches the client. *)
Definition text_reply (code : Z) (t : string) : Res HttpResponse :=
  Ok (mkHttpResponse code t (Some "text/html; charset=utf-8")
        (Raise (mkExn "JSONDecodeError" "Expecting value"))).

(** ** Notions the further properties are stated with *)

(** The world after one driver call: the database as the driver left it and
    one more entry in the log. *)
Definition after_call {DB : Type} (w : World DB) (d : DB) (c : call)
  : World DB :=
  mkWorld d (calls w ++ [c]).

(** The log grew by at most one driver call. *)
Definition at_most_one_call {DB : Type} (w w' : World DB) : Prop :=
  calls w' = calls w \/ exists c, calls w' = (calls w ++ [c])%list.

(** The shapes a handler's answer takes: a JSON value with 200 or 201, the
    empty text with 204, or an error object with 400, 404 or 500. *)
Definition is_success_response (r : Response) : Prop :=
  (exists v, body r = Json v /\ (status r = 200 \/ status r = 201))
  \/ (body r = Text EmptyString /\ status r = 204).

Definition is_error_response (r : Response) : Prop :=
  exists m, body r = Json (error_body m)
            /\ (status r = 400 \/ status r = 404 \/ status r = 500).

(** Checks on the upper-case tables: an image is not empty and holds no
    whitespace; the images of a run lie clear of every whitespace
    character. *)
Definition special_clear (e : N * list N) : bool :=
  match snd e with
  | [] => false
  | image => forallb (fun x => negb (Text.isspace x)) image
  end.

Definition run_clear (r : N * N * N * N) : bool :=
  let '(first, last, _, image) := r in
  forallb (fun w => ((w <? image) || (image + last - first <? w))%N)
    Text.whitespace.

(** Text made of whitespace only. *)
Definition all_space (t : list N) : Prop :=
  Forall (fun c => Text.isspace c = true) t.

(** A computation that touches neither the database nor the log. *)
Definition leaves_world {DB A : Type} (m : M DB A) : Prop :=
  forall w, fst (m w) = w.

(** A computation that calls the driver once at most. *)
Definition calls_at_most_once {DB A : Type} (m : M DB A) : Prop :=
  forall w, at_most_one_call w (fst (m w)).

(** *** The client's view of a reply *)

(** The status check of [_make_request] fails: an expectation was given and
    the reply's status is not among the expected codes. *)
Definition status_rejected (expected_status : expected) (code : Z) : bool :=
  expected_given expected_status
  && negb (existsb (Z.eqb code) (expected_status_list expected_status)).

(** The reply counts as JSON: a non-empty text under the content type
    [application/json], spelled exactly so. *)
Definition is_json_reply (response : HttpResponse) : bool :=
  negb (String.eqb (text response) EmptyString)
  && match content_type response with
     | Some t => String.eqb t "application/json"
     | None => false
     end.

(** The four method names, as text. *)
Definition http_methods : list (list N) :=
  List.map Text.decode ["GET"; "POST"; "PUT"; "DELETE"].

(** A run of [k] slashes. *)
Fixpoint slashes (k : nat) : string :=
  match k with
  | O => EmptyString
  | S k' => String "/" (slashes k')
  end.

(** What [_make_request] returns for a reply that passed the status check:
    the parsed body of a JSON reply, else a mapping that reports success. *)
Definition decoded_reply (response : HttpResponse) : Res pyval :=
  if is_json_reply response then json response
  else if status_code response =? 204
  then Ok (PDict [("status", PStr "success");
                  ("status_code", PInt (status_code response))])
  else Ok (PDict [("status", PStr "success");
                  ("status_code", PInt (status_code response));
                  ("text", PStr (text response))]).

(** The request one method name stands for, if it is one of the four. *)
Definition call_of_method (method url : string) (data : pyval)
  : option http_call :=
  if method_is method "GET" then Some (HttpGet url)
  else if method_is method "POST" then Some (HttpPost url data)
  else if method_is method "PUT" then Some (HttpPut url data)
  else if method_is method "DELETE" then Some (HttpDelete url)
  else None.

(** What the peer does with a request. *)
Definition perform {Net : Type} {rq : Requests Net} (c : http_call) (n : Net)
  : Net * Res HttpResponse :=
  match c with
  | HttpGet url => requests_get url n
  | HttpPost url data => requests_post url data n
  | HttpPut url data => requests_put url data n
  | HttpDelete url => requests_delete url n
  end.

(** The url a request goes to. *)
Definition url_of (c : http_call) : string :=
  match c with
  | HttpGet url | HttpPost url _ | HttpPut url _ | HttpDelete url => url
  end.

(** How a handler's answer appears to the client: the same status; a
    [jsonify] body as non-empty text under [application/json] that parses
    back to the value; a text body as that text, under another content
    type. *)
Definition carried_by (r : Response) (response : HttpResponse) : Prop :=
  status_code response = status r
  /\ match body r with
     | Json v =>
         text response <> EmptyString
         /\ content_type response = Some "application/json"
         /\ json response = Ok v
     | Text t =>
         text response = t
         /\ content_type response <> Some "application/json"
     end.

(** The health check came back and its [status] field is [healthy]. *)
Definition says_healthy (health_result : Res pyval) : bool :=
  match health_result with
  | Ok v =>
      match py_get v "status" PNone with
      | Ok s => eq_str s "healthy"
      | Raise _ => false
      end
  | Raise _ => false
  end.

(** The requests of a complete run of the scenario, for the two identifiers
    extracted on the way. *)
Definition scenario_requests (base_url : string) (person_id company_id : pyval)
  : list http_call :=
  [HttpGet (base_url ++ "/health");
   HttpPost (base_url ++ "/nodes/Person") Scenario.person_data;
   HttpPost (base_url ++ "/nodes/Company") Scenario.company_data;
   HttpPost (base_url ++ "/relationships")
     (Neo4jMCPClient.relationship_body person_id company_id (PStr "WORKS_AT")
        Scenario.rel_props);
   HttpGet (base_url ++ "/nodes/" ++ Repr.str person_id);
   HttpPut (base_url ++ "/nodes/" ++ Repr.str person_id) Scenario.update_data;
   HttpPost (base_url ++ "/cypher")
     (Neo4jMCPClient.cypher_body (PStr Scenario.cypher_query)
        (PDict [("person_id", person_id)]));
   HttpDelete (base_url ++ "/nodes/" ++ Repr.str person_id);
   HttpDelete (base_url ++ "/nodes/" ++ Repr.str company_id)].

(** * Properties *)

Ltac unfold_effects :=
  unfold bind, ret, raise, lift, try_except,
    do_session_run, do_write_transaction in *.

Ltac unfold_adapter :=
  unfold Neo4jService.verify_connectivity, Neo4jService.create_node,
    Neo4jService.get_node_by_id, Neo4jService.update_node,
    Neo4jService.delete_node, Neo4jService.create_relationship,
    Neo4jService.run_custom_query, Neo4jService.execute_read_query,
    Neo4jService.execute_write_query in *.

(** ** Absent and empty parameters *)

(** C10: running a query with no parameter mapping ([None]) is the same
    computation as running it with the empty mapping, on the read path and
    on the write path: same driver call, same rows or exception, same
    database state afterwards. *)
Theorem execute_query_none_as_empty :
  forall (DB : Type) (drv : Driver DB) (q : string) (w : World DB),
    Neo4jService.execute_read_query q PNone w
    = Neo4jService.execute_read_query q (PDict []) w
    /\ Neo4jService.execute_write_query q PNone w
       = Neo4jService.execute_write_query q (PDict []) w.
Proof.
  intros DB drv q w. split; reflexivity.
Qed.

(** ** Validation of the node bodies *)

(** C9: a POST /nodes/{label} or PUT /nodes/{id} request whose parsed body
    is the empty mapping is answered with 400 and
    [{"error": "No data provided"}]; the world, and with it the log of
    driver calls, is left as it was. *)
Theorem empty_mapping_body_is_rejected :
  forall (DB : Type) (drv : Driver DB) (label : string) (node_id : Z)
         (w : World DB),
    App.create_node label (PDict []) w
    = (w, Ok (mkResponse (Json (error_body "No data provided")) 400))
    /\ App.update_node node_id (PDict []) w
       = (w, Ok (mkResponse (Json (error_body "No data provided")) 400)).
Proof.
  intros DB drv label node_id w. split; reflexivity.
Qed.

(** ** Health check *)

Section Health.
Context {DB : Type} {drv : Driver DB}.

Lemma verify_connectivity_true_iff (w : World DB) :
  snd (Neo4jService.verify_connectivity w) = Ok true <-> probe_succeeds w.
Proof.
  unfold probe_succeeds, Neo4jService.verify_connectivity.
  unfold_effects.
  destruct (session_run "RETURN 1 AS result" PNone (db w)) as [d [rows | e]] eqn:E;
    simpl.
  - destruct rows as [| r rest]; simpl.
    + split; [discriminate |].
      intros (d' & r & rest & v & H & _). discriminate.
    + destruct (lookup "result" r) as [v |] eqn:L; simpl.
      * split.
        -- intros H. exists d, r, rest, v. repeat split; auto. congruence.
        -- intros (d' & r' & rest' & v' & H & L' & V).
           injection H as <- <- <-. rewrite L in L'. injection L' as <-.
           now rewrite V.
      * split; [discriminate |].
        intros (d' & r' & rest' & v' & H & L' & _).
        injection H as <- <- <-. congruence.
  - split; [discriminate |].
    intros (d' & r & rest & v & H & _). discriminate.
Qed.

Lemma verify_connectivity_returns (w : World DB) :
  exists w' b, Neo4jService.verify_connectivity w = (w', Ok b).
Proof.
  unfold Neo4jService.verify_connectivity. unfold_effects.
  destruct (session_run "RETURN 1 AS result" PNone (db w)) as [d [rows | e]];
    simpl; eauto.
  destruct (py_getitem (Neo4jService.single rows) "result"); eauto.
Qed.

Lemma health_check_follows_probe (w : World DB) :
  App.health_check w
  = (fst (Neo4jService.verify_connectivity w),
     Ok (match snd (Neo4jService.verify_connectivity w) with
         | Ok true => healthy_response
         | _ => unhealthy_response
         end)).
Proof.
  destruct (verify_connectivity_returns w) as (w' & b & E).
  unfold App.health_check. unfold_effects. rewrite E. simpl.
  destruct b; reflexivity.
Qed.
End Health.

(** C5: [verify_connectivity] always returns a boolean, whatever the driver
    does; GET /health answers 200 with
    [{"status": "healthy", "database_connection": true}] exactly when the
    probe succeeds, and 503 with status [unhealthy] in every other case. *)
Theorem health_check_iff_probe :
  forall (DB : Type) (drv : Driver DB) (w : World DB),
    (exists w' b, Neo4jService.verify_connectivity w = (w', Ok b))
    /\ (snd (App.health_check w) = Ok healthy_response <-> probe_succeeds w)
    /\ (snd (App.health_check w) = Ok unhealthy_response <-> ~ probe_succeeds w).
Proof.
  intros DB drv w.
  split; [apply verify_connectivity_returns |].
  rewrite health_check_follows_probe. simpl.
  rewrite <- verify_connectivity_true_iff.
  destruct (verify_connectivity_returns w) as (w' & b & E).
  rewrite E. simpl.
  destruct b; split; split; intros H;
    solve [ reflexivity | discriminate | congruence
          | exfalso; apply H; reflexivity ].
Qed.

(** ** Deleting a node *)

Section Delete.
Context {DB : Type} {drv : Driver DB}.

Lemma delete_node_on_rows (node_id : Z) (w : World DB) d rows :
  write_transaction Neo4jService.delete_node_query (delete_params node_id) (db w)
  = (d, Ok rows) ->
  snd (Neo4jService.delete_node node_id w)
  = match rows with
    | [] => Ok false
    | r :: _ =>
        match lookup "deleted" r with
        | Some v => gt_int v 0
        | None => Raise (KeyError "deleted")
        end
    end.
Proof.
  intros H. unfold_adapter. unfold_effects. unfold py_or. simpl.
  unfold delete_params in H. rewrite H.
  destruct rows as [| r rest]; simpl; [reflexivity |].
  destruct (lookup "deleted" r); reflexivity.
Qed.

Lemma delete_endpoint_by_cases (node_id : Z) (w : World DB) :
  App.delete_node node_id w
  = (fst (Neo4jService.delete_node node_id w),
     Ok (match snd (Neo4jService.delete_node node_id w) with
         | Ok true => no_content_response
         | Ok false => not_found_response
         | Raise e => server_error_response e
         end)).
Proof.
  unfold App.delete_node, try_except, bind at 1.
  destruct (Neo4jService.delete_node node_id w) as [w' [[|] | e]];
    reflexivity.
Qed.
End Delete.

(** C6: the adapter's [delete_node] answers [False] on an empty result and
    otherwise [count > 0] for the count in the first row's [deleted] field;
    the DELETE handler answers 204 with an empty body when the adapter
    returned [True], 404 when it returned [False], and 500 only when the
    adapter raised (then with the exception's text as the error). *)
Theorem delete_node_status :
  forall (DB : Type) (drv : Driver DB) (node_id : Z) (w : World DB),
    (forall d,
        write_transaction Neo4jService.delete_node_query
          (delete_params node_id) (db w) = (d, Ok []) ->
        snd (Neo4jService.delete_node node_id w) = Ok false)
    /\ (forall d r rest count,
           write_transaction Neo4jService.delete_node_query
             (delete_params node_id) (db w) = (d, Ok (r :: rest)) ->
           lookup "deleted" r = Some (PInt count) ->
           snd (Neo4jService.delete_node node_id w) = Ok (0 <? count))
    /\ (snd (Neo4jService.delete_node node_id w) = Ok true ->
        snd (App.delete_node node_id w) = Ok no_content_response)
    /\ (snd (Neo4jService.delete_node node_id w) = Ok false ->
        snd (App.delete_node node_id w) = Ok not_found_response)
    /\ (forall e,
           snd (Neo4jService.delete_node node_id w) = Raise e ->
           snd (App.delete_node node_id w) = Ok (server_error_response e))
    /\ (forall resp,
           snd (App.delete_node node_id w) = Ok resp ->
           status resp = 500 ->
           exists e, snd (Neo4jService.delete_node node_id w) = Raise e)
    /\ (exists resp, snd (App.delete_node node_id w) = Ok resp).
Proof.
  intros DB drv node_id w.
  repeat split.
  - intros d H. now rewrite (delete_node_on_rows node_id w H).
  - intros d r rest count H L.
    rewrite (delete_node_on_rows node_id w H), L. reflexivity.
  - intros H. rewrite delete_endpoint_by_cases. simpl. now rewrite H.
  - intros H. rewrite delete_endpoint_by_cases. simpl. now rewrite H.
  - intros e H. rewrite delete_endpoint_by_cases. simpl. now rewrite H.
  - intros resp. rewrite delete_endpoint_by_cases. simpl.
    destruct (snd (Neo4jService.delete_node node_id w)) as [[|] | e];
      intros [= <-] S; try discriminate S.
    now exists e.
  - rewrite delete_endpoint_by_cases. simpl. eauto.
Qed.

(** A database that reports three deleted entities, then none, then fails. *)
Lemma delete_node_status_witness :
  snd (Neo4jService.delete_node 7
         (start [Ok [[("deleted", PInt 3)]]])) = Ok true
  /\ snd (App.delete_node 7 (start [Ok [[("deleted", PInt 3)]]]))
     = Ok no_content_response
  /\ snd (App.delete_node 7 (start [Ok [[("deleted", PInt 0)]]]))
     = Ok not_found_response
  /\ snd (App.delete_node 7 (start []))
     = Ok (server_error_response
             (mkExn "ServiceUnavailable" "Connection refused")).
Proof.
  pose proof (delete_node_status scripted 7
                (start [Ok [[("deleted", PInt 3)]]])) as (_ & H3 & T & _).
  pose proof (delete_node_status scripted 7
                (start [Ok [[("deleted", PInt 0)]]])) as (_ & H0 & _ & F & _).
  pose proof (delete_node_status scripted 7 (start [])) as (_ & _ & _ & _ & E & _).
  split; [| split; [| split]].
  - exact (H3 _ _ _ 3 eq_refl eq_refl).
  - apply T. exact (H3 _ _ _ 3 eq_refl eq_refl).
  - apply F. exact (H0 _ _ _ 0 eq_refl eq_refl).
  - apply E. reflexivity.
Defined.

(** ** Creating a relationship *)

Section Relationship.
Context {DB : Type} {drv : Driver DB}.

Lemma all_in_dict (fields : list string) (d : dict) :
  App.all_in fields (PDict d) = Ok (forallb (fun f => has_key f d) fields).
Proof.
  induction fields as [| f fs IH]; simpl; [reflexivity |].
  destruct (has_key f d); simpl; [exact IH | reflexivity].
Qed.

Lemma all_in_missing (d : dict) (f : string) :
  In f App.required_fields -> lookup f d = None ->
  App.all_in App.required_fields (PDict d) = Ok false.
Proof.
  intros HIn HL. rewrite all_in_dict. f_equal.
  apply not_true_is_false. intros HA.
  rewrite forallb_forall in HA. specialize (HA f HIn).
  unfold has_key in HA. rewrite HL in HA. discriminate.
Qed.

Lemma eq_str_true (x : pyval) (k : string) : eq_str x k = true <-> x = PStr k.
Proof.
  destruct x; simpl; try (split; [discriminate | intros [=]]).
  rewrite String.eqb_eq. split; [now intros -> | now intros [= ->]].
Qed.

(** On an object, an array or a text [in] answers, and answers what
    [field_found] says. *)
Lemma py_in_found (f : string) (data : pyval) :
  supports_in data ->
  exists b, py_in f data = Ok b /\ (b = true <-> field_found f data).
Proof.
  destruct data; simpl; try tauto; intros _; eexists; (split; [reflexivity |]).
  - reflexivity.
  - rewrite existsb_exists. split.
    + intros (x & HIn & Hx). apply eq_str_true in Hx. now subst.
    + intros HIn. exists (PStr f). split; [exact HIn | now apply eq_str_true].
  - unfold has_key. destruct (lookup f items); split; congruence.
Qed.

Lemma all_in_not_found (fields : list string) (data : pyval) (f : string) :
  supports_in data -> In f fields -> ~ field_found f data ->
  App.all_in fields data = Ok false.
Proof.
  intros S HIn HF. induction fields as [| g fs IH]; [destruct HIn |].
  cbn [App.all_in].
  destruct (py_in_found g data S) as (b & -> & Hb).
  destruct b; [| reflexivity].
  destruct HIn as [-> | HIn]; [| now apply IH].
  exfalso. apply HF. now apply Hb.
Qed.

Lemma all_in_present (d : dict) a b c :
  lookup "from_id" d = Some a -> lookup "to_id" d = Some b ->
  lookup "type" d = Some c ->
  App.all_in App.required_fields (PDict d) = Ok true.
Proof.
  intros Ha Hb Hc. rewrite all_in_dict. simpl. unfold has_key.
  now rewrite Ha, Hb, Hc.
Qed.

Lemma lookup_some_truthy (d : dict) k v :
  lookup k d = Some v -> truthy (PDict d) = true.
Proof. destruct d; [discriminate | reflexivity]. Qed.

Lemma create_relationship_endpoint_calls (d : dict) a b c (w : World DB) :
  lookup "from_id" d = Some a -> lookup "to_id" d = Some b ->
  lookup "type" d = Some c ->
  App.create_relationship (PDict d) w
  = try_except
      (result <- Neo4jService.create_relationship a b c
                   (dict_get d "properties" (PDict [])) ;;
       App.respond_json result 201)
      App.on_exception w.
Proof.
  intros Ha Hb Hc. unfold App.create_relationship.
  unfold bind at 1. rewrite (lookup_some_truthy _ _ Ha).
  cbv beta iota delta [negb bind lift ret].
  rewrite (all_in_present _ Ha Hb Hc).
  cbv beta iota delta [negb try_except py_getitem py_get].
  rewrite Ha, Hb, Hc. reflexivity.
Qed.
End Relationship.

(** C7, as the specification words it, fails: a body that is a bare number
    lacks all three fields, and the test for them raises before the [try];
    no 400 is answered. *)
Lemma relationship_number_body_raises :
  App.create_relationship (PInt 5) (start [])
  = (start [], Raise (TypeError "argument of type 'int' is not iterable"))
  /\ App.create_relationship (PInt 5) (start [])
     <> (start [], Ok required_fields_response).
Proof. split; [reflexivity | discriminate]. Qed.

(** C7, amended: a POST /relationships request with no body or a falsy one,
    or whose body is an object, an array or a text in which one of
    [from_id], [to_id], [type] is not found, is answered with 400 and an
    error message in which all three field names occur; the world, and with
    it the log of driver calls, is left as it was. *)
Theorem relationship_missing_field_rejected :
  forall (DB : Type) (drv : Driver DB) (data : pyval) (w : World DB),
    missing_required data ->
    App.create_relationship data w = (w, Ok required_fields_response)
    /\ Forall (fun f => Str.contains required_fields_message f = true)
         App.required_fields.
Proof.
  intros DB drv data w H. split.
  - unfold App.create_relationship. unfold bind at 1.
    destruct H as [H | (S & f & HIn & HF)].
    + rewrite H. reflexivity.
    + destruct (truthy data); [| reflexivity].
      cbv beta iota delta [negb bind lift ret].
      assert (E : App.all_in App.required_fields data = Ok false)
        by (apply all_in_not_found with (f := f); assumption).
      rewrite E. reflexivity.
  - repeat constructor.
Qed.

(** A body without [type], an array, a text, and no body at all. *)
Lemma relationship_missing_field_rejected_witness :
  App.create_relationship
    (PDict [("from_id", PInt 1); ("to_id", PInt 2)]) (start [])
  = (start [], Ok required_fields_response)
  /\ App.create_relationship
       (PList [PStr "from_id"; PStr "to_id"; PInt 3]) (start [])
     = (start [], Ok required_fields_response)
  /\ App.create_relationship (PStr "from_id, to_id") (start [])
     = (start [], Ok required_fields_response)
  /\ App.create_relationship PNone (start [])
     = (start [], Ok required_fields_response).
Proof.
  split; [| split; [| split]].
  - apply (relationship_missing_field_rejected scripted).
    right. split; [exact I |].
    exists "type". split; [simpl; tauto |]. simpl. tauto.
  - apply (relationship_missing_field_rejected scripted).
    right. split; [exact I |].
    exists "type". split; [simpl; tauto |].
    simpl. intros [H | [H | [H | []]]]; discriminate.
  - apply (relationship_missing_field_rejected scripted).
    right. split; [exact I |].
    exists "type". split; [simpl; tauto |].
    vm_compute. discriminate.
  - apply (relationship_missing_field_rejected scripted).
    left. reflexivity.
Defined.

(** C3: when the request names all three fields and the relationship query
    comes back with no row -- which is what its MATCH gives when [from_id] or
    [to_id] identifies no node -- the adapter's [create_relationship] returns
    the empty mapping without raising, and the handler answers 201 with that
    empty mapping as its body, not 404. *)
Theorem relationship_to_missing_node_is_empty_success :
  forall (DB : Type) (drv : Driver DB) (d : dict)
         (from_id to_id rel_type : pyval) (w : World DB) (db' : DB),
    lookup "from_id" d = Some from_id ->
    lookup "to_id" d = Some to_id ->
    lookup "type" d = Some rel_type ->
    let properties := dict_get d "properties" (PDict []) in
    let query := Neo4jService.create_relationship_query rel_type in
    let params := relationship_params from_id to_id properties in
    write_transaction query params (db w) = (db', Ok []) ->
    let w' := mkWorld db' (calls w ++ [WriteTransaction query params]) in
    Neo4jService.create_relationship from_id to_id rel_type properties w
    = (w', Ok (PDict []))
    /\ App.create_relationship (PDict d) w
       = (w', Ok (mkResponse (Json (PDict [])) 201)).
Proof.
  intros DB drv d a b c w db' Ha Hb Hc properties query params Hrun w'.
  assert (Hadapter :
            Neo4jService.create_relationship a b c properties w
            = (w', Ok (PDict []))).
  { unfold_adapter. unfold_effects.
    change (py_or (PDict [("from_id", a); ("to_id", b);
                          ("props", py_or properties (PDict []))]) (PDict []))
      with params.
    fold query. rewrite Hrun. reflexivity. }
  split; [exact Hadapter |].
  rewrite (create_relationship_endpoint_calls _ w Ha Hb Hc).
  fold properties. unfold try_except, bind at 1. rewrite Hadapter.
  reflexivity.
Qed.

(** Node 99 does not exist: the database matches nothing. *)
Lemma relationship_to_missing_node_witness :
  App.create_relationship
    (PDict [("from_id", PInt 1); ("to_id", PInt 99); ("type", PStr "WORKS_AT")])
    (start [Ok []])
  = (mkWorld []
       [WriteTransaction
          (Neo4jService.create_relationship_query (PStr "WORKS_AT"))
          (relationship_params (PInt 1) (PInt 99) (PDict []))],
     Ok (mkResponse (Json (PDict [])) 201)).
Proof.
  apply (relationship_to_missing_node_is_empty_success scripted
           [("from_id", PInt 1); ("to_id", PInt 99); ("type", PStr "WORKS_AT")]
           (start [Ok []]) eq_refl eq_refl eq_refl eq_refl).
Defined.

(** ** Adapter exceptions at the endpoint boundary *)

Section Boundary.
Context {DB : Type} {drv : Driver DB}.

(** A handler's [try] block whose adapter call raised ends in the [except]
    clause, whatever was to follow the call. *)
Lemma try_adapter_raises {A} (adapter : M DB A) (rest : A -> M DB Response)
      (w w' : World DB) (e : exn) :
  adapter w = (w', Raise e) ->
  try_except (x <- adapter ;; rest x) App.on_exception w
  = (w', Ok (server_error_response e)).
Proof.
  intros H. unfold try_except, bind. rewrite H. reflexivity.
Qed.

Lemma run_cypher_endpoint_calls (d : dict) q (w : World DB) :
  lookup "query" d = Some q ->
  App.run_cypher (PDict d) w
  = try_except
      (result <- Neo4jService.run_custom_query q
                   (dict_get d "params" (PDict [])) ;;
       App.respond_json (PList (List.map PDict result)) 200)
      App.on_exception w.
Proof.
  intros Hq. unfold App.run_cypher.
  unfold bind at 1. rewrite (lookup_some_truthy _ _ Hq).
  cbv beta iota delta [negb bind lift ret py_in has_key].
  rewrite Hq.
  cbv beta iota delta [negb try_except py_getitem py_get].
  rewrite Hq. reflexivity.
Qed.
End Boundary.

(** ** Handlers as total functions of the request *)

Section Totality.
Context {DB : Type} {drv : Driver DB}.

Lemma try_except_returns (body : M DB Response) (w : World DB) :
  exists w' resp, try_except body App.on_exception w = (w', Ok resp).
Proof.
  unfold try_except. destruct (body w) as [w' [resp | e]]; [eauto |].
  exists w', (server_error_response e). reflexivity.
Qed.

Lemma all_in_returns (fields : list string) (data : pyval) :
  (forall k, exists b, py_in k data = Ok b) ->
  exists b, App.all_in fields data = Ok b.
Proof.
  intros H. induction fields as [| f fs IH]; simpl; [eauto |].
  destruct (H f) as [[|] ->]; eauto.
Qed.

(** The four node handlers return a response on every request.  The two
    handlers that test [field in data] before their [try] do so whenever the
    body is falsy or supports [in] (an object, an array, a string). *)
Lemma handlers_return (w : World DB) (label : string) (node_id : Z)
      (data : pyval) :
  (exists w' resp, App.create_node label data w = (w', Ok resp))
  /\ (exists w' resp, App.get_node node_id w = (w', Ok resp))
  /\ (exists w' resp, App.update_node node_id data w = (w', Ok resp))
  /\ (exists w' resp, App.delete_node node_id w = (w', Ok resp))
  /\ (truthy data = false \/ (forall k, exists b, py_in k data = Ok b) ->
      (exists w' resp, App.create_relationship data w = (w', Ok resp))
      /\ (exists w' resp, App.run_cypher data w = (w', Ok resp))).
Proof.
  repeat split.
  - unfold App.create_node. destruct (truthy data); simpl;
      [apply try_except_returns | do 2 eexists; reflexivity].
  - apply try_except_returns.
  - unfold App.update_node. destruct (truthy data); simpl;
      [apply try_except_returns | do 2 eexists; reflexivity].
  - apply try_except_returns.
  - unfold App.create_relationship. unfold bind at 1.
    destruct (truthy data) eqn:T; cbv beta iota delta [negb bind lift ret].
    + destruct H as [H | H]; [discriminate |].
      destruct (all_in_returns App.required_fields data H) as [[|] ->];
        [apply try_except_returns | do 2 eexists; reflexivity].
    + do 2 eexists; reflexivity.
  - unfold App.run_cypher. unfold bind at 1.
    destruct (truthy data) eqn:T; cbv beta iota delta [negb bind lift ret].
    + destruct H as [H | H]; [discriminate |].
      destruct (H "query"%string) as [[|] ->];
        [apply try_except_returns | do 2 eexists; reflexivity].
    + do 2 eexists; reflexivity.
Qed.
End Totality.

(** C4, as the specification words it, fails: an exception does leave a
    handler.  A body that is a bare number does not support [in], and the
    test that precedes the [try] of [run_cypher] raises. *)
Lemma run_cypher_number_body :
  App.run_cypher (PInt 5) (start [])
  = (start [], Raise (TypeError "argument of type 'int' is not iterable")).
Proof. reflexivity. Qed.

(** C4, amended: in each of the six handlers that call the adapter, an
    exception raised by that call does not leave the handler: the handler
    returns status 500 with body [{"error": str(e)}].  The four node
    handlers return a response on every request; the relationship and the
    query handler do so whenever the body is falsy or is an object, an array
    or a text. *)
Theorem adapter_exception_becomes_500 :
  forall (DB : Type) (drv : Driver DB) (w w' : World DB) (e : exn),
    (forall label data,
        truthy data = true ->
        Neo4jService.create_node label data w = (w', Raise e) ->
        App.create_node label data w = (w', Ok (server_error_response e)))
    /\ (forall node_id,
           Neo4jService.get_node_by_id node_id w = (w', Raise e) ->
           App.get_node node_id w = (w', Ok (server_error_response e)))
    /\ (forall node_id data,
           truthy data = true ->
           Neo4jService.update_node node_id data w = (w', Raise e) ->
           App.update_node node_id data w = (w', Ok (server_error_response e)))
    /\ (forall node_id,
           Neo4jService.delete_node node_id w = (w', Raise e) ->
           App.delete_node node_id w = (w', Ok (server_error_response e)))
    /\ (forall d from_id to_id rel_type,
           lookup "from_id" d = Some from_id ->
           lookup "to_id" d = Some to_id ->
           lookup "type" d = Some rel_type ->
           Neo4jService.create_relationship from_id to_id rel_type
             (dict_get d "properties" (PDict [])) w = (w', Raise e) ->
           App.create_relationship (PDict d) w
           = (w', Ok (server_error_response e)))
    /\ (forall d query,
           lookup "query" d = Some query ->
           Neo4jService.run_custom_query query
             (dict_get d "params" (PDict [])) w = (w', Raise e) ->
           App.run_cypher (PDict d) w = (w', Ok (server_error_response e)))
    /\ (forall label node_id data,
           (exists w1 resp, App.create_node label data w = (w1, Ok resp))
           /\ (exists w1 resp, App.get_node node_id w = (w1, Ok resp))
           /\ (exists w1 resp, App.update_node node_id data w = (w1, Ok resp))
           /\ (exists w1 resp, App.delete_node node_id w = (w1, Ok resp))
           /\ (truthy data = false \/ supports_in data ->
               (exists w1 resp,
                   App.create_relationship data w = (w1, Ok resp))
               /\ (exists w1 resp, App.run_cypher data w = (w1, Ok resp)))).
Proof.
  intros DB drv w w' e.
  split; [| split; [| split; [| split; [| split; [| split]]]]].
  - intros label data T H. unfold App.create_node. rewrite T. simpl.
    now apply try_adapter_raises.
  - intros node_id H. unfold App.get_node. now apply try_adapter_raises.
  - intros node_id data T H. unfold App.update_node. rewrite T. simpl.
    now apply try_adapter_raises.
  - intros node_id H. unfold App.delete_node. now apply try_adapter_raises.
  - intros d a b c Ha Hb Hc H.
    rewrite (create_relationship_endpoint_calls _ w Ha Hb Hc).
    now apply try_adapter_raises.
  - intros d q Hq H. rewrite (run_cypher_endpoint_calls _ w Hq).
    now apply try_adapter_raises.
  - intros label node_id data.
    destruct (handlers_return w label node_id data) as (A & B & C & D & E).
    do 4 (split; [assumption |]).
    intros [T | S]; apply E; [now left | right].
    intros k. destruct (py_in_found k data S) as (b & Hb & _). eauto.
Qed.

(** The database refuses the connection on each of the six routes. *)
Lemma adapter_exception_becomes_500_witness :
  let e := mkExn "ServiceUnavailable" "Connection refused" in
  let unreachable := Ok (server_error_response e) in
  snd (App.create_node "Person" (PDict [("name", PStr "Alice Smith")]) (start []))
  = unreachable
  /\ snd (App.get_node 4 (start [])) = unreachable
  /\ snd (App.update_node 4 (PDict [("age", PInt 33)]) (start [])) = unreachable
  /\ snd (App.delete_node 4 (start [])) = unreachable
  /\ snd (App.create_relationship
            (PDict [("from_id", PInt 1); ("to_id", PInt 2);
                    ("type", PStr "WORKS_AT")]) (start [])) = unreachable
  /\ snd (App.run_cypher (PDict [("query", PStr "MATCH (n) RETURN n")])
            (start [])) = unreachable
  /\ exists w1 resp,
       App.run_cypher (PList [PStr "query"]) (start []) = (w1, Ok resp).
Proof.
  intros e unreachable.
  split; [| split; [| split; [| split; [| split; [| split]]]]].
  - destruct (adapter_exception_becomes_500 scripted (start [])
                (mkWorld []
                   [WriteTransaction (Neo4jService.create_node_query "Person")
                      (PDict [("props", PDict [("name", PStr "Alice Smith")])])])
                e) as (H & _).
    now rewrite (H "Person"%string (PDict [("name", PStr "Alice Smith")])
                   eq_refl eq_refl).
  - destruct (adapter_exception_becomes_500 scripted (start [])
                (mkWorld []
                   [SessionRun Neo4jService.get_node_query
                      (PDict [("node_id", PInt 4)])])
                e) as (_ & H & _).
    now rewrite (H 4 eq_refl).
  - destruct (adapter_exception_becomes_500 scripted (start [])
                (mkWorld []
                   [WriteTransaction Neo4jService.update_node_query
                      (PDict [("node_id", PInt 4);
                              ("props", PDict [("age", PInt 33)])])])
                e) as (_ & _ & H & _).
    now rewrite (H 4 (PDict [("age", PInt 33)]) eq_refl eq_refl).
  - destruct (adapter_exception_becomes_500 scripted (start [])
                (mkWorld []
                   [WriteTransaction Neo4jService.delete_node_query
                      (PDict [("node_id", PInt 4)])])
                e) as (_ & _ & _ & H & _).
    now rewrite (H 4 eq_refl).
  - destruct (adapter_exception_becomes_500 scripted (start [])
                (mkWorld []
                   [WriteTransaction
                      (Neo4jService.create_relationship_query (PStr "WORKS_AT"))
                      (relationship_params (PInt 1) (PInt 2) (PDict []))])
                e) as (_ & _ & _ & _ & H & _).
    now rewrite (H [("from_id", PInt 1); ("to_id", PInt 2);
                    ("type", PStr "WORKS_AT")] (PInt 1) (PInt 2)
                   (PStr "WORKS_AT") eq_refl eq_refl eq_refl eq_refl).
  - destruct (adapter_exception_becomes_500 scripted (start [])
                (mkWorld []
                   [SessionRun "MATCH (n) RETURN n" (PDict [])])
                e) as (_ & _ & _ & _ & _ & H & _).
    now rewrite (H [("query", PStr "MATCH (n) RETURN n")]
                   (PStr "MATCH (n) RETURN n") eq_refl eq_refl).
  - destruct (adapter_exception_becomes_500 scripted (start []) (start [])
                e) as (_ & _ & _ & _ & _ & _ & H).
    destruct (H "Person"%string 4 (PList [PStr "query"]))
      as (_ & _ & _ & _ & G).
    exact (proj2 (G (or_intror I))).
Defined.

(** ** Routing of a custom query *)


Section Routing.
Context {DB : Type} {drv : Driver DB}.

Lemma execute_write_query_calls (q : string) (p : pyval) (w : World DB) :
  calls (fst (Neo4jService.execute_write_query q p w))
  = (calls w ++ [WriteTransaction q (py_or p (PDict []))])%list.
Proof.
  unfold_adapter. unfold_effects.
  now destruct (write_transaction q (py_or p (PDict [])) (db w)).
Qed.

Lemma execute_read_query_calls (q : string) (p : pyval) (w : World DB) :
  calls (fst (Neo4jService.execute_read_query q p w))
  = (calls w ++ [SessionRun q (py_or p (PDict []))])%list.
Proof.
  unfold_adapter. unfold_effects.
  now destruct (session_run q (py_or p (PDict [])) (db w)).
Qed.

Lemma not_both_routes (q : string) (p : pyval) (w : World DB) :
  routed_as_write q p w -> routed_as_read q p w -> False.
Proof.
  intros [_ Hw] [_ Hr]. rewrite Hw in Hr.
  apply app_inv_head in Hr. discriminate.
Qed.

Lemma write_route (q : string) (p : pyval) (w : World DB) :
  Neo4jService.is_write_query q = true -> routed_as_write q p w.
Proof.
  intros H. unfold routed_as_write, Neo4jService.run_custom_query.
  rewrite H. split; [reflexivity | apply execute_write_query_calls].
Qed.

Lemma read_route (q : string) (p : pyval) (w : World DB) :
  Neo4jService.is_write_query q = false -> routed_as_read q p w.
Proof.
  intros H. unfold routed_as_read, Neo4jService.run_custom_query.
  rewrite H. split; [reflexivity | apply execute_read_query_calls].
Qed.
End Routing.

Lemma leading_letters_prefix (t : list N) :
  Text.startswith t (leading_letters t) = true.
Proof.
  induction t as [| c t IH]; simpl; [reflexivity |].
  destruct (is_keyword_letter c); simpl; [| reflexivity].
  now rewrite N.eqb_refl.
Qed.

Lemma keyword_is_write (q : string) :
  In (leading_keyword q) keywords ->
  Neo4jService.is_write_query q = true.
Proof.
  intros H. unfold Neo4jService.is_write_query, Text.startswith_any.
  apply existsb_exists. exists (leading_keyword q). split; [exact H |].
  apply leading_letters_prefix.
Qed.

Lemma remove_is_not_write (q : string) :
  leading_keyword q = Text.decode "REMOVE" ->
  Neo4jService.is_write_query q = false.
Proof.
  unfold leading_keyword, Neo4jService.is_write_query.
  generalize (Text.upper (Text.strip (Text.decode q))) as t. intros t H.
  pose proof (leading_letters_prefix t) as P. rewrite H in P.
  destruct t as [| c t]; [discriminate |].
  change (Text.decode "REMOVE") with [82; 69; 77; 79; 86; 69]%N in P.
  cbn [Text.startswith] in P. apply andb_prop in P. destruct P as [P _].
  apply N.eqb_eq in P. subst c. reflexivity.
Qed.

(** C1, as the specification words it, fails: the test is on a prefix of the
    text, so a query whose leading keyword merely begins with one of the four
    words goes to the write path.  Here the keyword is [SETTINGS]. *)
Lemma prefix_beyond_keyword_is_write :
  routed_as_write (drv := scripted) "settings for x" PNone (start [])
  /\ leading_keyword "settings for x" = Text.decode "SETTINGS"
  /\ ~ In (leading_keyword "settings for x") keywords
  /\ ~ routed_as_read (drv := scripted) "settings for x" PNone (start []).
Proof.
  split; [| split; [| split]].
  - split; reflexivity.
  - reflexivity.
  - intros [H | [H | [H | [H | []]]]]; discriminate.
  - intros [_ H]. discriminate.
Qed.

(** C1, amended: [run_custom_query] takes the write path exactly when the
    query text, trimmed and upper-cased as Python does it, starts with one
    of [CREATE], [DELETE], [MERGE], [SET], and the read path otherwise.  So
    every query whose leading keyword is one of the four is a write, and a
    query whose leading keyword is [REMOVE] is a read. *)
Theorem run_custom_query_routes_by_prefix :
  forall (DB : Type) (drv : Driver DB) (q : string) (p : pyval) (w : World DB),
    (routed_as_write q p w
     <-> Text.startswith_any (Text.upper (Text.strip (Text.decode q)))
           keywords = true)
    /\ (routed_as_read q p w
        <-> Text.startswith_any (Text.upper (Text.strip (Text.decode q)))
              keywords = false)
    /\ (In (leading_keyword q) keywords -> routed_as_write q p w)
    /\ (leading_keyword q = Text.decode "REMOVE" -> routed_as_read q p w).
Proof.
  intros DB drv q p w.
  change (Text.startswith_any (Text.upper (Text.strip (Text.decode q)))
            keywords)
    with (Neo4jService.is_write_query q).
  split; [| split; [| split]].
  - split; [| apply write_route].
    intros Hw. destruct (Neo4jService.is_write_query q) eqn:E; [reflexivity |].
    exfalso. exact (not_both_routes Hw (read_route q p w E)).
  - split; [| apply read_route].
    intros Hr. destruct (Neo4jService.is_write_query q) eqn:E; [| reflexivity].
    exfalso. exact (not_both_routes (write_route q p w E) Hr).
  - intros H. apply write_route, keyword_is_write, H.
  - intros H. apply read_route, remove_is_not_write, H.
Qed.

(** A [CREATE] in lower case with blanks before it, and a [REMOVE]. *)
Lemma run_custom_query_routes_by_prefix_witness :
  routed_as_write (drv := scripted) "  create (n:Person) RETURN n" PNone
    (start [Ok []])
  /\ routed_as_read (drv := scripted) "REMOVE n.age" PNone (start [Ok []]).
Proof.
  split.
  - apply (proj1 (proj2 (proj2 (run_custom_query_routes_by_prefix scripted
             "  create (n:Person) RETURN n" PNone (start [Ok []]))))).
    left. reflexivity.
  - apply (proj2 (proj2 (proj2 (run_custom_query_routes_by_prefix scripted
             "REMOVE n.age" PNone (start [Ok []]))))).
    reflexivity.
Defined.

(** ** Extracting a node identifier on the client *)



Section ClientProperties.
Import Client ClientSpec.

Lemma int_is_not_none (v : pyval) :
  isinstance_int v = true -> is_none v = false.
Proof. destruct v; simpl; congruence. Qed.

Lemma id_candidates_are_ints (obj : pyval) :
  Forall (fun v => isinstance_int v = true) (id_candidates obj).
Proof.
  induction obj as [| | | | | xs IH | d IH] using pyval_nested_ind;
    try (simpl; constructor).
  - simpl. induction IH as [| x l Hx _ IHl]; [constructor |].
    apply Forall_app. split; assumption.
  - simpl. induction IH as [| [k v] l Hv _ IHl]; [constructor |].
    simpl in Hv. apply Forall_app. split.
    + destruct (is_id_key k && isinstance_int v) eqn:E; constructor; [| constructor].
      apply andb_prop in E. tauto.
    + apply Forall_app. split; assumption.
Qed.

Lemma hd_app_step (result : pyval) (front back : list pyval) (later : pyval) :
  result = hd PNone front ->
  Forall (fun v => isinstance_int v = true) front ->
  later = hd PNone back ->
  (if negb (is_none result) then result else later)
  = hd PNone (front ++ back).
Proof.
  intros -> Hints ->. destruct front as [| c cs]; simpl; [reflexivity |].
  inversion Hints as [| ? ? Hc _]; subst.
  now rewrite (int_is_not_none _ Hc).
Qed.

(** The search returns the first candidate of the walk, or [None]. *)
Lemma find_id_is_first_candidate (obj : pyval) :
  find_id obj = hd PNone (id_candidates obj).
Proof.
  induction obj as [| | | | | xs IH | d IH] using pyval_nested_ind;
    try reflexivity.
  - simpl. induction IH as [| x l Hx _ IHl]; [reflexivity |].
    apply hd_app_step; [assumption | apply id_candidates_are_ints | assumption].
  - simpl. induction IH as [| [k v] l Hv _ IHl]; [reflexivity |].
    simpl in Hv.
    destruct (is_id_key k && isinstance_int v); [reflexivity |].
    rewrite app_nil_l.
    apply hd_app_step; [assumption | apply id_candidates_are_ints | assumption].
Qed.

Lemma extract_with_n_mapping (r m : dict) :
  lookup "n" r = Some (PDict m) ->
  extract_node_id r
  = Ok (match identity_or_id (PDict m) with Some v => v | None => PNone end).
Proof.
  intros H. unfold extract_node_id. rewrite H. simpl. unfold dict_get.
  destruct (lookup "identity" m); [reflexivity |].
  destruct (lookup "id" m); reflexivity.
Qed.

Lemma extract_without_n (r : dict) :
  lookup "n" r = None ->
  extract_node_id r = Ok (three_step_fallback r).
Proof.
  intros H. unfold extract_node_id, three_step_fallback, step_n.
  rewrite H. unfold step_first_key, step_search.
  rewrite <- find_id_is_first_candidate.
  destruct (first_value r) as [[| | | | | m |] |]; try reflexivity.
  simpl. destruct (lookup "identity" m); [reflexivity |].
  destruct (lookup "id" m); reflexivity.
Qed.

(** Where the value under [n] is not a mapping at all, [.get] fails. *)
Lemma extract_with_n_not_mapping (r : dict) (v : pyval) :
  lookup "n" r = Some v -> isinstance_dict v = false ->
  exists e, extract_node_id r = Raise e /\ exn_class e = "AttributeError".
Proof.
  intros H D. unfold extract_node_id. rewrite H.
  destruct v; try discriminate; simpl; eauto.
Qed.
End ClientProperties.

(** C8: when the response has a top-level key [n] whose value is a mapping
    with neither [identity] nor [id], [extract_node_id] returns [None]; the
    first-key inspection and the recursive search play no part, whatever
    else the response holds. *)
Theorem extract_node_id_n_without_identifier :
  forall (r m : dict),
    lookup "n" r = Some (PDict m) ->
    lookup "identity" m = None ->
    lookup "id" m = None ->
    Client.extract_node_id r = Ok PNone.
Proof.
  intros r m Hn Hidentity Hid.
  rewrite (extract_with_n_mapping r Hn). simpl.
  now rewrite Hidentity, Hid.
Qed.

(** A node without identifier next to a top-level integer [id]: the search
    would have found 7. *)
Lemma extract_node_id_n_without_identifier_witness :
  Client.extract_node_id
    [("n", PDict [("name", PStr "Alice Smith")]); ("id", PInt 7)]
  = Ok PNone
  /\ Client.find_id
       (PDict [("n", PDict [("name", PStr "Alice Smith")]); ("id", PInt 7)])
     = PInt 7.
Proof.
  split.
  - apply (extract_node_id_n_without_identifier
             [("n", PDict [("name", PStr "Alice Smith")]); ("id", PInt 7)]
             (m := [("name", PStr "Alice Smith")]));
      reflexivity.
  - reflexivity.
Defined.

(** C2: the fall-through from the first step is missing.  With a node under
    [n] that has no identifier the first step finds nothing, and the code
    returns [None] there instead of going on to the later steps, which find
    7; with a value under [n] that is no mapping it raises an
    [AttributeError] instead of going on. *)
Lemma no_fall_through_after_n :
  Client.extract_node_id
    [("n", PDict [("name", PStr "Alice Smith")]); ("id", PInt 7)]
  = Ok PNone
  /\ ClientSpec.three_step_fallback
       [("n", PDict [("name", PStr "Alice Smith")]); ("id", PInt 7)]
     = PInt 7
  /\ Client.extract_node_id
       [("n", PDict [("name", PStr "Alice Smith")]); ("id", PInt 7)]
     <> Ok (ClientSpec.three_step_fallback
              [("n", PDict [("name", PStr "Alice Smith")]); ("id", PInt 7)])
  /\ Client.extract_node_id [("n", PList [PInt 3]); ("id", PInt 7)]
     = Raise (mkExn "AttributeError" "'list' object has no attribute 'get'")
  /\ ClientSpec.three_step_fallback [("n", PList [PInt 3]); ("id", PInt 7)]
     = PInt 7.
Proof.
  split; [reflexivity | split; [reflexivity | split; [discriminate |]]].
  split; reflexivity.
Qed.

(** X26: what [extract_node_id] does, step by step.  A key [n] decides
    alone: when it holds a mapping the result is that mapping's [identity],
    else its [id], else [None]; when it holds anything else the call raises.
    Only a response without a key [n] goes on: to the first key's value,
    looked at in the same way, and from there, when that finds nothing, to
    the depth-first search, which returns the first [int] stored under [id]
    or [identity], or [None].  So the code follows the three-step procedure
    whenever step 1 finds an identifier or there is no key [n]. *)
Theorem extract_node_id_steps :
  forall (r : dict),
    (forall m,
        lookup "n" r = Some (PDict m) ->
        Client.extract_node_id r
        = Ok (match ClientSpec.identity_or_id (PDict m) with
              | Some v => v
              | None => PNone
              end))
    /\ (forall v,
           lookup "n" r = Some v -> isinstance_dict v = false ->
           exists e, Client.extract_node_id r = Raise e
                     /\ exn_class e = "AttributeError")
    /\ (lookup "n" r = None ->
        Client.extract_node_id r
        = Ok (match ClientSpec.step_first_key r with
              | Some v => v
              | None => ClientSpec.step_search r
              end))
    /\ (ClientSpec.step_n r <> None \/ lookup "n" r = None ->
        Client.extract_node_id r = Ok (ClientSpec.three_step_fallback r)).
Proof.
  intros r. split; [| split; [| split]].
  - intros m H. now apply extract_with_n_mapping.
  - intros v H D. now apply (extract_with_n_not_mapping r H).
  - intros H. rewrite (extract_without_n r H).
    unfold ClientSpec.three_step_fallback, ClientSpec.step_n. now rewrite H.
  - intros [H | H]; [| now apply extract_without_n].
    unfold ClientSpec.three_step_fallback. unfold ClientSpec.step_n in *.
    destruct (lookup "n" r) as [v |] eqn:E; [| congruence].
    destruct v; try (simpl in H; congruence).
    rewrite (extract_with_n_mapping r E).
    destruct (ClientSpec.identity_or_id (PDict items)); congruence.
Qed.

(** One response per step: a node under [n], a node under another first
    key, and an identifier found only by the search. *)
Lemma extract_node_id_steps_witness :
  Client.extract_node_id
    [("n", PDict [("id", PInt 3); ("identity", PInt 12)]); ("id", PInt 9)]
  = Ok (PInt 12)
  /\ Client.extract_node_id
       [("p", PDict [("name", PStr "Alice Smith"); ("id", PInt 4)])]
     = Ok (PInt 4)
  /\ Client.extract_node_id
       [("rows", PList [PDict [("c", PDict [("id", PStr "x")])];
                        PDict [("c", PDict [("identity", PInt 5)])]]);
        ("id", PInt 8)]
     = Ok (PInt 5)
  /\ exists e, Client.extract_node_id [("n", PInt 3)] = Raise e
               /\ exn_class e = "AttributeError".
Proof.
  split; [| split; [| split]].
  - exact (proj1 (extract_node_id_steps
                    [("n", PDict [("id", PInt 3); ("identity", PInt 12)]);
                     ("id", PInt 9)])
             [("id", PInt 3); ("identity", PInt 12)] eq_refl).
  - exact (proj1 (proj2 (proj2 (extract_node_id_steps
                    [("p", PDict [("name", PStr "Alice Smith");
                                  ("id", PInt 4)])]))) eq_refl).
  - exact (proj2 (proj2 (proj2 (extract_node_id_steps
                    [("rows", PList [PDict [("c", PDict [("id", PStr "x")])];
                                     PDict [("c", PDict [("identity", PInt 5)])]]);
                     ("id", PInt 8)]))) (or_intror eq_refl)).
  - exact (proj1 (proj2 (extract_node_id_steps [("n", PInt 3)]))
             (PInt 3) eq_refl eq_refl).
Defined.

(** ** The model at work *)

Example health_check_up :
  App.health_check (start [Ok [[("result", PInt 1)]]])
  = (mkWorld [] [SessionRun "RETURN 1 AS result" PNone], Ok healthy_response).
Proof. reflexivity. Qed.

Example health_check_down :
  snd (App.health_check (start [])) = Ok unhealthy_response.
Proof. reflexivity. Qed.

Example create_person :
  snd (App.create_node "Person"
         (PDict [("name", PStr "Alice Smith"); ("age", PInt 32)])
         (start [Ok [[("n", PDict [("name", PStr "Alice Smith");
                                   ("age", PInt 32)])]]]))
  = Ok (mkResponse
          (Json (PDict [("n", PDict [("name", PStr "Alice Smith");
                                     ("age", PInt 32)])])) 201).
Proof. reflexivity. Qed.

Example created_at_is_not_json :
  snd (App.create_node "Person" (PDict [("name", PStr "Alice Smith")])
         (start [Ok [[("n", PDict [("created_at", PObj "DateTime")])]]]))
  = Ok (server_error_response (TypeError "Object is not JSON serializable")).
Proof. reflexivity. Qed.

Example strip_upper_sample :
  Text.upper (Text.strip
                (Text.decode (" " ++ Str.nl ++ "  Merge (a) " ++ Str.nl)))
  = Text.decode "MERGE (A)".
Proof. reflexivity. Qed.

(** A no-break space before the keyword is trimmed; the long s of
    [U+017F] upper-cases to S. *)
Example unicode_margin_and_case :
  Neo4jService.is_write_query (Text.encode [160%N] ++ "CREATE (n)") = true
  /\ Neo4jService.is_write_query (Text.encode [383%N] ++ "et n.x = 1") = true
  /\ Text.upper [223; 305; 64262]%N = [83; 83; 73; 83; 84]%N.
Proof. repeat split; reflexivity. Qed.

Example repr_keeps_printable :
  Repr.str (PList [PStr (Text.encode [233%N]);
                   PStr (Text.encode [160; 8232]%N)])
  = "['" ++ Text.encode [233%N] ++ "', '" ++ "\xa0" ++ "\u2028" ++ "']".
Proof. reflexivity. Qed.

Example repr_sample :
  Repr.str (PDict [("ab", PList [PInt (-12); PNone; PStr "x"; PBool true])])
  = "{'ab': [-12, None, 'x', True]}".
Proof. reflexivity. Qed.

(** * Further properties of the service layer *)

Section HandlerWorld.
Context {DB : Type} {drv : Driver DB}.

Lemma respond_json_world (v : pyval) (code : Z) (w : World DB) :
  fst (App.respond_json v code w) = w.
Proof.
  unfold App.respond_json. unfold_effects. now destruct (jsonify v).
Qed.

Lemma on_exception_world (e : exn) (w : World DB) :
  App.on_exception e w = (w, Ok (server_error_response e)).
Proof. reflexivity. Qed.

(** A [try] block made of one adapter call and a reply leaves the world as
    the adapter call left it. *)
Lemma try_adapter_world {A} (adapter : M DB A) (reply : A -> M DB Response)
      (w : World DB) :
  (forall a w0, fst (reply a w0) = w0) ->
  fst (try_except (x <- adapter ;; reply x) App.on_exception w)
  = fst (adapter w).
Proof.
  intros Hreply. unfold try_except, bind.
  destruct (adapter w) as [w' [a | e]]; simpl; [| reflexivity].
  specialize (Hreply a w').
  destruct (reply a w') as [w'' [resp | e]]; simpl in *; congruence.
Qed.

Lemma execute_write_query_world (q : string) (p : pyval) (w : World DB) :
  Neo4jService.execute_write_query q p w
  = (after_call w (fst (write_transaction q (py_or p (PDict [])) (db w)))
       (WriteTransaction q (py_or p (PDict []))),
     snd (write_transaction q (py_or p (PDict [])) (db w))).
Proof.
  unfold_adapter. unfold_effects. unfold after_call.
  now destruct (write_transaction q (py_or p (PDict [])) (db w)).
Qed.

Lemma execute_read_query_world (q : string) (p : pyval) (w : World DB) :
  Neo4jService.execute_read_query q p w
  = (after_call w (fst (session_run q (py_or p (PDict [])) (db w)))
       (SessionRun q (py_or p (PDict []))),
     snd (session_run q (py_or p (PDict [])) (db w))).
Proof.
  unfold_adapter. unfold_effects. unfold after_call.
  now destruct (session_run q (py_or p (PDict [])) (db w)).
Qed.

(** After a query, whatever the adapter does with the rows touches neither
    the database nor the log. *)
Lemma query_then_pure_world {A} (query : M DB (list dict))
      (k : list dict -> Res A) (w : World DB) :
  fst ((result <- query ;; lift (k result)) w) = fst (query w).
Proof.
  unfold bind, lift. now destruct (query w) as [w' [rows | e]].
Qed.
End HandlerWorld.

Section AdapterWorld.
Context {DB : Type} {drv : Driver DB}.

Lemma create_node_world (label : string) (properties : pyval) (w : World DB) :
  fst (Neo4jService.create_node label properties w)
  = after_call w
      (fst (write_transaction (Neo4jService.create_node_query label)
              (PDict [("props", properties)]) (db w)))
      (WriteTransaction (Neo4jService.create_node_query label)
         (PDict [("props", properties)])).
Proof.
  unfold Neo4jService.create_node, bind.
  rewrite execute_write_query_world.
  now destruct (snd _).
Qed.

Lemma update_node_world (node_id : Z) (properties : pyval) (w : World DB) :
  fst (Neo4jService.update_node node_id properties w)
  = after_call w
      (fst (write_transaction Neo4jService.update_node_query
              (PDict [("node_id", PInt node_id); ("props", properties)])
              (db w)))
      (WriteTransaction Neo4jService.update_node_query
         (PDict [("node_id", PInt node_id); ("props", properties)])).
Proof.
  unfold Neo4jService.update_node, bind.
  rewrite execute_write_query_world.
  now destruct (snd _).
Qed.

Lemma get_node_by_id_world (node_id : Z) (w : World DB) :
  fst (Neo4jService.get_node_by_id node_id w)
  = after_call w
      (fst (session_run Neo4jService.get_node_query
              (PDict [("node_id", PInt node_id)]) (db w)))
      (SessionRun Neo4jService.get_node_query
         (PDict [("node_id", PInt node_id)])).
Proof.
  unfold Neo4jService.get_node_by_id, bind.
  rewrite execute_read_query_world.
  now destruct (snd _).
Qed.

Lemma delete_node_world (node_id : Z) (w : World DB) :
  fst (Neo4jService.delete_node node_id w)
  = after_call w
      (fst (write_transaction Neo4jService.delete_node_query
              (delete_params node_id) (db w)))
      (WriteTransaction Neo4jService.delete_node_query
         (delete_params node_id)).
Proof.
  unfold Neo4jService.delete_node, bind.
  rewrite execute_write_query_world.
  destruct (snd _) as [[| r rest] | e]; try reflexivity.
  unfold lift. simpl.
  now destruct (lookup "deleted" r).
Qed.

Lemma create_relationship_world (a b c properties : pyval) (w : World DB) :
  fst (Neo4jService.create_relationship a b c properties w)
  = after_call w
      (fst (write_transaction (Neo4jService.create_relationship_query c)
              (relationship_params a b properties) (db w)))
      (WriteTransaction (Neo4jService.create_relationship_query c)
         (relationship_params a b properties)).
Proof.
  unfold Neo4jService.create_relationship, bind.
  rewrite execute_write_query_world.
  now destruct (snd _).
Qed.

Lemma verify_connectivity_world (w : World DB) :
  fst (Neo4jService.verify_connectivity w)
  = after_call w
      (fst (session_run "RETURN 1 AS result" PNone (db w)))
      (SessionRun "RETURN 1 AS result" PNone).
Proof.
  unfold Neo4jService.verify_connectivity. unfold_effects. unfold after_call.
  destruct (session_run "RETURN 1 AS result" PNone (db w)) as [d [rows | e]];
    simpl; [| reflexivity].
  now destruct (py_getitem (Neo4jService.single rows) "result").
Qed.

Lemma run_custom_query_world (q : string) (p : pyval) (w : World DB) :
  fst (Neo4jService.run_custom_query (PStr q) p w)
  = if Neo4jService.is_write_query q
    then after_call w
           (fst (write_transaction q (py_or p (PDict [])) (db w)))
           (WriteTransaction q (py_or p (PDict [])))
    else after_call w
           (fst (session_run q (py_or p (PDict [])) (db w)))
           (SessionRun q (py_or p (PDict []))).
Proof.
  unfold Neo4jService.run_custom_query.
  destruct (Neo4jService.is_write_query q).
  - now rewrite execute_write_query_world.
  - now rewrite execute_read_query_world.
Qed.
End AdapterWorld.

Section HandlerCalls.
Context {DB : Type} {drv : Driver DB}.

Lemma found_or_404_world (result : pyval) (w0 : World DB) :
  fst ((if truthy result then App.respond_json result 200
        else App.respond_json (error_body "Node not found") 404) w0) = w0.
Proof. destruct (truthy result); apply respond_json_world. Qed.

Lemma deleted_or_404_world (success : bool) (w0 : World DB) :
  fst ((if success then ret (mkResponse (Text EmptyString) 204)
        else App.respond_json (error_body "Node not found") 404) w0) = w0.
Proof. destruct success; reflexivity. Qed.

Lemma health_check_world (w : World DB) :
  fst (App.health_check w) = fst (Neo4jService.verify_connectivity w).
Proof. now rewrite health_check_follows_probe. Qed.

Lemma get_node_world (node_id : Z) (w : World DB) :
  fst (App.get_node node_id w) = fst (Neo4jService.get_node_by_id node_id w).
Proof.
  unfold App.get_node. apply try_adapter_world. apply found_or_404_world.
Qed.

Lemma delete_handler_world (node_id : Z) (w : World DB) :
  fst (App.delete_node node_id w) = fst (Neo4jService.delete_node node_id w).
Proof.
  unfold App.delete_node. apply try_adapter_world. apply deleted_or_404_world.
Qed.

Lemma create_handler_world (label : string) (data : pyval) (w : World DB) :
  truthy data = true ->
  fst (App.create_node label data w)
  = fst (Neo4jService.create_node label data w).
Proof.
  intros T. unfold App.create_node. rewrite T. simpl.
  apply try_adapter_world. intros a w0. apply respond_json_world.
Qed.

Lemma update_handler_world (node_id : Z) (data : pyval) (w : World DB) :
  truthy data = true ->
  fst (App.update_node node_id data w)
  = fst (Neo4jService.update_node node_id data w).
Proof.
  intros T. unfold App.update_node. rewrite T. simpl.
  apply try_adapter_world. apply found_or_404_world.
Qed.
End HandlerCalls.

(** X1: the two read-only routes reach the database through exactly one
    [session.run] and never open a write transaction: GET /health runs the
    probe, GET /nodes/{id} runs the lookup with the path id bound to
    [$node_id]. *)
Theorem read_routes_only_read :
  forall (DB : Type) (drv : Driver DB) (node_id : Z) (w : World DB),
    calls (fst (App.health_check w))
    = (calls w ++ [SessionRun "RETURN 1 AS result" PNone])%list
    /\ calls (fst (App.get_node node_id w))
       = (calls w ++ [SessionRun Neo4jService.get_node_query
                        (PDict [("node_id", PInt node_id)])])%list.
Proof.
  intros DB drv node_id w. split.
  - now rewrite health_check_world, verify_connectivity_world.
  - now rewrite get_node_world, get_node_by_id_world.
Qed.

(** X2: POST /nodes/{label} and PUT /nodes/{id} test the body for truth
    only.  A falsy body (absent, an empty object, array or string, zero,
    false) is answered 400 without a driver call; any other body, whatever
    its type, is bound to [$props] as it is in exactly one write
    transaction. *)
Theorem node_body_reaches_database :
  forall (DB : Type) (drv : Driver DB) (label : string) (node_id : Z)
         (data : pyval) (w : World DB),
    (truthy data = false ->
     App.create_node label data w
     = (w, Ok (mkResponse (Json (error_body "No data provided")) 400))
     /\ App.update_node node_id data w
        = (w, Ok (mkResponse (Json (error_body "No data provided")) 400)))
    /\ (truthy data = true ->
        calls (fst (App.create_node label data w))
        = (calls w ++ [WriteTransaction (Neo4jService.create_node_query label)
                         (PDict [("props", data)])])%list
        /\ calls (fst (App.update_node node_id data w))
           = (calls w ++ [WriteTransaction Neo4jService.update_node_query
                            (PDict [("node_id", PInt node_id);
                                    ("props", data)])])%list).
Proof.
  intros DB drv label node_id data w. split; intros T.
  - unfold App.create_node, App.update_node. rewrite T. split; reflexivity.
  - split.
    + now rewrite (create_handler_world label data w T), create_node_world.
    + now rewrite (update_handler_world node_id data w T), update_node_world.
Qed.

(** An empty array is refused; the number 5 is sent on as the properties. *)
Lemma node_body_reaches_database_witness :
  App.create_node "Person" (PList []) (start [])
  = (start [], Ok (mkResponse (Json (error_body "No data provided")) 400))
  /\ calls (fst (App.create_node "Person" (PInt 5) (start [])))
     = [WriteTransaction (Neo4jService.create_node_query "Person")
          (PDict [("props", PInt 5)])].
Proof.
  destruct (node_body_reaches_database scripted "Person" 0 (PList []) (start []))
    as [F _].
  destruct (node_body_reaches_database scripted "Person" 0 (PInt 5) (start []))
    as [_ T].
  split.
  - exact (proj1 (F eq_refl)).
  - exact (proj1 (T eq_refl)).
Defined.

Section Rows.
Context {DB : Type} {drv : Driver DB}.

Lemma create_node_on_rows (label : string) (data : pyval) (w : World DB)
      d rows :
  truthy data = true ->
  write_transaction (Neo4jService.create_node_query label)
    (PDict [("props", data)]) (db w) = (d, Ok rows) ->
  App.create_node label data w
  = (after_call w d (WriteTransaction (Neo4jService.create_node_query label)
                       (PDict [("props", data)])),
     match jsonify (Neo4jService.first_or rows (PDict [])) with
     | Ok b => Ok (mkResponse b 201)
     | Raise e => Ok (server_error_response e)
     end).
Proof.
  intros T H. unfold App.create_node. rewrite T. simpl.
  unfold try_except, bind at 1. unfold Neo4jService.create_node, bind at 1.
  rewrite execute_write_query_world.
  change (py_or (PDict [("props", data)]) (PDict []))
    with (PDict [("props", data)]).
  rewrite H. simpl. unfold App.respond_json. unfold_effects.
  now destruct (jsonify (Neo4jService.first_or rows (PDict []))).
Qed.

Lemma update_node_on_rows (node_id : Z) (data : pyval) (w : World DB) d rows :
  truthy data = true ->
  write_transaction Neo4jService.update_node_query
    (PDict [("node_id", PInt node_id); ("props", data)]) (db w)
  = (d, Ok rows) ->
  snd (App.update_node node_id data w)
  = if truthy (Neo4jService.first_or rows (PDict []))
    then match jsonify (Neo4jService.first_or rows (PDict [])) with
         | Ok b => Ok (mkResponse b 200)
         | Raise e => Ok (server_error_response e)
         end
    else Ok not_found_response.
Proof.
  intros T H. unfold App.update_node. rewrite T. simpl.
  unfold try_except, bind at 1. unfold Neo4jService.update_node, bind at 1.
  rewrite execute_write_query_world.
  change (py_or (PDict [("node_id", PInt node_id); ("props", data)]) (PDict []))
    with (PDict [("node_id", PInt node_id); ("props", data)]).
  rewrite H. simpl.
  destruct (truthy (Neo4jService.first_or rows (PDict []))); [| reflexivity].
  unfold App.respond_json. unfold_effects.
  now destruct (jsonify (Neo4jService.first_or rows (PDict []))).
Qed.

Lemma get_node_on_rows (node_id : Z) (w : World DB) d rows :
  session_run Neo4jService.get_node_query
    (PDict [("node_id", PInt node_id)]) (db w) = (d, Ok rows) ->
  snd (App.get_node node_id w)
  = if truthy (Neo4jService.first_or rows PNone)
    then match jsonify (Neo4jService.first_or rows PNone) with
         | Ok b => Ok (mkResponse b 200)
         | Raise e => Ok (server_error_response e)
         end
    else Ok not_found_response.
Proof.
  intros H. unfold App.get_node.
  unfold try_except, bind at 1. unfold Neo4jService.get_node_by_id, bind at 1.
  rewrite execute_read_query_world.
  change (py_or (PDict [("node_id", PInt node_id)]) (PDict []))
    with (PDict [("node_id", PInt node_id)]).
  rewrite H. simpl.
  destruct (truthy (Neo4jService.first_or rows PNone)); [| reflexivity].
  unfold App.respond_json. unfold_effects.
  now destruct (jsonify (Neo4jService.first_or rows PNone)).
Qed.

Lemma jsonify_serialisable (v : pyval) :
  serialisable v = true -> jsonify v = Ok (Json v).
Proof. intros H. unfold jsonify. now rewrite H. Qed.

Lemma jsonify_not_serialisable (v : pyval) :
  serialisable v = false -> exists e, jsonify v = Raise e.
Proof. intros H. unfold jsonify. rewrite H. eauto. Qed.
End Rows.

(** X3: when the query comes back with no row, the three node routes differ:
    POST /nodes/{label} still answers 201, with the empty object, while
    PUT /nodes/{id} and GET /nodes/{id} answer 404 [Node not found]. *)
Theorem no_row_answers :
  forall (DB : Type) (drv : Driver DB) (label : string) (node_id : Z)
         (data : pyval) (w : World DB) (d : DB),
    truthy data = true ->
    (write_transaction (Neo4jService.create_node_query label)
       (PDict [("props", data)]) (db w) = (d, Ok []) ->
     snd (App.create_node label data w)
     = Ok (mkResponse (Json (PDict [])) 201))
    /\ (write_transaction Neo4jService.update_node_query
          (PDict [("node_id", PInt node_id); ("props", data)]) (db w)
        = (d, Ok []) ->
        snd (App.update_node node_id data w) = Ok not_found_response)
    /\ (session_run Neo4jService.get_node_query
          (PDict [("node_id", PInt node_id)]) (db w) = (d, Ok []) ->
        snd (App.get_node node_id w) = Ok not_found_response).
Proof.
  intros DB drv label node_id data w d T. split; [| split]; intros H.
  - now rewrite (create_node_on_rows label data w T H).
  - now rewrite (update_node_on_rows node_id data w T H).
  - now rewrite (get_node_on_rows node_id w H).
Qed.

Lemma no_row_answers_witness :
  snd (App.create_node "Person" (PDict [("name", PStr "Alice Smith")])
         (start [Ok []]))
  = Ok (mkResponse (Json (PDict [])) 201)
  /\ snd (App.update_node 4 (PDict [("name", PStr "Alice Smith")])
            (start [Ok []]))
     = Ok not_found_response
  /\ snd (App.get_node 4 (start [Ok []])) = Ok not_found_response.
Proof.
  destruct (@no_row_answers _ scripted "Person" 4
              (PDict [("name", PStr "Alice Smith")]) (start [Ok []])
              [] eq_refl) as (C & U & G).
  split; [| split].
  - exact (C eq_refl).
  - exact (U eq_refl).
  - exact (G eq_refl).
Defined.

(** X4: of the rows a query returns only the first is answered, the others
    are dropped: with a first row that is non-empty and has a JSON form,
    GET and PUT /nodes/{id} answer 200 and POST /nodes/{label} answers 201,
    each with that row as the body.  A first row that is the empty object
    makes GET and PUT answer 404. *)
Theorem first_row_is_answered :
  forall (DB : Type) (drv : Driver DB) (label : string) (node_id : Z)
         (data : pyval) (w : World DB) (d : DB) (r : dict) (rest : list dict),
    truthy data = true ->
    serialisable (PDict r) = true ->
    (write_transaction (Neo4jService.create_node_query label)
       (PDict [("props", data)]) (db w) = (d, Ok (r :: rest)) ->
     snd (App.create_node label data w) = Ok (mkResponse (Json (PDict r)) 201))
    /\ (write_transaction Neo4jService.update_node_query
          (PDict [("node_id", PInt node_id); ("props", data)]) (db w)
        = (d, Ok (r :: rest)) ->
        snd (App.update_node node_id data w)
        = Ok (if truthy (PDict r) then mkResponse (Json (PDict r)) 200
              else not_found_response))
    /\ (session_run Neo4jService.get_node_query
          (PDict [("node_id", PInt node_id)]) (db w) = (d, Ok (r :: rest)) ->
        snd (App.get_node node_id w)
        = Ok (if truthy (PDict r) then mkResponse (Json (PDict r)) 200
              else not_found_response)).
Proof.
  intros DB drv label node_id data w d r rest T S.
  split; [| split]; intros H.
  - rewrite (create_node_on_rows label data w T H). simpl.
    now rewrite (jsonify_serialisable _ S).
  - rewrite (update_node_on_rows node_id data w T H).
    cbn [Neo4jService.first_or].
    rewrite (jsonify_serialisable _ S). now destruct (truthy (PDict r)).
  - rewrite (get_node_on_rows node_id w H).
    cbn [Neo4jService.first_or].
    rewrite (jsonify_serialisable _ S). now destruct (truthy (PDict r)).
Qed.

Lemma first_row_is_answered_witness :
  snd (App.get_node 4
         (start [Ok [[("n", PDict [("name", PStr "Alice Smith")])];
                     [("n", PDict [("name", PStr "Bob")])]]]))
  = Ok (mkResponse (Json (PDict [("n", PDict [("name", PStr "Alice Smith")])]))
          200).
Proof.
  destruct (@first_row_is_answered _ scripted "Person" 4
              (PDict [("age", PInt 33)])
              (start [Ok [[("n", PDict [("name", PStr "Alice Smith")])];
                          [("n", PDict [("name", PStr "Bob")])]]])
              [] [("n", PDict [("name", PStr "Alice Smith")])]
              [[("n", PDict [("name", PStr "Bob")])]]
              eq_refl eq_refl) as (_ & _ & G).
  exact (G eq_refl).
Defined.

(** X5: a 500 does not mean that nothing was written.  When the created
    node comes back holding a value with no JSON form, POST /nodes/{label}
    answers 500 with a [TypeError], after the write transaction has run and
    left its mark on the database. *)
Theorem create_node_500_after_write :
  forall (DB : Type) (drv : Driver DB) (label : string) (data : pyval)
         (w : World DB) (d : DB) (r : dict) (rest : list dict),
    truthy data = true ->
    write_transaction (Neo4jService.create_node_query label)
      (PDict [("props", data)]) (db w) = (d, Ok (r :: rest)) ->
    serialisable (PDict r) = false ->
    exists e,
      App.create_node label data w
      = (after_call w d (WriteTransaction (Neo4jService.create_node_query label)
                           (PDict [("props", data)])),
         Ok (server_error_response e))
      /\ exn_class e = "TypeError".
Proof.
  intros DB drv label data w d r rest T H S.
  rewrite (create_node_on_rows label data w T H). simpl.
  unfold jsonify. rewrite S. eexists. split; reflexivity.
Qed.

Lemma create_node_500_after_write_witness :
  exists e,
    App.create_node "Person" (PDict [("name", PStr "Alice Smith")])
      (start [Ok [[("n", PDict [("created_at", PObj "DateTime")])]]])
    = (mkWorld []
         [WriteTransaction (Neo4jService.create_node_query "Person")
            (PDict [("props", PDict [("name", PStr "Alice Smith")])])],
       Ok (server_error_response e))
    /\ exn_class e = "TypeError".
Proof.
  exact (@create_node_500_after_write _ scripted "Person"
           (PDict [("name", PStr "Alice Smith")])
           (start [Ok [[("n", PDict [("created_at", PObj "DateTime")])]]])
           [] [("n", PDict [("created_at", PObj "DateTime")])]
           [] eq_refl eq_refl eq_refl).
Defined.

(** X6: POST /cypher with a falsy body, or with a JSON object that has no
    key [query], is answered 400 [Query required] without a driver call. *)
Theorem cypher_query_required :
  forall (DB : Type) (drv : Driver DB) (data : pyval) (w : World DB),
    truthy data = false
    \/ (exists d, data = PDict d /\ lookup "query" d = None) ->
    App.run_cypher data w
    = (w, Ok (mkResponse (Json (error_body "Query required")) 400)).
Proof.
  intros DB drv data w [T | (d & -> & L)]; unfold App.run_cypher;
    unfold bind at 1.
  - rewrite T. reflexivity.
  - destruct (truthy (PDict d)); [| reflexivity].
    cbv beta iota delta [negb bind lift ret py_in has_key]. rewrite L.
    reflexivity.
Qed.

Lemma cypher_query_required_witness :
  App.run_cypher (PDict [("params", PDict [])]) (start [])
  = (start [], Ok (mkResponse (Json (error_body "Query required")) 400)).
Proof.
  apply (cypher_query_required scripted). right.
  exists [("params", PDict [])]. split; reflexivity.
Defined.

Section NonObjectBodies.
Context {DB : Type} {drv : Driver DB}.

Lemma getitem_non_dict (data : pyval) (k : string) :
  isinstance_dict data = false ->
  exists e, py_getitem data k = Raise e /\ exn_class e = "TypeError".
Proof. destruct data; simpl; try discriminate; eauto. Qed.

Lemma py_in_true_truthy (data : pyval) (c : ascii) (k : string) :
  py_in (String c k) data = Ok true -> truthy data = true.
Proof.
  destruct data as [| | | s | xs | d |]; simpl; try discriminate.
  - destruct s; [discriminate | reflexivity].
  - destruct xs; [discriminate | reflexivity].
  - unfold has_key. destruct d; [discriminate | reflexivity].
Qed.
End NonObjectBodies.

(** X7: the two handlers that test [field in data] accept any body on which
    the test succeeds.  A string in which the field names occur, or an array
    that lists them, passes the test, fails at [data[field]] inside the
    [try], and is answered 500 with a [TypeError] instead of 400; the driver
    is not called. *)
Theorem non_object_body_is_500 :
  forall (DB : Type) (drv : Driver DB) (data : pyval) (w : World DB),
    isinstance_dict data = false ->
    (py_in "query" data = Ok true ->
     exists e,
       App.run_cypher data w = (w, Ok (server_error_response e))
       /\ exn_class e = "TypeError")
    /\ (App.all_in App.required_fields data = Ok true ->
        exists e,
          App.create_relationship data w = (w, Ok (server_error_response e))
          /\ exn_class e = "TypeError").
Proof.
  intros DB drv data w D. split; intros H.
  - destruct (getitem_non_dict data "query" D) as (e & G & C).
    exists e. split; [| exact C].
    unfold App.run_cypher. unfold bind at 1.
    rewrite (py_in_true_truthy _ _ _ H).
    cbv beta iota delta [negb bind lift ret]. rewrite H.
    cbv beta iota delta [negb try_except]. rewrite G. reflexivity.
  - destruct (getitem_non_dict data "from_id" D) as (e & G & C).
    exists e. split; [| exact C].
    assert (T : truthy data = true).
    { simpl in H. destruct (py_in "from_id" data) as [[|] |] eqn:E;
        try discriminate.
      exact (py_in_true_truthy _ _ _ E). }
    unfold App.create_relationship. unfold bind at 1. rewrite T.
    cbv beta iota delta [negb bind lift ret]. rewrite H.
    cbv beta iota delta [negb try_except]. rewrite G. reflexivity.
Qed.

Lemma non_object_body_is_500_witness :
  (exists e,
      App.run_cypher (PStr "my query") (start [])
      = (start [], Ok (server_error_response e))
      /\ exn_class e = "TypeError")
  /\ (exists e,
         App.create_relationship
           (PList [PStr "from_id"; PStr "to_id"; PStr "type"]) (start [])
         = (start [], Ok (server_error_response e))
         /\ exn_class e = "TypeError").
Proof.
  split.
  - exact (proj1 (non_object_body_is_500 scripted (PStr "my query")
                    (start []) eq_refl) eq_refl).
  - exact (proj2 (non_object_body_is_500 scripted
                    (PList [PStr "from_id"; PStr "to_id"; PStr "type"])
                    (start []) eq_refl) eq_refl).
Defined.

(** X8: POST /cypher with a [query] that is not text (a number, an array,
    null ...) is answered 500 with an [AttributeError] -- the value has no
    [strip] -- and the driver is not called. *)
Theorem cypher_query_not_text :
  forall (DB : Type) (drv : Driver DB) (d : dict) (query : pyval)
         (w : World DB),
    lookup "query" d = Some query ->
    (forall q, query <> PStr q) ->
    exists e,
      App.run_cypher (PDict d) w = (w, Ok (server_error_response e))
      /\ exn_class e = "AttributeError".
Proof.
  intros DB drv d query w L N.
  rewrite (run_cypher_endpoint_calls _ w L).
  unfold try_except, bind, Neo4jService.run_custom_query, raise.
  destruct query; try (eexists; split; reflexivity).
  exfalso. exact (N s eq_refl).
Qed.

Lemma cypher_query_not_text_witness :
  exists e,
    App.run_cypher (PDict [("query", PInt 42)]) (start [])
    = (start [], Ok (server_error_response e))
    /\ exn_class e = "AttributeError".
Proof.
  apply (cypher_query_not_text scripted [("query", PInt 42)] (start [])
           (query := PInt 42) eq_refl).
  intros q. discriminate.
Defined.

(** X9: POST /cypher with a text query makes exactly one driver call, in
    the mode the prefix test selects, with the request's [params] bound --
    the empty mapping when [params] is absent or null.  When the call
    returns rows that have a JSON form, the answer is 200 with all the rows,
    in order. *)
Theorem cypher_request_reaches_database :
  forall (DB : Type) (drv : Driver DB) (d : dict) (q : string) (w : World DB),
    lookup "query" d = Some (PStr q) ->
    let params := py_or (dict_get d "params" (PDict [])) (PDict []) in
    let sent := if Neo4jService.is_write_query q
                then WriteTransaction q params else SessionRun q params in
    calls (fst (App.run_cypher (PDict d) w)) = (calls w ++ [sent])%list
    /\ (lookup "params" d = None \/ lookup "params" d = Some PNone ->
        params = PDict [])
    /\ (forall w' rows,
           Neo4jService.run_custom_query (PStr q)
             (dict_get d "params" (PDict [])) w = (w', Ok rows) ->
           serialisable (PList (List.map PDict rows)) = true ->
           App.run_cypher (PDict d) w
           = (w', Ok (mkResponse (Json (PList (List.map PDict rows))) 200))).
Proof.
  intros DB drv d q w L params sent. split; [| split].
  - rewrite (run_cypher_endpoint_calls _ w L).
    rewrite try_adapter_world by (intros; apply respond_json_world).
    rewrite run_custom_query_world. unfold sent, params.
    now destruct (Neo4jService.is_write_query q).
  - unfold params, dict_get. intros [-> | ->]; reflexivity.
  - intros w' rows H S.
    rewrite (run_cypher_endpoint_calls _ w L).
    unfold try_except, bind at 1. rewrite H.
    unfold App.respond_json. unfold_effects.
    now rewrite (jsonify_serialisable _ S).
Qed.

Lemma cypher_request_reaches_database_witness :
  App.run_cypher (PDict [("query", PStr "MATCH (n) RETURN n.name AS name")])
    (start [Ok [[("name", PStr "Alice Smith")]; [("name", PStr "Bob")]]])
  = (mkWorld [] [SessionRun "MATCH (n) RETURN n.name AS name" (PDict [])],
     Ok (mkResponse
           (Json (PList [PDict [("name", PStr "Alice Smith")];
                         PDict [("name", PStr "Bob")]])) 200)).
Proof.
  destruct (cypher_request_reaches_database scripted
              [("query", PStr "MATCH (n) RETURN n.name AS name")]
              (start [Ok [[("name", PStr "Alice Smith")];
                          [("name", PStr "Bob")]]])
              (q := "MATCH (n) RETURN n.name AS name") eq_refl)
    as (_ & _ & R).
  exact (R _ [[("name", PStr "Alice Smith")]; [("name", PStr "Bob")]]
           eq_refl eq_refl).
Defined.

(** X10: a well-formed POST /relationships makes exactly one write
    transaction.  The request's [type], of whatever JSON type, is written
    into the query text as [str] formats it; [from_id] and [to_id] are bound
    as they came; [$props] is the request's [properties] when that is there
    and truthy, and the empty mapping when it is absent, null or otherwise
    falsy. *)
Theorem relationship_request_reaches_database :
  forall (DB : Type) (drv : Driver DB) (d : dict)
         (from_id to_id rel_type : pyval) (w : World DB),
    lookup "from_id" d = Some from_id ->
    lookup "to_id" d = Some to_id ->
    lookup "type" d = Some rel_type ->
    exists props,
      calls (fst (App.create_relationship (PDict d) w))
      = (calls w
           ++ [WriteTransaction
                 (Neo4jService.create_relationship_query rel_type)
                 (PDict [("from_id", from_id); ("to_id", to_id);
                         ("props", props)])])%list
      /\ props = py_or (dict_get d "properties" (PDict [])) (PDict [])
      /\ (truthy (dict_get d "properties" (PDict [])) = false ->
          props = PDict [])
      /\ (truthy (dict_get d "properties" (PDict [])) = true ->
          lookup "properties" d = Some props).
Proof.
  intros DB drv d a b c w Ha Hb Hc.
  exists (py_or (dict_get d "properties" (PDict [])) (PDict [])).
  split; [| split; [reflexivity | split]].
  - rewrite (create_relationship_endpoint_calls _ w Ha Hb Hc).
    rewrite try_adapter_world by (intros; apply respond_json_world).
    now rewrite create_relationship_world.
  - unfold py_or. now intros ->.
  - unfold py_or, dict_get. intros T. rewrite T.
    destruct (lookup "properties" d); [reflexivity | discriminate T].
Qed.

Lemma relationship_request_reaches_database_witness :
  calls (fst (App.create_relationship
                (PDict [("from_id", PInt 1); ("to_id", PInt 2);
                        ("type", PInt 5); ("properties", PNone)])
                (start [])))
  = [WriteTransaction (Neo4jService.create_relationship_query (PInt 5))
       (PDict [("from_id", PInt 1); ("to_id", PInt 2); ("props", PDict [])])].
Proof.
  destruct (relationship_request_reaches_database scripted
              [("from_id", PInt 1); ("to_id", PInt 2);
               ("type", PInt 5); ("properties", PNone)]
              (start []) (from_id := PInt 1) (to_id := PInt 2)
              (rel_type := PInt 5) eq_refl eq_refl eq_refl)
    as (props & C & _ & F & _).
  rewrite C. now rewrite (F eq_refl).
Defined.

(** The type of a relationship goes into the query text as it came: a text
    unquoted and with every character it has, a number in decimal. *)
Example relationship_type_in_query :
  Neo4jService.create_relationship_query (PStr "KNOWS]->(b) DETACH DELETE a //")
  = "
        MATCH (a), (b) 
        WHERE id(a) = $from_id AND id(b) = $to_id
        CREATE (a)-[r:KNOWS]->(b) DETACH DELETE a // $props]->(b)
        SET r.created_at = datetime()
        RETURN r
        "
  /\ Neo4jService.create_relationship_query (PInt 5)
     = "
        MATCH (a), (b) 
        WHERE id(a) = $from_id AND id(b) = $to_id
        CREATE (a)-[r:5 $props]->(b)
        SET r.created_at = datetime()
        RETURN r
        ".
Proof. split; vm_compute; reflexivity. Qed.

(** ** The routing test and the shape of the text *)

Section UpperAndSpace.

Lemma isspace_in (c : N) : Text.isspace c = true <-> In c Text.whitespace.
Proof.
  unfold Text.isspace. rewrite existsb_exists. split.
  - intros (x & Hx & E). apply N.eqb_eq in E. now subst.
  - intros H. exists c. split; [exact H | apply N.eqb_refl].
Qed.

(** Upper-casing leaves a whitespace character as it is. *)
Lemma upper_of_space (c : N) :
  Text.isspace c = true -> Text.upper_cp c = [c].
Proof.
  intros H. apply isspace_in in H. unfold Text.whitespace in H.
  repeat (destruct H as [<- | H]; [reflexivity |]).
  destruct H.
Qed.

Lemma specials_clear : forallb special_clear Text.upper_special = true.
Proof. vm_compute. reflexivity. Qed.

Lemma runs_clear : forallb run_clear Text.upper_runs = true.
Proof. vm_compute. reflexivity. Qed.

(** The upper case of any other character is not empty and holds no
    whitespace. *)
Lemma upper_of_other (c : N) :
  Text.isspace c = false ->
  Text.upper_cp c <> []
  /\ Forall (fun x => Text.isspace x = false) (Text.upper_cp c).
Proof.
  intros Hc. unfold Text.upper_cp.
  destruct (find (fun e => (fst e =? c)%N) Text.upper_special)
    as [[k image] |] eqn:F.
  - apply find_some in F. destruct F as [F _].
    pose proof specials_clear as S. rewrite forallb_forall in S.
    specialize (S _ F). unfold special_clear in S. cbn [snd] in S.
    destruct image as [| x image]; [discriminate |].
    split; [discriminate |].
    rewrite forallb_forall in S. apply Forall_forall. intros y Hy.
    specialize (S y Hy). now destruct (Text.isspace y).
  - destruct (find (Text.in_run c) Text.upper_runs)
      as [[[[first last] step] image] |] eqn:R.
    + apply find_some in R. destruct R as [R Hin].
      pose proof runs_clear as S. rewrite forallb_forall in S.
      specialize (S _ R). unfold run_clear in S.
      rewrite forallb_forall in S.
      split; [discriminate |]. constructor; [| constructor].
      destruct (Text.isspace (image + c - first)) eqn:E; [| reflexivity].
      exfalso. apply isspace_in in E. specialize (S _ E).
      unfold Text.in_run in Hin.
      apply andb_prop in Hin. destruct Hin as [Hin _].
      apply andb_prop in Hin. destruct Hin as [Hlo Hhi].
      apply N.leb_le in Hlo. apply N.leb_le in Hhi.
      apply orb_prop in S. destruct S as [S | S]; apply N.ltb_lt in S; lia.
    + split; [discriminate |]. constructor; [exact Hc | constructor].
Qed.

Lemma upper_nil (t : list N) : Text.upper t = [] -> t = [].
Proof.
  destruct t as [| c t]; [reflexivity |]. simpl. intros H.
  apply app_eq_nil in H. destruct H as [H _].
  destruct (Text.isspace c) eqn:E.
  - rewrite (upper_of_space c E) in H. discriminate.
  - destruct (upper_of_other c E) as [N _]. contradiction.
Qed.

Lemma lstrip_other (x : N) (t : list N) :
  Text.isspace x = false -> Text.lstrip (x :: t) = x :: t.
Proof. intros H. simpl. now rewrite H. Qed.

Lemma rstrip_other (x : N) (t : list N) :
  Text.isspace x = false -> Text.rstrip (x :: t) = x :: Text.rstrip t.
Proof. intros H. simpl. rewrite H. now destruct (Text.rstrip t). Qed.

Lemma rstrip_others (a t : list N) :
  Forall (fun x => Text.isspace x = false) a ->
  Text.rstrip (a ++ t) = (a ++ Text.rstrip t)%list.
Proof.
  induction 1 as [| x a Hx _ IH]; [reflexivity |].
  rewrite <- !app_comm_cons. rewrite (rstrip_other _ _ Hx). now rewrite IH.
Qed.

Lemma upper_lstrip (t : list N) :
  Text.lstrip (Text.upper t) = Text.upper (Text.lstrip t).
Proof.
  induction t as [| c t IH]; [reflexivity |].
  cbn [Text.upper flat_map Text.lstrip]. fold (Text.upper t).
  destruct (Text.isspace c) eqn:E.
  - rewrite (upper_of_space c E). simpl. now rewrite E.
  - destruct (upper_of_other c E) as [N F].
    destruct (Text.upper_cp c) as [| x image] eqn:U; [contradiction |].
    inversion F as [| ? ? Hx _]; subst.
    cbn [Text.upper flat_map]. rewrite U.
    rewrite <- app_comm_cons. now apply lstrip_other.
Qed.

Lemma upper_rstrip (t : list N) :
  Text.rstrip (Text.upper t) = Text.upper (Text.rstrip t).
Proof.
  induction t as [| c t IH]; [reflexivity |].
  cbn [Text.upper flat_map]. fold (Text.upper t).
  destruct (Text.isspace c) eqn:E.
  - rewrite (upper_of_space c E). cbn [app Text.rstrip]. rewrite IH, E.
    destruct (Text.rstrip t) as [| y r] eqn:R; [reflexivity |].
    change (Text.upper (c :: y :: r))
      with (Text.upper_cp c ++ Text.upper (y :: r))%list.
    rewrite (upper_of_space c E).
    destruct (Text.upper (y :: r)) eqn:U; [| reflexivity].
    apply upper_nil in U. discriminate.
  - destruct (upper_of_other c E) as [_ F].
    rewrite (rstrip_others _ F), IH, (rstrip_other _ _ E). reflexivity.
Qed.

Lemma upper_strip (t : list N) :
  Text.strip (Text.upper t) = Text.upper (Text.strip t).
Proof. unfold Text.strip. now rewrite upper_lstrip, upper_rstrip. Qed.

Lemma lstrip_leading_space (ws t : list N) :
  all_space ws -> Text.lstrip (ws ++ t) = Text.lstrip t.
Proof.
  induction 1 as [| c ws Hc _ IH]; [reflexivity |].
  simpl. now rewrite Hc.
Qed.

Lemma rstrip_all_space (ws : list N) :
  all_space ws -> Text.rstrip ws = [].
Proof.
  induction 1 as [| c ws Hc _ IH]; [reflexivity |].
  simpl. now rewrite IH, Hc.
Qed.

Lemma rstrip_trailing_space (t ws : list N) :
  all_space ws -> Text.rstrip (t ++ ws) = Text.rstrip t.
Proof.
  intros H. induction t as [| c t IH]; simpl.
  - now apply rstrip_all_space.
  - now rewrite IH.
Qed.

Lemma strip_trailing_space (t ws : list N) :
  all_space ws -> Text.strip (t ++ ws) = Text.strip t.
Proof.
  intros H. unfold Text.strip. induction t as [| c t IH]; simpl.
  - pose proof (lstrip_leading_space [] H) as L. rewrite app_nil_r in L.
    rewrite L. reflexivity.
  - destruct (Text.isspace c); [exact IH |].
    change (c :: (t ++ ws)%list) with ((c :: t) ++ ws)%list.
    now apply rstrip_trailing_space.
Qed.
End UpperAndSpace.

(** X11: the routing test of [run_custom_query] does not depend on the case
    of the query nor on whitespace around it, in Python's sense of both:
    two queries with the same upper-case form are routed alike, and so are
    a query and the same query with whitespace characters before and after
    it. *)
Theorem routing_ignores_case_and_margin :
  forall (q q' : string) (ws ws' : list N),
    (Text.upper (Text.decode q) = Text.upper (Text.decode q') ->
     Neo4jService.is_write_query q = Neo4jService.is_write_query q')
    /\ (all_space ws -> all_space ws' ->
        Text.decode q' = (ws ++ Text.decode q ++ ws')%list ->
        Neo4jService.is_write_query q' = Neo4jService.is_write_query q).
Proof.
  intros q q' ws ws'. unfold Neo4jService.is_write_query. split.
  - intros H. now rewrite <- !upper_strip, H.
  - intros Hws Hws' ->. f_equal. f_equal.
    unfold Text.strip at 1. rewrite (lstrip_leading_space _ Hws).
    now apply strip_trailing_space.
Qed.

Lemma routing_ignores_case_and_margin_witness :
  Neo4jService.is_write_query "merge (a) RETURN a"
  = Neo4jService.is_write_query "MERGE (a) return a"
  /\ Neo4jService.is_write_query
       (Text.encode [160; 32]%N ++ "MERGE (a)" ++ Str.nl)
     = Neo4jService.is_write_query "MERGE (a)".
Proof.
  split.
  - apply (proj1 (routing_ignores_case_and_margin
                    "merge (a) RETURN a" "MERGE (a) return a" [] [])).
    vm_compute. reflexivity.
  - apply (proj2 (routing_ignores_case_and_margin "MERGE (a)"
                    (Text.encode [160; 32]%N ++ "MERGE (a)" ++ Str.nl)
                    [160; 32]%N [10]%N)).
    + repeat constructor.
    + repeat constructor.
    + vm_compute. reflexivity.
Defined.

(** ** The shape of the answers *)

Section Shapes.
Context {DB : Type} {drv : Driver DB}.

Lemma respond_json_success (v : pyval) (code : Z) (w w' : World DB) r :
  code = 200 \/ code = 201 ->
  App.respond_json v code w = (w', Ok r) -> is_success_response r.
Proof.
  intros C. unfold App.respond_json. unfold_effects.
  destruct (jsonify v) as [b |] eqn:J; [| discriminate].
  intros [= _ <-]. left. unfold jsonify in J.
  destruct (serialisable v); [| discriminate]. injection J as <-.
  exists v. simpl. auto.
Qed.

Lemma respond_json_error (m : string) (code : Z) (w w' : World DB) r :
  code = 400 \/ code = 404 \/ code = 500 ->
  App.respond_json (error_body m) code w = (w', Ok r) -> is_error_response r.
Proof.
  intros C. intros [= _ <-]. exists m. simpl. auto.
Qed.

Lemma try_shape (body : M DB Response) (w w' : World DB) r :
  (forall w1 r1, body w = (w1, Ok r1) ->
                 is_success_response r1 \/ is_error_response r1) ->
  try_except body App.on_exception w = (w', Ok r) ->
  is_success_response r \/ is_error_response r.
Proof.
  intros Hbody. unfold try_except.
  destruct (body w) as [w1 [r1 | e]].
  - intros [= <- <-]. now apply (Hbody w1).
  - rewrite on_exception_world. intros [= _ <-]. right.
    exists (exn_str e). simpl. auto.
Qed.

Lemma bind_shape {A} (m : M DB A) (k : A -> M DB Response) (w w1 : World DB) r1 :
  (forall a w0 w2 r2, k a w0 = (w2, Ok r2) ->
                      is_success_response r2 \/ is_error_response r2) ->
  (x <- m ;; k x) w = (w1, Ok r1) ->
  is_success_response r1 \/ is_error_response r1.
Proof.
  intros Hk. unfold bind. destruct (m w) as [w0 [a | e]]; [| discriminate].
  apply Hk.
Qed.

Lemma found_or_404_shape (result : pyval) (w0 w2 : World DB) r2 :
  (if truthy result then App.respond_json result 200
   else App.respond_json (error_body "Node not found") 404) w0 = (w2, Ok r2) ->
  is_success_response r2 \/ is_error_response r2.
Proof.
  destruct (truthy result); intros H.
  - left. eapply respond_json_success; [| exact H]. auto.
  - right. eapply respond_json_error; [| exact H]. auto.
Qed.
End Shapes.

Section ShapesOfHandlers.
Context {DB : Type} {drv : Driver DB}.

Ltac into_try H :=
  eapply try_shape; [| exact H]; intros ? ?.

Ltac through_bind :=
  let Hb := fresh "Hb" in
  intros Hb; eapply bind_shape; [| exact Hb]; clear Hb; intros ? ? ? ?.

Lemma created_shape (result : pyval) (w0 w2 : World DB) r2 :
  App.respond_json result 201 w0 = (w2, Ok r2) ->
  is_success_response r2 \/ is_error_response r2.
Proof. intros H. left. eapply respond_json_success; [| exact H]. auto. Qed.

Lemma rows_shape (result : pyval) (w0 w2 : World DB) r2 :
  App.respond_json result 200 w0 = (w2, Ok r2) ->
  is_success_response r2 \/ is_error_response r2.
Proof. intros H. left. eapply respond_json_success; [| exact H]. auto. Qed.

Lemma rejected_shape (m : string) (w0 w2 : World DB) r2 :
  App.respond_json (error_body m) 400 w0 = (w2, Ok r2) ->
  is_success_response r2 \/ is_error_response r2.
Proof. intros H. right. eapply respond_json_error; [| exact H]. auto. Qed.

Lemma create_node_shape label data (w w' : World DB) r :
  App.create_node label data w = (w', Ok r) ->
  is_success_response r \/ is_error_response r.
Proof.
  unfold App.create_node. destruct (truthy data); simpl.
  - intros H. into_try H. through_bind. apply created_shape.
  - apply rejected_shape.
Qed.

Lemma get_node_shape node_id (w w' : World DB) r :
  App.get_node node_id w = (w', Ok r) ->
  is_success_response r \/ is_error_response r.
Proof.
  unfold App.get_node. intros H. into_try H. through_bind.
  apply found_or_404_shape.
Qed.

Lemma update_node_shape node_id data (w w' : World DB) r :
  App.update_node node_id data w = (w', Ok r) ->
  is_success_response r \/ is_error_response r.
Proof.
  unfold App.update_node. destruct (truthy data); simpl.
  - intros H. into_try H. through_bind. apply found_or_404_shape.
  - apply rejected_shape.
Qed.

Lemma delete_node_shape node_id (w w' : World DB) r :
  App.delete_node node_id w = (w', Ok r) ->
  is_success_response r \/ is_error_response r.
Proof.
  unfold App.delete_node. intros H. into_try H. through_bind.
  destruct a.
  - intros [= _ <-]. left. right. split; reflexivity.
  - intros H0. right. eapply respond_json_error; [| exact H0]. auto.
Qed.

Lemma create_relationship_shape data (w w' : World DB) r :
  App.create_relationship data w = (w', Ok r) ->
  is_success_response r \/ is_error_response r.
Proof.
  unfold App.create_relationship. through_bind.
  destruct a.
  - apply rejected_shape.
  - intros H. into_try H. do 5 through_bind. apply created_shape.
Qed.

Lemma run_cypher_shape data (w w' : World DB) r :
  App.run_cypher data w = (w', Ok r) ->
  is_success_response r \/ is_error_response r.
Proof.
  unfold App.run_cypher. through_bind.
  destruct a.
  - apply rejected_shape.
  - intros H. into_try H. do 3 through_bind. apply rows_shape.
Qed.
End ShapesOfHandlers.

(** X12: whatever the request and whatever the database does, an answer of
    the six node, relationship and query handlers is either a JSON value
    with status 200 or 201, the empty text with status 204, or an error
    object [{"error": message}] with status 400, 404 or 500. *)
Theorem answers_have_shape :
  forall (DB : Type) (drv : Driver DB) (label : string) (node_id : Z)
         (data : pyval) (w w' : World DB) (r : Response),
    App.create_node label data w = (w', Ok r)
    \/ App.get_node node_id w = (w', Ok r)
    \/ App.update_node node_id data w = (w', Ok r)
    \/ App.delete_node node_id w = (w', Ok r)
    \/ App.create_relationship data w = (w', Ok r)
    \/ App.run_cypher data w = (w', Ok r) ->
    is_success_response r \/ is_error_response r.
Proof.
  intros DB drv label node_id data w w' r [H | [H | [H | [H | [H | H]]]]].
  - exact (create_node_shape _ _ _ H).
  - exact (get_node_shape _ _ H).
  - exact (update_node_shape _ _ _ H).
  - exact (delete_node_shape _ _ H).
  - exact (create_relationship_shape _ _ H).
  - exact (run_cypher_shape _ _ H).
Qed.

Lemma answers_have_shape_witness :
  is_success_response no_content_response
  \/ is_error_response no_content_response.
Proof.
  apply (answers_have_shape scripted "Person" 7 PNone
           (start [Ok [[("deleted", PInt 1)]]]) (w' := mkWorld []
             [WriteTransaction Neo4jService.delete_node_query (delete_params 7)])).
  right. right. right. left. reflexivity.
Defined.

(** ** Driver calls per request *)

Section CallCount.
Context {DB : Type} {drv : Driver DB}.

Lemma lift_leaves {A} (r : Res A) : leaves_world (DB := DB) (lift r).
Proof. intros w. reflexivity. Qed.

Lemma ret_leaves {A} (a : A) : leaves_world (DB := DB) (ret a).
Proof. intros w. reflexivity. Qed.

Lemma respond_json_leaves (v : pyval) (code : Z) :
  leaves_world (DB := DB) (App.respond_json v code).
Proof. intros w. apply respond_json_world. Qed.

Lemma bind_leaves {A B} (m : M DB A) (k : A -> M DB B) :
  leaves_world m -> (forall a, leaves_world (k a)) ->
  leaves_world (x <- m ;; k x).
Proof.
  intros Hm Hk w. unfold bind. specialize (Hm w).
  destruct (m w) as [w1 [a | e]]; simpl in *; subst; [apply Hk | reflexivity].
Qed.

Lemma leaves_at_most_once {A} (m : M DB A) :
  leaves_world m -> calls_at_most_once m.
Proof. intros H w. left. now rewrite H. Qed.

Lemma bind_leaves_then {A B} (m : M DB A) (k : A -> M DB B) :
  leaves_world m -> (forall a, calls_at_most_once (k a)) ->
  calls_at_most_once (x <- m ;; k x).
Proof.
  intros Hm Hk w. unfold bind. specialize (Hm w).
  destruct (m w) as [w1 [a | e]]; simpl in *; subst; [apply Hk | now left].
Qed.

Lemma bind_then_leaves {A B} (m : M DB A) (k : A -> M DB B) :
  calls_at_most_once m -> (forall a, leaves_world (k a)) ->
  calls_at_most_once (x <- m ;; k x).
Proof.
  intros Hm Hk w. unfold bind. specialize (Hm w).
  destruct (m w) as [w1 [a | e]]; simpl in *; [| exact Hm].
  now rewrite (Hk a w1).
Qed.

Lemma try_at_most_once (body : M DB Response) :
  calls_at_most_once body ->
  calls_at_most_once (try_except body App.on_exception).
Proof.
  intros Hb w. unfold try_except. specialize (Hb w).
  destruct (body w) as [w1 [r | e]]; simpl in *; exact Hb.
Qed.

Lemma after_call_once (w : World DB) (d : DB) (c : call) :
  at_most_one_call w (after_call w d c).
Proof. right. exists c. reflexivity. Qed.

Lemma adapter_calls_once (label : string) (node_id : Z)
      (data a b c properties query params : pyval) :
  calls_at_most_once (Neo4jService.verify_connectivity (DB := DB))
  /\ calls_at_most_once (Neo4jService.create_node label data)
  /\ calls_at_most_once (Neo4jService.get_node_by_id node_id)
  /\ calls_at_most_once (Neo4jService.update_node node_id data)
  /\ calls_at_most_once (Neo4jService.delete_node node_id)
  /\ calls_at_most_once (Neo4jService.create_relationship a b c properties)
  /\ calls_at_most_once (Neo4jService.run_custom_query query params).
Proof.
  repeat split; intros w.
  - rewrite verify_connectivity_world. apply after_call_once.
  - rewrite create_node_world. apply after_call_once.
  - rewrite get_node_by_id_world. apply after_call_once.
  - rewrite update_node_world. apply after_call_once.
  - rewrite delete_node_world. apply after_call_once.
  - rewrite create_relationship_world. apply after_call_once.
  - destruct query; try (left; reflexivity).
    rewrite run_custom_query_world.
    destruct (Neo4jService.is_write_query s); apply after_call_once.
Qed.
End CallCount.

(** X13: no request makes the service call the driver more than once: for
    every handler, every request and every behaviour of the database, the
    log of driver calls after the request is the log before it, or that log
    with one call added. *)
Theorem one_driver_call_per_request :
  forall (DB : Type) (drv : Driver DB) (label : string) (node_id : Z)
         (data : pyval) (w : World DB),
    at_most_one_call w (fst (App.health_check w))
    /\ at_most_one_call w (fst (App.create_node label data w))
    /\ at_most_one_call w (fst (App.get_node node_id w))
    /\ at_most_one_call w (fst (App.update_node node_id data w))
    /\ at_most_one_call w (fst (App.delete_node node_id w))
    /\ at_most_one_call w (fst (App.create_relationship data w))
    /\ at_most_one_call w (fst (App.run_cypher data w)).
Proof.
  intros DB drv label node_id data w.
  split; [| split; [| split; [| split; [| split; [| split]]]]].
  - rewrite health_check_world, verify_connectivity_world.
    apply after_call_once.
  - unfold App.create_node. destruct (truthy data); simpl.
    + apply try_at_most_once. apply bind_then_leaves.
      * apply (adapter_calls_once label node_id data data data data data data data).
      * intros a. apply respond_json_leaves.
    + left. reflexivity.
  - rewrite get_node_world, get_node_by_id_world. apply after_call_once.
  - unfold App.update_node. destruct (truthy data); simpl.
    + apply try_at_most_once. apply bind_then_leaves.
      * apply (adapter_calls_once label node_id data data data data data data data).
      * intros a w0. apply found_or_404_world.
    + left. reflexivity.
  - rewrite delete_handler_world, delete_node_world. apply after_call_once.
  - unfold App.create_relationship.
    apply bind_leaves_then.
    + destruct (truthy data); simpl; [| apply ret_leaves].
      apply bind_leaves; [apply lift_leaves | intros; apply ret_leaves].
    + intros [|]; [apply leaves_at_most_once, respond_json_leaves |].
      apply try_at_most_once.
      do 4 (apply bind_leaves_then; [apply lift_leaves | intros ?]).
      apply bind_then_leaves.
      * apply (adapter_calls_once label node_id data a a0 a1 a2 data data).
      * intros r. apply respond_json_leaves.
  - unfold App.run_cypher.
    apply bind_leaves_then.
    + destruct (truthy data); simpl; [| apply ret_leaves].
      apply bind_leaves; [apply lift_leaves | intros; apply ret_leaves].
    + intros [|]; [apply leaves_at_most_once, respond_json_leaves |].
      apply try_at_most_once.
      do 2 (apply bind_leaves_then; [apply lift_leaves | intros ?]).
      apply bind_then_leaves.
      * apply (adapter_calls_once label node_id data data data data data a a0).
      * intros r. apply respond_json_leaves.
Qed.

(** * Further properties of the client *)

Ltac unfold_requests :=
  unfold req_bind, req_ret, req_raise, req_lift, req_try,
    do_get, do_post, do_put, do_delete in *.

Section MakeRequest.
Context {Net : Type} {rq : Requests Net}.
Variable base_url : string.

(** [_make_request] in one equation: the request named by the method is
    performed and logged, and the reply is checked and decoded. *)
Lemma make_request_unfolded (method endpoint : string) (data : pyval)
      (expected_status : expected) (w : Wire Net) :
  Neo4jMCPClient._make_request base_url method endpoint data expected_status w
  = match call_of_method method
            (Neo4jMCPClient.request_url base_url endpoint) data with
    | None =>
        (w, Raise (ValueError ("Unsupported HTTP method: " ++ method)))
    | Some c =>
        (mkWire (fst (perform c (net w))) (sent w ++ [c]),
         match snd (perform c (net w)) with
         | Raise e => Raise e
         | Ok response =>
             if status_rejected expected_status (status_code response)
             then Raise (Exception ("Request failed with status "
                                    ++ Str.of_int (status_code response)))
             else if is_json_reply response then json response
             else if status_code response =? 204
             then Ok (PDict [("status", PStr "success");
                             ("status_code", PInt (status_code response))])
             else Ok (PDict [("status", PStr "success");
                             ("status_code", PInt (status_code response));
                             ("text", PStr (text response))])
         end)
    end.
Proof.
  unfold Neo4jMCPClient._make_request, call_of_method.
  set (url := Neo4jMCPClient.request_url base_url endpoint).
  unfold status_rejected, is_json_reply, perform. unfold_requests.
  destruct (method_is method "GET");
    [| destruct (method_is method "POST");
       [| destruct (method_is method "PUT");
          [| destruct (method_is method "DELETE")]]];
    try reflexivity.
  1: destruct (requests_get url (net w)) as [n [response | e]].
  3: destruct (requests_post url data (net w)) as [n [response | e]].
  5: destruct (requests_put url data (net w)) as [n [response | e]].
  7: destruct (requests_delete url (net w)) as [n [response | e]].
  all: cbn [fst snd]; try reflexivity.
  all: destruct (expected_given expected_status
                 && negb (existsb (Z.eqb (status_code response))
                            (expected_status_list expected_status)));
    try reflexivity;
    destruct (negb (String.eqb (text response) EmptyString)
              && match content_type response with
                 | Some t => String.eqb t "application/json"
                 | None => false
                 end);
    [destruct (json response); reflexivity |];
    cbn [existsb]; rewrite orb_false_r;
    destruct (status_code response =? 204); reflexivity.
Qed.
End MakeRequest.

Section MakeRequestProperties.
Context {Net : Type} {rq : Requests Net}.

Lemma text_eqb_eq (t u : list N) : Text.eqb t u = true <-> t = u.
Proof.
  revert u. induction t as [| a t IH]; intros [| b u]; simpl;
    try (split; [discriminate | discriminate]); [tauto |].
  rewrite andb_true_iff, N.eqb_eq, IH. split.
  - intros [-> ->]. reflexivity.
  - intros [= -> ->]. auto.
Qed.

Lemma method_is_iff (method name : string) :
  method_is method name = true
  <-> Text.upper (Text.decode method) = Text.decode name.
Proof. apply text_eqb_eq. Qed.

Lemma method_is_false (method name : string) :
  Text.upper (Text.decode method) <> Text.decode name ->
  method_is method name = false.
Proof.
  intros H. destruct (method_is method name) eqn:E; [| reflexivity].
  apply method_is_iff in E. contradiction.
Qed.

Lemma call_of_method_none (method url : string) (data : pyval) :
  ~ In (Text.upper (Text.decode method)) http_methods ->
  call_of_method method url data = None.
Proof.
  intros H. unfold call_of_method.
  rewrite !method_is_false; [reflexivity | | | |];
    intros E; apply H; rewrite E; unfold http_methods; simpl; tauto.
Qed.

Lemma call_of_method_some (method url : string) (data : pyval) :
  In (Text.upper (Text.decode method)) http_methods ->
  exists c, call_of_method method url data = Some c.
Proof.
  unfold call_of_method, method_is.
  intros [<- | [<- | [<- | [<- | []]]]]; vm_compute Text.eqb; eauto.
Qed.

Lemma call_of_method_case (method method' url : string) (data : pyval) :
  Text.upper (Text.decode method) = Text.upper (Text.decode method') ->
  call_of_method method url data = call_of_method method' url data.
Proof. intros H. unfold call_of_method, method_is. now rewrite H. Qed.

Lemma lstrip_char_slashes (endpoint : string) :
  exists k,
    endpoint = slashes k ++ lstrip_char "/" endpoint
    /\ Str.startswith (lstrip_char "/" endpoint) "/" = false.
Proof.
  induction endpoint as [| a e (k & IH & IHs)].
  - exists 0%nat. split; reflexivity.
  - cbn [lstrip_char]. destruct (Ascii.eqb a "/") eqn:E.
    + apply Ascii.eqb_eq in E. subst a.
      exists (S k). split; [| exact IHs].
      cbn [slashes]. change (String "/" (slashes k) ++ lstrip_char "/" e)
        with (String "/" (slashes k ++ lstrip_char "/" e)).
      now rewrite <- IH.
    + exists 0%nat. split; [reflexivity |].
      cbn [Str.startswith]. rewrite Ascii.eqb_sym, E. reflexivity.
Qed.

Lemma lstrip_char_leading (c : ascii) (s : string) :
  lstrip_char c (String c s) = lstrip_char c s.
Proof. simpl. now rewrite Ascii.eqb_refl. Qed.

Lemma status_rejected_single (code got : Z) :
  code <> 0 -> got <> code -> status_rejected (Status code) got = true.
Proof.
  intros Hc Hg. unfold status_rejected. simpl.
  apply Z.eqb_neq in Hc. rewrite Hc. simpl.
  apply Z.eqb_neq in Hg. now rewrite Hg.
Qed.

Lemma status_accepted_single (code : Z) :
  status_rejected (Status code) code = false.
Proof.
  unfold status_rejected. simpl. rewrite Z.eqb_refl. simpl.
  now rewrite andb_false_r.
Qed.
End MakeRequestProperties.

(** X14: [_make_request] with a method whose upper-case form, as Python
    computes it, is not GET, POST, PUT or DELETE raises [ValueError] naming
    the method, and nothing is sent. *)
Theorem unsupported_method_sends_nothing :
  forall (Net : Type) (rq : Requests Net) (base_url method endpoint : string)
         (data : pyval) (expected_status : expected) (w : Wire Net),
    ~ In (Text.upper (Text.decode method)) http_methods ->
    Neo4jMCPClient._make_request base_url method endpoint data
      expected_status w
    = (w, Raise (ValueError ("Unsupported HTTP method: " ++ method))).
Proof.
  intros Net rq base_url method endpoint data expected_status w H.
  rewrite make_request_unfolded. now rewrite (call_of_method_none _ _ _ H).
Qed.

Lemma unsupported_method_sends_nothing_witness :
  Neo4jMCPClient._make_request "http://localhost:5000" "patch" "/nodes/1"
    PNone (Status 200) (dial [json_reply 200 (PDict [])])
  = (dial [json_reply 200 (PDict [])],
     Raise (ValueError "Unsupported HTTP method: patch")).
Proof.
  apply (unsupported_method_sends_nothing replying).
  vm_compute. intros [H | [H | [H | [H | []]]]]; discriminate.
Defined.

(** The long s upper-cases to S: this method is POST, and is sent. *)
Example long_s_post :
  Neo4jMCPClient._make_request "http://localhost:5000"
    ("po" ++ Text.encode [383%N] ++ "t") "/cypher" (PDict []) NoExpectation
    (dial [json_reply 200 (PList [])])
  = (mkWire [] [HttpPost "http://localhost:5000/cypher" (PDict [])],
     Ok (PList [])).
Proof. vm_compute. reflexivity. Qed.

(** X15: with a supported method and a reply from the server,
    [_make_request] raises [Request failed with status <code>] after the
    request was sent exactly when the status is rejected, and returns the
    decoded reply otherwise.  A status is rejected when one non-zero code is
    expected and the status differs from it, or a non-empty list of codes is
    expected and the status is not in it; an expectation of [None], of 0 or
    of the empty list rejects no status. *)
Theorem unexpected_status_raises :
  forall (Net : Type) (rq : Requests Net) (base_url method endpoint : string)
         (data : pyval) (expected_status : expected) (w : Wire Net)
         (c : http_call) (n : Net) (response : HttpResponse),
    call_of_method method (Neo4jMCPClient.request_url base_url endpoint) data
    = Some c ->
    perform c (net w) = (n, Ok response) ->
    Neo4jMCPClient._make_request base_url method endpoint data
      expected_status w
    = (mkWire n (sent w ++ [c]),
       if status_rejected expected_status (status_code response)
       then Raise (Exception ("Request failed with status "
                              ++ Str.of_int (status_code response)))
       else decoded_reply response)
    /\ (status_rejected expected_status (status_code response) = true
        <-> match expected_status with
            | NoExpectation => False
            | Status code => code <> 0 /\ status_code response <> code
            | Statuses codes =>
                codes <> [] /\ ~ In (status_code response) codes
            end).
Proof.
  intros Net rq base_url method endpoint data expected_status w c n response
         Hc Hp.
  split.
  - rewrite make_request_unfolded, Hc, Hp. reflexivity.
  - unfold status_rejected. destruct expected_status as [| code | codes];
      cbn [expected_given expected_status_list existsb].
    + split; [discriminate | tauto].
    + rewrite andb_true_iff, !negb_true_iff, orb_false_r, !Z.eqb_neq.
      reflexivity.
    + rewrite andb_true_iff, negb_true_iff. split.
      * intros [G E]. split; [now destruct codes |].
        intros HIn. apply not_true_iff_false in E. apply E.
        apply existsb_exists. exists (status_code response).
        split; [exact HIn | apply Z.eqb_refl].
      * intros [G E]. split; [now destruct codes |].
        apply not_true_iff_false. intros X. apply E.
        apply existsb_exists in X. destruct X as (x & HIn & Hx).
        apply Z.eqb_eq in Hx. now subst.
Qed.

(** The server answers 404: a GET that expects 200 raises, a request that
    expects 0 returns what came. *)
Lemma unexpected_status_raises_witness :
  Neo4jMCPClient.get_node "http://localhost:5000" (PInt 7)
    (dial [json_reply 404 (error_body "Node not found")])
  = (mkWire [] [HttpGet "http://localhost:5000/nodes/7"],
     Raise (Exception "Request failed with status 404"))
  /\ Neo4jMCPClient._make_request "http://localhost:5000" "GET" "/nodes/7"
       PNone (Status 0)
       (dial [json_reply 404 (error_body "Node not found")])
     = (mkWire [] [HttpGet "http://localhost:5000/nodes/7"],
        Ok (error_body "Node not found")).
Proof.
  split.
  - exact (proj1 (unexpected_status_raises replying "http://localhost:5000"
                    "GET" "/nodes/7" PNone (Status 200)
                    (dial [json_reply 404 (error_body "Node not found")])
                    (c := HttpGet "http://localhost:5000/nodes/7")
                    eq_refl eq_refl)).
  - exact (proj1 (unexpected_status_raises replying "http://localhost:5000"
                    "GET" "/nodes/7" PNone (Status 0)
                    (dial [json_reply 404 (error_body "Node not found")])
                    (c := HttpGet "http://localhost:5000/nodes/7")
                    eq_refl eq_refl)).
Defined.

(** X16: where a request goes.  With a supported method the one request
    sent is the one the method name stands for, to [base_url + "/" + rest],
    where [rest] is the endpoint without its leading slashes; so slashes at
    the start of the endpoint do not matter, and neither does the case of
    the method name. *)
Theorem method_case_and_leading_slash :
  forall (Net : Type) (rq : Requests Net)
         (base_url method method' endpoint : string)
         (data : pyval) (expected_status : expected) (w : Wire Net),
    In (Text.upper (Text.decode method)) http_methods ->
    (exists c k rest,
        sent (fst (Neo4jMCPClient._make_request base_url method endpoint data
                     expected_status w))
        = (sent w ++ [c])%list
        /\ call_of_method method (base_url ++ "/" ++ rest) data = Some c
        /\ url_of c = base_url ++ "/" ++ rest
        /\ endpoint = slashes k ++ rest
        /\ Str.startswith rest "/" = false)
    /\ (Text.upper (Text.decode method') = Text.upper (Text.decode method) ->
        Neo4jMCPClient._make_request base_url method' endpoint data
          expected_status w
        = Neo4jMCPClient._make_request base_url method endpoint data
            expected_status w)
    /\ Neo4jMCPClient._make_request base_url method ("/" ++ endpoint) data
         expected_status w
       = Neo4jMCPClient._make_request base_url method endpoint data
           expected_status w.
Proof.
  intros Net rq base_url method method' endpoint data expected_status w H.
  destruct (call_of_method_some method
              (Neo4jMCPClient.request_url base_url endpoint) data H)
    as [c Hc].
  split; [| split].
  - destruct (lstrip_char_slashes endpoint) as (k & Hk & Hs).
    exists c, k, (lstrip_char "/" endpoint).
    rewrite make_request_unfolded, Hc. cbn [fst sent].
    split; [reflexivity | split; [exact Hc | split; [| split; assumption]]].
    unfold call_of_method in Hc.
    destruct (method_is method "GET"); [now injection Hc as <- |].
    destruct (method_is method "POST"); [now injection Hc as <- |].
    destruct (method_is method "PUT"); [now injection Hc as <- |].
    destruct (method_is method "DELETE"); [now injection Hc as <- |].
    discriminate.
  - intros E. rewrite !make_request_unfolded.
    rewrite (call_of_method_case method' method _ data E), Hc.
    reflexivity.
  - rewrite !make_request_unfolded. unfold Neo4jMCPClient.request_url.
    change ("/" ++ endpoint) with (String "/" endpoint).
    now rewrite lstrip_char_leading.
Qed.

Lemma method_case_and_leading_slash_witness :
  Neo4jMCPClient._make_request "http://localhost:5000" "delete" "//nodes/7"
    PNone (Status 204) (dial [text_reply 204 EmptyString])
  = (mkWire [] [HttpDelete "http://localhost:5000/nodes/7"],
     Ok (PDict [("status", PStr "success"); ("status_code", PInt 204)])).
Proof.
  destruct (method_case_and_leading_slash replying "http://localhost:5000"
              "DELETE" "delete" "//nodes/7" PNone (Status 204)
              (dial [text_reply 204 EmptyString])) as (_ & C & _).
  - vm_compute. tauto.
  - rewrite C; [| vm_compute; reflexivity].
    vm_compute. reflexivity.
Defined.

(** X17: how the service's answers surface in the client.  For a request
    sent with one of the methods' expectations (200, 201 or 204): an error
    answer of a handler (400, 404, 500) makes [_make_request] raise
    [Request failed with status <code>], the error message is not returned;
    a JSON answer with the expected status is returned as the parsed value;
    the empty 204 answer is returned as
    [{"status": "success", "status_code": 204}]. *)
Theorem client_sees_handler_answer :
  forall (Net : Type) (rq : Requests Net) (base_url method endpoint : string)
         (data : pyval) (code : Z) (w : Wire Net) (c : http_call) (n : Net)
         (response : HttpResponse) (r : Response),
    call_of_method method (Neo4jMCPClient.request_url base_url endpoint) data
    = Some c ->
    perform c (net w) = (n, Ok response) ->
    carried_by r response ->
    code = 200 \/ code = 201 \/ code = 204 ->
    (is_error_response r ->
     Neo4jMCPClient._make_request base_url method endpoint data (Status code) w
     = (mkWire n (sent w ++ [c]),
        Raise (Exception ("Request failed with status "
                          ++ Str.of_int (status r)))))
    /\ (forall v, body r = Json v -> status r = code ->
        Neo4jMCPClient._make_request base_url method endpoint data
          (Status code) w
        = (mkWire n (sent w ++ [c]), Ok v))
    /\ (body r = Text EmptyString -> status r = 204 -> code = 204 ->
        Neo4jMCPClient._make_request base_url method endpoint data
          (Status code) w
        = (mkWire n (sent w ++ [c]),
           Ok (PDict [("status", PStr "success"); ("status_code", PInt 204)]))).
Proof.
  intros Net rq base_url method endpoint data code w c n response r
         Hc Hp [Hs Hb] Hcode.
  rewrite make_request_unfolded, Hc, Hp. cbn [fst snd]. rewrite Hs.
  split; [| split].
  - intros (m & _ & Herr). f_equal.
    rewrite status_rejected_single; [reflexivity | lia | lia].
  - intros v Hv <-. rewrite Hv in Hb. destruct Hb as (Ht & Hct & Hj).
    rewrite status_accepted_single. unfold is_json_reply. rewrite Hct.
    apply String.eqb_neq in Ht. rewrite Ht. simpl. now rewrite Hj.
  - intros Hv H204 ->. rewrite Hv in Hb. destruct Hb as (Ht & Hct).
    rewrite H204. rewrite status_accepted_single.
    unfold is_json_reply. now rewrite Ht.
Qed.

(** The handler's 404 for a missing node, and its 204 for a deleted one. *)
Lemma client_sees_handler_answer_witness :
  Neo4jMCPClient.delete_node "http://localhost:5000" (PInt 7)
    (dial [json_reply 404 (error_body "Node not found")])
  = (mkWire [] [HttpDelete "http://localhost:5000/nodes/7"],
     Raise (Exception "Request failed with status 404"))
  /\ Neo4jMCPClient.delete_node "http://localhost:5000" (PInt 7)
       (dial [text_reply 204 EmptyString])
     = (mkWire [] [HttpDelete "http://localhost:5000/nodes/7"],
        Ok (PDict [("status", PStr "success"); ("status_code", PInt 204)])).
Proof.
  split.
  - refine (proj1 (client_sees_handler_answer replying "http://localhost:5000"
                     "DELETE" "/nodes/7" PNone
                     (dial [json_reply 404 (error_body "Node not found")])
                     (c := HttpDelete "http://localhost:5000/nodes/7")
                     (r := not_found_response)
                     eq_refl eq_refl _ (or_intror (or_intror eq_refl))) _).
    + split; [reflexivity |]. simpl. repeat split. discriminate.
    + exists "Node not found"%string. simpl. auto.
  - refine (proj2 (proj2 (client_sees_handler_answer replying
                     "http://localhost:5000" "DELETE" "/nodes/7" PNone
                     (dial [text_reply 204 EmptyString])
                     (c := HttpDelete "http://localhost:5000/nodes/7")
                     (r := no_content_response)
                     eq_refl eq_refl _ (or_intror (or_intror eq_refl))))
              eq_refl eq_refl eq_refl).
    split; [reflexivity |]. simpl. split; [reflexivity | discriminate].
Defined.

(** ** The scenario *)

Section ScenarioSteps.
Context {Net : Type} {rq : Requests Net}.
Variable base_url : string.

Lemma make_request_sent (method endpoint : string) (data : pyval)
      (expected_status : expected) (c : http_call) (w w1 : Wire Net) r :
  call_of_method method (Neo4jMCPClient.request_url base_url endpoint) data
  = Some c ->
  Neo4jMCPClient._make_request base_url method endpoint data expected_status w
  = (w1, r) ->
  sent w1 = (sent w ++ [c])%list.
Proof.
  intros Hc H. rewrite make_request_unfolded, Hc in H.
  injection H as <- _. reflexivity.
Qed.

Lemma health_check_sent (w w1 : Wire Net) r :
  Neo4jMCPClient.health_check base_url w = (w1, r) ->
  sent w1 = (sent w ++ [HttpGet (base_url ++ "/health")])%list.
Proof. apply make_request_sent. reflexivity. Qed.

Lemma create_node_sent (label : string) (properties : pyval)
      (w w1 : Wire Net) r :
  Neo4jMCPClient.create_node base_url label properties w = (w1, r) ->
  sent w1 = (sent w ++ [HttpPost (base_url ++ "/nodes/" ++ label) properties])%list.
Proof. apply make_request_sent. reflexivity. Qed.

Lemma get_node_sent (node_id : pyval) (w w1 : Wire Net) r :
  Neo4jMCPClient.get_node base_url node_id w = (w1, r) ->
  sent w1 = (sent w ++ [HttpGet (base_url ++ "/nodes/" ++ Repr.str node_id)])%list.
Proof. apply make_request_sent. reflexivity. Qed.

Lemma update_node_sent (node_id properties : pyval) (w w1 : Wire Net) r :
  Neo4jMCPClient.update_node base_url node_id properties w = (w1, r) ->
  sent w1
  = (sent w ++ [HttpPut (base_url ++ "/nodes/" ++ Repr.str node_id)
                  properties])%list.
Proof. apply make_request_sent. reflexivity. Qed.

Lemma delete_node_sent (node_id : pyval) (w w1 : Wire Net) r :
  Neo4jMCPClient.delete_node base_url node_id w = (w1, r) ->
  sent w1
  = (sent w ++ [HttpDelete (base_url ++ "/nodes/" ++ Repr.str node_id)])%list.
Proof. apply make_request_sent. reflexivity. Qed.

Lemma create_relationship_sent (a b c p : pyval) (w w1 : Wire Net) r :
  Neo4jMCPClient.create_relationship base_url a b c p w = (w1, r) ->
  sent w1
  = (sent w ++ [HttpPost (base_url ++ "/relationships")
                  (Neo4jMCPClient.relationship_body a b c p)])%list.
Proof. apply make_request_sent. reflexivity. Qed.

Lemma run_cypher_sent (q p : pyval) (w w1 : Wire Net) r :
  Neo4jMCPClient.run_cypher base_url q p w = (w1, r) ->
  sent w1
  = (sent w ++ [HttpPost (base_url ++ "/cypher")
                  (Neo4jMCPClient.cypher_body q p)])%list.
Proof. apply make_request_sent. reflexivity. Qed.

Lemma req_bind_ok {A B} (m : Req Net A) (k : A -> Req Net B)
      (w w' : Wire Net) (b : B) :
  (x <~ m ;; k x) w = (w', Ok b) ->
  exists a w1, m w = (w1, Ok a) /\ k a w1 = (w', Ok b).
Proof.
  unfold req_bind. destruct (m w) as [w1 [a | e]]; [eauto | discriminate].
Qed.

Lemma req_lift_ok {A} (r : Res A) (w w1 : Wire Net) (a : A) :
  req_lift r w = (w1, Ok a) -> r = Ok a /\ w1 = w.
Proof. unfold req_lift. intros [= <- ->]. auto. Qed.

Lemma scenario_returns (w : Wire Net) :
  exists w' b, Scenario.run_comprehensive_test base_url w = (w', Ok b).
Proof.
  unfold Scenario.run_comprehensive_test, req_try.
  match goal with
  | |- context [match ?body w with _ => _ end] =>
      destruct (body w) as [w' [b | e]]
  end; do 2 eexists; reflexivity.
Qed.
End ScenarioSteps.

(** X18: [run_comprehensive_test] never raises: whatever the server does --
    refuses the connection, answers with another status, sends a body of
    another shape -- it returns a boolean.  The script prints a line before
    the scenario and one after it, and a [print] that fails ends it with an
    exception: the scenario runs only after the first line was printed, and
    the exit status is 0 exactly when both lines were printed and the
    scenario returned [True], and 1 otherwise. *)
Theorem scenario_never_raises :
  forall (Net : Type) (rq : Requests Net) (base_url : string)
         (print : string -> Res unit) (argv : list string) (w : Wire Net),
    (exists w' b, Scenario.run_comprehensive_test base_url w = (w', Ok b))
    /\ (exists w' success url,
           Scenario.run_comprehensive_test url w = (w', Ok success)
           /\ (length argv <= 1 -> url = "http://localhost:5000")%nat
           /\ (forall prog arg rest, argv = prog :: arg :: rest -> url = arg)
           /\ Scenario.main print argv w
              = match print ("Running comprehensive test against Neo4j "
                             ++ "MCP server at " ++ url) with
                | Raise e => (w, Raise e)
                | Ok _ =>
                    (w',
                     match print (if success
                                  then Text.encode_cp 9989
                                       ++ " All tests passed!"
                                  else Text.encode_cp 10060
                                       ++ " Test failed!") with
                     | Raise e => Raise e
                     | Ok _ => Ok (if success then 0 else 1)
                     end)
                end
           /\ (Scenario.exit_status (snd (Scenario.main print argv w)) = 0
               \/ Scenario.exit_status (snd (Scenario.main print argv w)) = 1)
           /\ (Scenario.exit_status (snd (Scenario.main print argv w)) = 0
               <-> print ("Running comprehensive test against Neo4j "
                          ++ "MCP server at " ++ url) = Ok tt
                   /\ success = true
                   /\ print (Text.encode_cp 9989 ++ " All tests passed!")
                      = Ok tt)).
Proof.
  intros Net rq base_url print argv w. split; [apply scenario_returns |].
  unfold Scenario.main.
  set (url := match argv with
              | _ :: url :: _ => url
              | _ => "http://localhost:5000"
              end).
  destruct (scenario_returns url w) as (w' & b & E).
  exists w', b, url.
  split; [exact E | split; [| split]].
  - intros L. unfold url. destruct argv as [| p [| a rest]]; try reflexivity.
    simpl in L. lia.
  - intros prog arg rest ->. reflexivity.
  - change ("Running comprehensive test against Neo4j "
            ++ "MCP server at " ++ url)
      with ("Running comprehensive test against Neo4j MCP server at "
            ++ url).
    unfold req_bind, req_lift, req_ret.
    destruct (print ("Running comprehensive test against Neo4j MCP server at "
                     ++ url)) as [[] | e].
    + rewrite E. destruct b.
      * destruct (print (Text.encode_cp 9989 ++ " All tests passed!"))
          as [[] | e]; cbn [snd Scenario.exit_status].
        -- repeat split; auto.
        -- split; [reflexivity | split; [auto |]].
           split; [discriminate | intros (_ & _ & [=])].
      * destruct (print (Text.encode_cp 10060 ++ " Test failed!"))
          as [[] | e]; cbn [snd Scenario.exit_status].
        -- split; [reflexivity | split; [auto |]].
           split; [discriminate | intros (_ & [=] & _)].
        -- split; [reflexivity | split; [auto |]].
           split; [discriminate | intros (_ & [=] & _)].
    + cbn [snd Scenario.exit_status].
      split; [reflexivity | split; [auto |]].
      split; [discriminate | intros ([=] & _)].
Qed.

Lemma scenario_never_raises_witness :
  exists w' b,
    Scenario.run_comprehensive_test "http://localhost:5000" (dial [])
    = (w', Ok b).
Proof.
  exact (proj1 (scenario_never_raises replying "http://localhost:5000"
                  Scenario.print_any ["client.py"] (dial []))).
Defined.

(** X19: when the health check does not come back with status [healthy] --
    the request fails, the server answers 503 or any status but 200, or the
    body says something else -- the scenario returns [False] and has sent
    the one health request and nothing more. *)
Theorem unhealthy_stops_scenario :
  forall (Net : Type) (rq : Requests Net) (base_url : string)
         (w w1 : Wire Net) (health_result : Res pyval),
    Neo4jMCPClient.health_check base_url w = (w1, health_result) ->
    says_healthy health_result = false ->
    Scenario.run_comprehensive_test base_url w = (w1, Ok false)
    /\ sent w1 = (sent w ++ [HttpGet (base_url ++ "/health")])%list.
Proof.
  intros Net rq base_url w w1 health_result H S.
  split; [| exact (health_check_sent _ _ H)].
  unfold Scenario.run_comprehensive_test, req_try, req_bind at 1.
  rewrite H. destruct health_result as [v | e]; [| reflexivity].
  unfold req_bind at 1, req_lift. simpl in S.
  destruct (py_get v "status" PNone) as [s | e]; [| reflexivity].
  now rewrite S.
Qed.

(** The server answers 503 to the health check. *)
Lemma unhealthy_stops_scenario_witness :
  Scenario.run_comprehensive_test "http://localhost:5000"
    (dial [json_reply 503 (PDict [("status", PStr "unhealthy");
                                  ("database_connection", PBool false)]);
           json_reply 201 (PDict [])])
  = (mkWire [json_reply 201 (PDict [])]
       [HttpGet "http://localhost:5000/health"],
     Ok false).
Proof.
  exact (proj1 (unhealthy_stops_scenario replying "http://localhost:5000"
                  (dial [json_reply 503
                           (PDict [("status", PStr "unhealthy");
                                   ("database_connection", PBool false)]);
                         json_reply 201 (PDict [])])
                  eq_refl eq_refl)).
Defined.

(** X20: the scenario tests the extracted identifier for truth.  When the
    person node was created and its identifier is read as [None], as 0 or as
    any other falsy value, the scenario returns [False] after its second
    request; no company is created and nothing is deleted. *)
Theorem falsy_identifier_stops_scenario :
  forall (Net : Type) (rq : Requests Net) (base_url : string)
         (w w1 w2 : Wire Net) (health_result person_result person_id : pyval),
    Neo4jMCPClient.health_check base_url w = (w1, Ok health_result) ->
    says_healthy (Ok health_result) = true ->
    Neo4jMCPClient.create_node base_url "Person" Scenario.person_data w1
    = (w2, Ok person_result) ->
    extract_node_id_of person_result = Ok person_id ->
    truthy person_id = false ->
    Scenario.run_comprehensive_test base_url w = (w2, Ok false)
    /\ sent w2
       = (sent w ++ [HttpGet (base_url ++ "/health");
                     HttpPost (base_url ++ "/nodes/Person")
                       Scenario.person_data])%list.
Proof.
  intros Net rq base_url w w1 w2 h pr pid Hh Sh Hc He Hfalsy.
  split.
  - unfold Scenario.run_comprehensive_test, req_try, req_bind at 1.
    rewrite Hh. unfold req_bind at 1, req_lift. simpl in Sh.
    destruct (py_get h "status" PNone) as [s | e]; [| discriminate].
    rewrite Sh. cbn [negb]. unfold req_bind at 1. rewrite Hc.
    unfold req_bind at 1. rewrite He. unfold req_lift.
    now rewrite Hfalsy.
  - rewrite (create_node_sent _ _ _ _ Hc), (health_check_sent _ _ Hh).
    now rewrite <- app_assoc.
Qed.

(** The first node of a fresh database has identity 0. *)
Lemma falsy_identifier_stops_scenario_witness :
  Scenario.run_comprehensive_test "http://localhost:5000"
    (dial [json_reply 200 (PDict [("status", PStr "healthy");
                                  ("database_connection", PBool true)]);
           json_reply 201 (PDict [("n", PDict [("identity", PInt 0)])])])
  = (mkWire []
       [HttpGet "http://localhost:5000/health";
        HttpPost "http://localhost:5000/nodes/Person" Scenario.person_data],
     Ok false).
Proof.
  exact (proj1 (falsy_identifier_stops_scenario replying
                  "http://localhost:5000"
                  (dial [json_reply 200
                           (PDict [("status", PStr "healthy");
                                   ("database_connection", PBool true)]);
                         json_reply 201
                           (PDict [("n", PDict [("identity", PInt 0)])])])
                  (person_id := PInt 0)
                  eq_refl eq_refl eq_refl eq_refl eq_refl)).
Defined.

(** X21: a run of the scenario that returns [True] has sent exactly nine
    requests, in this order: the health check, the two node creations, the
    relationship between the two extracted identifiers, the read and the
    update of the person, the query bound to the person's identifier, and
    the deletion of the person and of the company.  The health check said
    [healthy]; the person's identifier is what [extract_node_id] found in
    the reply to the first creation, the company's what it found in the
    reply to the second, and both are truthy. *)
Theorem successful_scenario_requests :
  forall (Net : Type) (rq : Requests Net) (base_url : string)
         (w w' : Wire Net),
    Scenario.run_comprehensive_test base_url w = (w', Ok true) ->
    exists health_result person_result company_result person_id company_id
           w1 w2 w3,
      Neo4jMCPClient.health_check base_url w = (w1, Ok health_result)
      /\ says_healthy (Ok health_result) = true
      /\ Neo4jMCPClient.create_node base_url "Person" Scenario.person_data w1
         = (w2, Ok person_result)
      /\ extract_node_id_of person_result = Ok person_id
      /\ truthy person_id = true
      /\ Neo4jMCPClient.create_node base_url "Company" Scenario.company_data
           w2
         = (w3, Ok company_result)
      /\ extract_node_id_of company_result = Ok company_id
      /\ truthy company_id = true
      /\ sent w'
         = (sent w ++ scenario_requests base_url person_id company_id)%list.
Proof.
  intros Net rq base_url w w' H.
  unfold Scenario.run_comprehensive_test, req_try in H.
  match type of H with
  | match ?body w with _ => _ end = _ =>
      destruct (body w) as [w0 [b | e]] eqn:B; [| discriminate]
  end.
  injection H as -> ->.
  apply req_bind_ok in B. destruct B as (h & w1 & E1 & B).
  apply req_bind_ok in B. destruct B as (s & w1' & L & B).
  apply req_lift_ok in L. destruct L as [Hs ->].
  destruct (eq_str s "healthy") eqn:Hh; [| discriminate]. cbn [negb] in B.
  apply req_bind_ok in B. destruct B as (pr & w2 & E2 & B).
  apply req_bind_ok in B. destruct B as (pid & w2' & L & B).
  apply req_lift_ok in L. destruct L as [Hp ->].
  destruct (truthy pid) eqn:Tp; [| discriminate]. cbn [negb] in B.
  apply req_bind_ok in B. destruct B as (cr & w3 & E3 & B).
  apply req_bind_ok in B. destruct B as (cid & w3' & L & B).
  apply req_lift_ok in L. destruct L as [Hc ->].
  destruct (truthy cid) eqn:Tc; [| discriminate]. cbn [negb] in B.
  apply req_bind_ok in B. destruct B as (rr & w4 & E4 & B).
  apply req_bind_ok in B. destruct B as (gp & w5 & E5 & B).
  apply req_bind_ok in B. destruct B as (ur & w6 & E6 & B).
  apply req_bind_ok in B. destruct B as (qr & w7 & E7 & B).
  apply req_bind_ok in B. destruct B as (dp & w8 & E8 & B).
  apply req_bind_ok in B. destruct B as (dc & w9 & E9 & B).
  injection B as <-.
  exists h, pr, cr, pid, cid, w1, w2, w3.
  split; [exact E1 |].
  split; [unfold says_healthy; rewrite Hs; exact Hh |].
  do 6 (split; [assumption |]).
  rewrite (delete_node_sent _ _ _ E9), (delete_node_sent _ _ _ E8),
    (run_cypher_sent _ _ _ _ E7), (update_node_sent _ _ _ _ E6),
    (get_node_sent _ _ _ E5), (create_relationship_sent _ _ _ _ _ _ E4),
    (create_node_sent _ _ _ _ E3), (create_node_sent _ _ _ _ E2),
    (health_check_sent _ _ E1).
  unfold scenario_requests. rewrite <- !app_assoc. reflexivity.
Qed.

(** A server that answers every step as expected, with identities 1 and 2. *)
Lemma successful_scenario_requests_witness :
  exists health_result person_result company_result person_id company_id
         w1 w2 w3,
    Neo4jMCPClient.health_check "http://localhost:5000"
      (dial [json_reply 200 (PDict [("status", PStr "healthy")]);
                  json_reply 201 (PDict [("n", PDict [("identity", PInt 1)])]);
                  json_reply 201 (PDict [("n", PDict [("identity", PInt 2)])]);
                  json_reply 201 (PDict [("r", PDict [])]);
                  json_reply 200 (PDict [("n", PDict [])]);
                  json_reply 200 (PDict [("n", PDict [])]);
                  json_reply 200 (PList []);
                  text_reply 204 EmptyString;
                  text_reply 204 EmptyString])
    = (w1, Ok health_result)
    /\ says_healthy (Ok health_result) = true
    /\ Neo4jMCPClient.create_node "http://localhost:5000" "Person"
         Scenario.person_data w1
       = (w2, Ok person_result)
    /\ extract_node_id_of person_result = Ok person_id
    /\ truthy person_id = true
    /\ Neo4jMCPClient.create_node "http://localhost:5000" "Company"
         Scenario.company_data w2
       = (w3, Ok company_result)
    /\ extract_node_id_of company_result = Ok company_id
    /\ truthy company_id = true
    /\ sent (mkWire (@nil (Res HttpResponse))
               (scenario_requests "http://localhost:5000" (PInt 1) (PInt 2)))
       = (sent (dial [json_reply 200 (PDict [("status", PStr "healthy")]);
                  json_reply 201 (PDict [("n", PDict [("identity", PInt 1)])]);
                  json_reply 201 (PDict [("n", PDict [("identity", PInt 2)])]);
                  json_reply 201 (PDict [("r", PDict [])]);
                  json_reply 200 (PDict [("n", PDict [])]);
                  json_reply 200 (PDict [("n", PDict [])]);
                  json_reply 200 (PList []);
                  text_reply 204 EmptyString;
                  text_reply 204 EmptyString])
          ++ scenario_requests "http://localhost:5000" person_id company_id)%list.
Proof.
  apply (successful_scenario_requests replying "http://localhost:5000"
           (dial [json_reply 200 (PDict [("status", PStr "healthy")]);
                  json_reply 201 (PDict [("n", PDict [("identity", PInt 1)])]);
                  json_reply 201 (PDict [("n", PDict [("identity", PInt 2)])]);
                  json_reply 201 (PDict [("r", PDict [])]);
                  json_reply 200 (PDict [("n", PDict [])]);
                  json_reply 200 (PDict [("n", PDict [])]);
                  json_reply 200 (PList []);
                  text_reply 204 EmptyString;
                  text_reply 204 EmptyString])
           (w' := mkWire [] (scenario_requests "http://localhost:5000"
                               (PInt 1) (PInt 2)))).
  vm_compute. reflexivity.
Defined.

(** The same server and a standard output that takes ASCII only: every
    request was answered as expected, the check mark cannot be printed, and
    the script ends with exit status 1.  With an output that takes every
    text it ends with 0. *)
Example exit_status_needs_check_mark :
  Scenario.exit_status
    (snd (Scenario.main Scenario.print_ascii ["client.py"]
            (dial [json_reply 200 (PDict [("status", PStr "healthy")]);
                  json_reply 201 (PDict [("n", PDict [("identity", PInt 1)])]);
                  json_reply 201 (PDict [("n", PDict [("identity", PInt 2)])]);
                  json_reply 201 (PDict [("r", PDict [])]);
                  json_reply 200 (PDict [("n", PDict [])]);
                  json_reply 200 (PDict [("n", PDict [])]);
                  json_reply 200 (PList []);
                  text_reply 204 EmptyString;
                  text_reply 204 EmptyString]))) = 1
  /\ Scenario.exit_status
       (snd (Scenario.main Scenario.print_any ["client.py"]
               (dial [json_reply 200 (PDict [("status", PStr "healthy")]);
                  json_reply 201 (PDict [("n", PDict [("identity", PInt 1)])]);
                  json_reply 201 (PDict [("n", PDict [("identity", PInt 2)])]);
                  json_reply 201 (PDict [("r", PDict [])]);
                  json_reply 200 (PDict [("n", PDict [])]);
                  json_reply 200 (PDict [("n", PDict [])]);
                  json_reply 200 (PList []);
                  text_reply 204 EmptyString;
                  text_reply 204 EmptyString]))) = 0.
Proof. split; vm_compute; reflexivity. Qed.

(** ** Client and service together *)

Section ClientMeetsService.
Context {DB : Type} {drv : Driver DB}.

Lemma py_or_default_idempotent (x : pyval) :
  py_or (py_or x (PDict [])) (PDict []) = py_or x (PDict []).
Proof. unfold py_or. destruct (truthy x) eqn:T; [now rewrite T | reflexivity]. Qed.

Lemma try_reply_status {A} (adapter : M DB A) (v : A -> pyval) (code : Z)
      (w : World DB) :
  exists w' r,
    try_except (x <- adapter ;; App.respond_json (v x) code) App.on_exception w
    = (w', Ok r)
    /\ (status r = code \/ status r = 500).
Proof.
  unfold try_except, bind, App.respond_json.
  destruct (adapter w) as [w1 [a | e]].
  - unfold lift, ret. destruct (jsonify (v a)) as [b | e].
    + do 2 eexists. split; [reflexivity | left; reflexivity].
    + do 2 eexists. split; [reflexivity | right; reflexivity].
  - do 2 eexists. split; [reflexivity | right; reflexivity].
Qed.
End ClientMeetsService.

(** X22: a request body built by the client's [create_relationship] or
    [run_cypher], handed to the matching handler as it is, always passes
    validation: the answer is never 400, and the driver is called exactly
    once, with the client's [from_id], [to_id] and [type] (or query text)
    and with the client's properties (or parameters), [None] having become
    the empty mapping. *)
Theorem client_bodies_pass_validation :
  forall (DB : Type) (drv : Driver DB)
         (from_id to_id rel_type properties params : pyval) (q : string)
         (w : World DB),
    (calls (fst (App.create_relationship
                   (Neo4jMCPClient.relationship_body from_id to_id rel_type
                      properties) w))
     = (calls w
          ++ [WriteTransaction
                (Neo4jService.create_relationship_query rel_type)
                (PDict [("from_id", from_id); ("to_id", to_id);
                        ("props", py_or properties (PDict []))])])%list
     /\ exists w' r,
          App.create_relationship
            (Neo4jMCPClient.relationship_body from_id to_id rel_type
               properties) w = (w', Ok r)
          /\ (status r = 201 \/ status r = 500))
    /\ (calls (fst (App.run_cypher
                      (Neo4jMCPClient.cypher_body (PStr q) params) w))
        = (calls w
             ++ [if Neo4jService.is_write_query q
                 then WriteTransaction q (py_or params (PDict []))
                 else SessionRun q (py_or params (PDict []))])%list
        /\ exists w' r,
             App.run_cypher (Neo4jMCPClient.cypher_body (PStr q) params) w
             = (w', Ok r)
             /\ (status r = 200 \/ status r = 500)).
Proof.
  intros DB drv a b c properties params q w.
  unfold Neo4jMCPClient.relationship_body, Neo4jMCPClient.cypher_body.
  set (rel := [("from_id", a); ("to_id", b); ("type", c);
               ("properties", py_or properties (PDict []))]).
  set (cyp := [("query", PStr q); ("params", py_or params (PDict []))]).
  split; split.
  - rewrite (create_relationship_endpoint_calls rel w
               (a := a) (b := b) (c := c) eq_refl eq_refl eq_refl).
    rewrite try_adapter_world by (intros; apply respond_json_world).
    rewrite create_relationship_world. unfold relationship_params, dict_get.
    simpl lookup. cbv iota beta. now rewrite py_or_default_idempotent.
  - rewrite (create_relationship_endpoint_calls rel w
               (a := a) (b := b) (c := c) eq_refl eq_refl eq_refl).
    apply (try_reply_status _ (fun x => x)).
  - rewrite (run_cypher_endpoint_calls cyp w (q := PStr q) eq_refl).
    rewrite try_adapter_world by (intros; apply respond_json_world).
    rewrite run_custom_query_world. unfold dict_get. simpl lookup.
    cbv iota beta. rewrite py_or_default_idempotent.
    now destruct (Neo4jService.is_write_query q).
  - rewrite (run_cypher_endpoint_calls cyp w (q := PStr q) eq_refl).
    apply (try_reply_status _ (fun rows => PList (List.map PDict rows))).
Qed.

(** ** More on the identifier search *)

(** X23: the recursive search of [extract_node_id] returns [None] exactly
    when no key [id] or [identity] anywhere in the structure holds an [int];
    otherwise it returns such a value, so an identifier stored as text is
    never returned by the search. *)
Theorem find_id_result :
  forall (obj : pyval),
    (Client.find_id obj = PNone <-> ClientSpec.id_candidates obj = [])
    /\ (Client.find_id obj <> PNone ->
        isinstance_int (Client.find_id obj) = true
        /\ In (Client.find_id obj) (ClientSpec.id_candidates obj)).
Proof.
  intros obj. rewrite find_id_is_first_candidate.
  pose proof (id_candidates_are_ints obj) as Hints.
  destruct (ClientSpec.id_candidates obj) as [| c cs]; simpl.
  - split; [tauto | congruence].
  - inversion Hints as [| ? ? Hc _]; subst. split.
    + split; [| discriminate]. intros ->. discriminate.
    + intros _. split; [exact Hc | now left].
Qed.

Lemma find_id_result_witness :
  Client.find_id (PDict [("p", PDict [("id", PStr "abc")])]) = PNone
  /\ isinstance_int
       (Client.find_id (PList [PDict [("id", PStr "abc")];
                               PDict [("identity", PInt 5)]])) = true.
Proof.
  split.
  - apply (proj1 (find_id_result (PDict [("p", PDict [("id", PStr "abc")])]))).
    reflexivity.
  - apply (proj2 (find_id_result (PList [PDict [("id", PStr "abc")];
                                         PDict [("identity", PInt 5)]]))).
    discriminate.
Defined.

(** X24: on a mapping, [extract_node_id] raises exactly when the key [n] is
    present and its value is not a mapping; the exception is an
    [AttributeError].  In every other case it returns a value or [None]. *)
Theorem extract_node_id_raises_iff :
  forall (r : dict),
    ((exists e, Client.extract_node_id r = Raise e)
     <-> exists v, lookup "n" r = Some v /\ isinstance_dict v = false)
    /\ (forall e, Client.extract_node_id r = Raise e ->
                  exn_class e = "AttributeError").
Proof.
  intros r.
  destruct (lookup "n" r) as [v |] eqn:L.
  - destruct (isinstance_dict v) eqn:D.
    + destruct v; try discriminate.
      rewrite (extract_with_n_mapping r L). split.
      * split; [intros [e H]; discriminate |].
        intros (v & [= <-] & H). discriminate.
      * intros e H. discriminate.
    + destruct (extract_with_n_not_mapping r L D) as (e & He & Hc). split.
      * split; [intros _; eauto | intros _; eauto].
      * intros e' H. rewrite He in H. injection H as <-. exact Hc.
  - rewrite (extract_without_n r L). split.
    + split; [intros [e H]; discriminate |].
      intros (v & H & _). discriminate.
    + intros e H. discriminate.
Qed.

Lemma extract_node_id_raises_iff_witness :
  exists e, Client.extract_node_id [("n", PList [PInt 3])] = Raise e.
Proof.
  apply (proj1 (extract_node_id_raises_iff [("n", PList [PInt 3])])).
  exists (PList [PInt 3]). split; reflexivity.
Defined.

(** ** The scenario, step by step *)

Section ScenarioPrefix.
Context {Net : Type} {rq : Requests Net}.
Variable base_url : string.

Ltac stopped_after k pid cid S :=
  intros [= <- <-]; exists pid, cid, k; rewrite S;
  split; [simpl firstn; rewrite <- ?app_assoc; reflexivity |];
  split; [lia | try discriminate; reflexivity].

Lemma scenario_prefix (w w' : Wire Net) (b : bool) :
  Scenario.run_comprehensive_test base_url w = (w', Ok b) ->
  exists person_id company_id k,
    sent w'
    = (sent w ++ firstn k (scenario_requests base_url person_id company_id))%list
    /\ (1 <= k <= 9)%nat
    /\ (b = true -> k = 9%nat).
Proof.
  unfold Scenario.run_comprehensive_test, req_try.
  unfold req_bind at 1.
  destruct (Neo4jMCPClient.health_check base_url w) as [w1 [h | e]] eqn:E1;
    pose proof (health_check_sent _ _ E1) as S1.
  2: { stopped_after 1%nat PNone PNone S1. }
  unfold req_bind at 1, req_lift at 1.
  destruct (py_get h "status" PNone) as [s | e].
  2: { stopped_after 1%nat PNone PNone S1. }
  destruct (negb (eq_str s "healthy")).
  { stopped_after 1%nat PNone PNone S1. }
  unfold req_bind at 1.
  destruct (Neo4jMCPClient.create_node base_url "Person" Scenario.person_data w1)
    as [w2 [pr | e]] eqn:E2;
    pose proof (create_node_sent _ _ _ _ E2) as S2; rewrite S1 in S2.
  2: { stopped_after 2%nat PNone PNone S2. }
  unfold req_bind at 1, req_lift at 1.
  destruct (extract_node_id_of pr) as [pid | e].
  2: { stopped_after 2%nat PNone PNone S2. }
  destruct (negb (truthy pid)).
  { stopped_after 2%nat PNone PNone S2. }
  unfold req_bind at 1.
  destruct (Neo4jMCPClient.create_node base_url "Company"
              Scenario.company_data w2) as [w3 [cr | e]] eqn:E3;
    pose proof (create_node_sent _ _ _ _ E3) as S3; rewrite S2 in S3.
  2: { stopped_after 3%nat PNone PNone S3. }
  unfold req_bind at 1, req_lift at 1.
  destruct (extract_node_id_of cr) as [cid | e].
  2: { stopped_after 3%nat PNone PNone S3. }
  destruct (negb (truthy cid)).
  { stopped_after 3%nat PNone PNone S3. }
  unfold req_bind at 1.
  destruct (Neo4jMCPClient.create_relationship base_url pid cid
              (PStr "WORKS_AT") Scenario.rel_props w3)
    as [w4 [rr | e]] eqn:E4;
    pose proof (create_relationship_sent _ _ _ _ _ _ E4) as S4;
    rewrite S3 in S4.
  2: { stopped_after 4%nat pid cid S4. }
  unfold req_bind at 1.
  destruct (Neo4jMCPClient.get_node base_url pid w4)
    as [w5 [gp | e]] eqn:E5;
    pose proof (get_node_sent _ _ _ E5) as S5; rewrite S4 in S5.
  2: { stopped_after 5%nat pid cid S5. }
  unfold req_bind at 1.
  destruct (Neo4jMCPClient.update_node base_url pid Scenario.update_data w5)
    as [w6 [ur | e]] eqn:E6;
    pose proof (update_node_sent _ _ _ _ E6) as S6; rewrite S5 in S6.
  2: { stopped_after 6%nat pid cid S6. }
  unfold req_bind at 1.
  destruct (Neo4jMCPClient.run_cypher base_url (PStr Scenario.cypher_query)
              (PDict [("person_id", pid)]) w6)
    as [w7 [qr | e]] eqn:E7;
    pose proof (run_cypher_sent _ _ _ _ E7) as S7; rewrite S6 in S7.
  2: { stopped_after 7%nat pid cid S7. }
  unfold req_bind at 1.
  destruct (Neo4jMCPClient.delete_node base_url pid w7)
    as [w8 [dp | e]] eqn:E8;
    pose proof (delete_node_sent _ _ _ E8) as S8; rewrite S7 in S8.
  2: { stopped_after 8%nat pid cid S8. }
  unfold req_bind at 1.
  destruct (Neo4jMCPClient.delete_node base_url cid w8)
    as [w9 [dc | e]] eqn:E9;
    pose proof (delete_node_sent _ _ _ E9) as S9; rewrite S8 in S9.
  2: { stopped_after 9%nat pid cid S9. }
  stopped_after 9%nat pid cid S9.
Qed.
End ScenarioPrefix.

(** X25: whatever the server does, the requests of one run of the scenario
    are an initial part of its nine requests, in their order, and at least
    the health check; all nine when the run returns [True].  So a DELETE is
    sent only after the seven steps before it went through: a run that fails
    earlier leaves the nodes it created in the database. *)
Theorem scenario_requests_in_order :
  forall (Net : Type) (rq : Requests Net) (base_url : string)
         (w w' : Wire Net) (b : bool),
    Scenario.run_comprehensive_test base_url w = (w', Ok b) ->
    exists person_id company_id k,
      sent w'
      = (sent w
           ++ firstn k (scenario_requests base_url person_id company_id))%list
      /\ (1 <= k <= 9)%nat
      /\ (b = true -> k = 9%nat).
Proof.
  intros Net rq base_url w w' b H. exact (scenario_prefix base_url w H).
Qed.

(** The relationship request is answered 500: four requests, no DELETE. *)
Lemma scenario_requests_in_order_witness :
  exists person_id company_id k,
    [HttpGet "http://localhost:5000/health";
     HttpPost "http://localhost:5000/nodes/Person" Scenario.person_data;
     HttpPost "http://localhost:5000/nodes/Company" Scenario.company_data;
     HttpPost "http://localhost:5000/relationships"
       (Neo4jMCPClient.relationship_body (PInt 1) (PInt 2) (PStr "WORKS_AT")
          Scenario.rel_props)]
    = firstn k (scenario_requests "http://localhost:5000"
                  person_id company_id)
    /\ (1 <= k <= 9)%nat
    /\ (false = true -> k = 9%nat).
Proof.
  exact (scenario_requests_in_order replying "http://localhost:5000"
           (dial [json_reply 200 (PDict [("status", PStr "healthy")]);
                  json_reply 201 (PDict [("n", PDict [("identity", PInt 1)])]);
                  json_reply 201 (PDict [("n", PDict [("identity", PInt 2)])]);
                  json_reply 500 (error_body "boom")])
           (w' := mkWire []
                    [HttpGet "http://localhost:5000/health";
                     HttpPost "http://localhost:5000/nodes/Person"
                       Scenario.person_data;
                     HttpPost "http://localhost:5000/nodes/Company"
                       Scenario.company_data;
                     HttpPost "http://localhost:5000/relationships"
                       (Neo4jMCPClient.relationship_body (PInt 1) (PInt 2)
                          (PStr "WORKS_AT") Scenario.rel_props)])
           (b := false) eq_refl).
Defined.
